(** * AgentScope: session parsing, analytics, anomaly rules and the live watcher

    A shallow embedding of [parser.js] (class [LogParser]), [analytics.js]
    (class [Analytics]), [anomaly.js] (class [AnomalyDetector]) and
    [watcher.js] (class [Watcher]).

    Conventions of the embedding.
    - A decoded JSONL line is a typed record ([Log.Entry]) of the shape the
      log format documents: an optional [timestamp], a [type] tag and, for
      message lines, a nested [message] object.  An absent JSON field is
      [None].
    - JavaScript numbers are exact: integer counts and token numbers are in
      [Z], money and ratios are in [Q] (compared with [==]).  Rounding of
      binary floating point is not part of the model.
    - A [Date] is its number of milliseconds since the epoch.  Local time is
      UTC shifted by a fixed offset [tz] (milliseconds); daylight-saving
      transitions are not part of the model, so a local day always lasts
      [msPerDay] milliseconds.
    - Every [/] of the source goes through [JS.div], which reports a zero
      denominator as [None]; the functions that divide live in the
      corresponding error monad. *)

From Stdlib Require Import ZArith QArith Qround List String Ascii Bool Lia Lqa Sorted.
Import ListNotations.

Local Open Scope string_scope.
Local Open Scope list_scope.
Local Open Scope Z_scope.

(** ** JavaScript helpers *)

Module JS.

(** Computations that may attempt a division by zero. *)
Definition M (A : Type) : Type := option A.

Definition ret {A} (a : A) : M A := Some a.

Definition bind {A B} (m : M A) (k : A -> M B) : M B :=
  match m with
  | Some a => k a
  | None => None
  end.

(** [a / b], observed: [None] when [b] is zero. *)
Definition div (a b : Q) : M Q :=
  if Qeq_bool b 0 then None else Some (a / b)%Q.

(** [a > b] on numbers. *)
Definition gtb (a b : Q) : bool := negb (Qle_bool a b).

(** [Math.round]: nearest integer, halves towards plus infinity. *)
Definition round (x : Q) : Z := Qfloor (x + (1 # 2))%Q.

(** [x || 0] for an optional numeric field. *)
Definition orZero (x : option Z) : Z :=
  match x with
  | Some v => v
  | None => 0
  end.

(** [arr.reduce((sum, x) => sum + f(x), 0)]. *)
Definition sumZ {A} (f : A -> Z) (l : list A) : Z :=
  fold_left (fun sum x => sum + f x) l 0.

Definition sumQ {A} (f : A -> Q) (l : list A) : Q :=
  fold_left (fun sum x => (sum + f x)%Q) l 0%Q.

(** [arr.length] and [arr.filter(p).length]. *)
Definition len {A} (l : list A) : Z := Z.of_nat (List.length l).

Definition count {A} (p : A -> bool) (l : list A) : Z := len (filter p l).

(** [arr.find(p)] followed by an in-place update of the element found:
    the first element satisfying [p] is replaced by [upd] of it. *)
Fixpoint updateFirst {A} (p : A -> bool) (upd : A -> A) (l : list A) : list A :=
  match l with
  | [] => []
  | x :: r => if p x then upd x :: r else x :: updateFirst p upd r
  end.

(** A plain object used as a counter table: its own string keys with
    their values, in the order the keys were created. *)
Definition Obj : Type := list (string * Z).

(** [o[k] = (o[k] || 0) + 1]. *)
Fixpoint objIncr (k : string) (o : Obj) : Obj :=
  match o with
  | [] => [(k, 0 + 1)]
  | (k', v) :: r =>
      if String.eqb k k' then (k', v + 1) :: r else (k', v) :: objIncr k r
  end.

Definition digitOf (c : ascii) : option N :=
  let n := N_of_ascii c in
  if (48 <=? n)%N && (n <=? 57)%N then Some (n - 48)%N else None.

Fixpoint parseDigits (s : string) (acc : N) : option N :=
  match s with
  | EmptyString => Some acc
  | String c r =>
      match digitOf c with
      | Some d => parseDigits r (10 * acc + d)%N
      | None => None
      end
  end.

(** A key that is an array index: the canonical decimal form of an
    integer below [2^32 - 1].  Such keys are enumerated first. *)
Definition arrayIndex (s : string) : option N :=
  match s with
  | EmptyString => None
  | String c r =>
      if Ascii.eqb c "0" && negb (String.eqb r EmptyString) then None
      else match parseDigits s 0 with
           | Some n => if (n <? 2 ^ 32 - 1)%N then Some n else None
           | None => None
           end
  end.

Fixpoint insertIndexKey (x : N * (string * Z)) (l : list (N * (string * Z)))
  : list (N * (string * Z)) :=
  match l with
  | [] => [x]
  | y :: r => if (fst x <? fst y)%N then x :: l else y :: insertIndexKey x r
  end.

(** [Object.entries(o)]: array-index keys in ascending numeric order, then
    the other keys in creation order. *)
Definition entries (o : Obj) : list (string * Z) :=
  let indexed :=
    fold_right (fun kv acc =>
                  match arrayIndex (fst kv) with
                  | Some n => insertIndexKey (n, kv) acc
                  | None => acc
                  end) [] o in
  map snd indexed ++
  filter (fun kv => match arrayIndex (fst kv) with
                    | Some _ => false
                    | None => true
                    end) o.

Fixpoint insertDesc (x : string * Z) (l : list (string * Z)) : list (string * Z) :=
  match l with
  | [] => [x]
  | y :: r => if snd y <=? snd x then x :: l else y :: insertDesc x r
  end.

(** [arr.sort((a, b) => b[1] - a[1])]: descending by count, stable. *)
Definition sortDesc (l : list (string * Z)) : list (string * Z) :=
  fold_right insertDesc [] l.

(** [arr[i]++] on an array that has index [i]. *)
Fixpoint incrAt (i : nat) (l : list Z) : list Z :=
  match l, i with
  | [], _ => []
  | x :: r, O => (x + 1) :: r
  | x :: r, S i' => x :: incrAt i' r
  end.

(** [Math.max(...arr)] on a non-empty array. *)
Definition maxOf (l : list Z) : Z := fold_left Z.max l (hd 0 l).

(** [arr.indexOf(v)]. *)
Fixpoint indexOf (v : Z) (l : list Z) : Z :=
  match l with
  | [] => -1
  | x :: r =>
      if x =? v then 0
      else let k := indexOf v r in if k <? 0 then -1 else k + 1
  end.

(** [[...new Set(arr)]]: first occurrences, in order. *)
Definition unique (l : list string) : list string :=
  fold_left (fun acc x => if existsb (String.eqb x) acc then acc else acc ++ [x]) l [].

(** [a === b] on optional strings ([undefined === undefined] holds). *)
Definition optStrEq (a b : option string) : bool :=
  match a, b with
  | Some x, Some y => String.eqb x y
  | None, None => true
  | _, _ => false
  end.

End JS.

Notation "x <- m ;; k" := (JS.bind m (fun x => k))
  (at level 61, m at next level, right associativity).

(** ** Decoded log lines *)

Module Log.

(** One block of [message.content]. *)
Record Block := mkBlock {
  b_type : string;
  b_id : option string;
  b_name : option string
}.

(** [message.usage]; [u_cost] is [usage.cost?.total]. *)
Record Usage := mkUsage {
  u_input : option Z;
  u_output : option Z;
  u_cacheRead : option Z;
  u_cacheWrite : option Z;
  u_totalTokens : option Z;
  u_cost : option Q
}.

(** [entry.message]. *)
Record Msg := mkMsg {
  m_role : string;
  m_content : option (list Block);
  m_usage : option Usage;
  m_toolCallId : option string;
  m_isError : bool;
  m_toolName : option string
}.

(** One decoded line. *)
Record Entry := mkEntry {
  e_timestamp : option Z;
  e_type : string;
  e_id : option string;
  e_modelId : option string;
  e_provider : option string;
  e_message : option Msg
}.

Definition isToolCall (b : Block) : bool := String.eqb (b_type b) "toolCall".

End Log.

(** ** parser.js *)

Module LogParser.
Import Log.

(** A message of a session; [msg_timestamp] is [new Date(entry.timestamp)],
    [None] standing for the invalid date of a line without timestamp. *)
Record Message := mkMessage {
  msg_role : string;
  msg_timestamp : option Z;
  hasToolCalls : bool
}.

Record ToolResult := mkToolResult {
  isError : bool;
  res_timestamp : option Z
}.

Record ToolCall := mkToolCall {
  tc_id : option string;
  tc_name : option string;
  tc_timestamp : option Z;
  tc_result : option ToolResult
}.

Record TokenUsage := mkTokens {
  input : Z;
  output : Z;
  cacheRead : Z;
  cacheWrite : Z;
  total : Z
}.

Record Session := mkSession {
  id : string;
  file : string;
  startTime : option Z;
  endTime : option Z;
  messages : list Message;
  toolCalls : list ToolCall;
  tokens : TokenUsage;
  cost : Q;
  model : option string;
  provider : option string;
  durationMs : option Z
}.

(** The session object [processSession] starts from; [name] is
    [path.basename(filePath, '.jsonl')]. *)
Definition emptySession (name filePath : string) : Session :=
  {| id := name; file := filePath;
     startTime := None; endTime := None;
     messages := []; toolCalls := [];
     tokens := mkTokens 0 0 0 0 0;
     cost := 0%Q;
     model := None; provider := None;
     durationMs := None |}.

(** "Extract timestamp". *)
Definition stepTimestamp (e : Entry) (s : Session) : Session :=
  match e_timestamp e with
  | None => s
  | Some ts =>
      let start' :=
        match startTime s with
        | None => Some ts
        | Some st => if ts <? st then Some ts else Some st
        end in
      let end' :=
        match endTime s with
        | None => Some ts
        | Some en => if en <? ts then Some ts else Some en
        end in
      {| id := id s; file := file s;
         startTime := start'; endTime := end';
         messages := messages s; toolCalls := toolCalls s;
         tokens := tokens s; cost := cost s;
         model := model s; provider := provider s;
         durationMs := durationMs s |}
  end.

(** "Extract session metadata": [session.id = entry.id || session.id]. *)
Definition stepMeta (e : Entry) (s : Session) : Session :=
  if String.eqb (e_type e) "session" then
    let id' :=
      match e_id e with
      | Some i => if String.eqb i EmptyString then id s else i
      | None => id s
      end in
    {| id := id'; file := file s;
       startTime := startTime s; endTime := endTime s;
       messages := messages s; toolCalls := toolCalls s;
       tokens := tokens s; cost := cost s;
       model := model s; provider := provider s;
       durationMs := durationMs s |}
  else s.

(** "Extract model info". *)
Definition stepModel (e : Entry) (s : Session) : Session :=
  if String.eqb (e_type e) "model_change" then
    {| id := id s; file := file s;
       startTime := startTime s; endTime := endTime s;
       messages := messages s; toolCalls := toolCalls s;
       tokens := tokens s; cost := cost s;
       model := e_modelId e; provider := e_provider e;
       durationMs := durationMs s |}
  else s.

(** The usage block of an assistant message added into the totals. *)
Definition addUsage (u : Usage) (t : TokenUsage) : TokenUsage :=
  {| input := input t + JS.orZero (u_input u);
     output := output t + JS.orZero (u_output u);
     cacheRead := cacheRead t + JS.orZero (u_cacheRead u);
     cacheWrite := cacheWrite t + JS.orZero (u_cacheWrite u);
     total := total t + JS.orZero (u_totalTokens u) |}.

(** [if (usage.cost?.total) session.cost += usage.cost.total]. *)
Definition addCost (u : Usage) (c : Q) : Q :=
  match u_cost u with
  | Some d => if Qeq_bool d 0 then c else (c + d)%Q
  | None => c
  end.

(** The tool calls pushed for the blocks of one message. *)
Definition blockCalls (ts : option Z) (content : option (list Block)) : list ToolCall :=
  match content with
  | None => []
  | Some blocks =>
      map (fun b => mkToolCall (b_id b) (b_name b) ts None)
          (filter isToolCall blocks)
  end.

(** "Extract messages", with the usage and tool-call extraction nested in it. *)
Definition stepMessage (e : Entry) (s : Session) : Session :=
  match e_message e with
  | Some msg =>
      if String.eqb (e_type e) "message" then
        let m := {| msg_role := m_role msg;
                    msg_timestamp := e_timestamp e;
                    hasToolCalls :=
                      match m_content msg with
                      | Some blocks => existsb isToolCall blocks
                      | None => false
                      end |} in
        let counted :=
          match m_usage msg with
          | Some u =>
              if String.eqb (m_role msg) "assistant"
              then (addUsage u (tokens s), addCost u (cost s))
              else (tokens s, cost s)
          | None => (tokens s, cost s)
          end in
        {| id := id s; file := file s;
           startTime := startTime s; endTime := endTime s;
           messages := messages s ++ [m];
           toolCalls := toolCalls s ++ blockCalls (e_timestamp e) (m_content msg);
           tokens := fst counted; cost := snd counted;
           model := model s; provider := provider s;
           durationMs := durationMs s |}
      else s
  | None => s
  end.

(** "Extract tool results". *)
Definition stepToolResult (e : Entry) (s : Session) : Session :=
  match e_message e with
  | Some result =>
      if String.eqb (e_type e) "message" && String.eqb (m_role result) "toolResult" then
        {| id := id s; file := file s;
           startTime := startTime s; endTime := endTime s;
           messages := messages s;
           toolCalls :=
             JS.updateFirst
               (fun t => JS.optStrEq (tc_id t) (m_toolCallId result))
               (fun t => mkToolCall (tc_id t) (tc_name t) (tc_timestamp t)
                           (Some (mkToolResult (m_isError result) (e_timestamp e))))
               (toolCalls s);
           tokens := tokens s; cost := cost s;
           model := model s; provider := provider s;
           durationMs := durationMs s |}
      else s
  | None => s
  end.

(** The body of [for (const entry of lines)]. *)
Definition foldEntry (s : Session) (e : Entry) : Session :=
  stepToolResult e (stepMessage e (stepModel e (stepMeta e (stepTimestamp e s)))).

(** The session after the loop over [lines]. *)
Definition foldEntries (s : Session) (lines : list Entry) : Session :=
  fold_left foldEntry lines s.

(** "Calculate duration". *)
Definition finish (s : Session) : Session :=
  match startTime s, endTime s with
  | Some st, Some en =>
      {| id := id s; file := file s;
         startTime := startTime s; endTime := endTime s;
         messages := messages s; toolCalls := toolCalls s;
         tokens := tokens s; cost := cost s;
         model := model s; provider := provider s;
         durationMs := Some (en - st) |}
  | _, _ => s
  end.

Definition processSession (lines : list Entry) (name filePath : string) : Session :=
  finish (foldEntries (emptySession name filePath) lines).

End LogParser.

(** ** analytics.js *)

Module Analytics.
Import LogParser.

Definition msPerHour : Z := 3600000.
Definition msPerDay : Z := 24 * msPerHour.

(** [new Analytics(sessions)]; [now] is the date taken by the constructor. *)
Record t := mk {
  sessions : list Session;
  now : Z
}.

Record DailyStat := mkDailyStat {
  date : Z;
  d_sessions : Z;
  d_messages : Z;
  d_toolCalls : Z;
  d_tokens : Z;
  d_cost : Q;
  userMessages : Z;
  assistantMessages : Z
}.

Record WindowSummary := mkSummary {
  totalSessions : Z;
  totalMessages : Z;
  totalToolCalls : Z;
  totalTokens : Z;
  totalCost : Q;
  avgTokensPerSession : Z;
  avgMessagesPerSession : Z;
  topTools : list (string * Z);
  peakHour : Z;
  hourlyActivity : list Z;
  models : list string;
  toolErrors : Z
}.

(** [d.setDate(d.getDate() + n)]. *)
Definition addDays (d n : Z) : Z := d + n * msPerDay.

(** [d.toISOString().split('T')[0]], as the number of the UTC day, of which
    the printed date is a one-to-one rendering. *)
Definition isoDate (d : Z) : Z := d / msPerDay.

Definition hasRole (r : string) (m : Message) : bool := String.eqb (msg_role m) r.

(** [tc.result?.isError]. *)
Definition resultIsError (tc : ToolCall) : bool :=
  match tc_result tc with
  | Some r => isError r
  | None => false
  end.

(** The key [tc.name] denotes in [toolCallCounts[tc.name]]. *)
Definition nameKey (tc : ToolCall) : string :=
  match tc_name tc with
  | Some n => n
  | None => "undefined"
  end.

Section LocalTime.

(** Offset of local time from UTC, in milliseconds. *)
Variable tz : Z.

(** [d.setHours(0, 0, 0, 0)]. *)
Definition startOfDay (d : Z) : Z := d - (d + tz) mod msPerDay.

(** [d.getHours()]. *)
Definition getHours (d : Z) : Z := ((d + tz) mod msPerDay) / msPerHour.

Definition filterByDays (a : t) (days : Z) : list Session :=
  let cutoff := addDays (now a) (- days) in
  filter (fun s => match startTime s with
                   | Some st => cutoff <=? st
                   | None => false
                   end) (sessions a).

(** First instant of the bucket [i] days before today. *)
Definition bucketStart (a : t) (i : Z) : Z := startOfDay (addDays (now a) (- i)).

Definition daySessions (a : t) (i : Z) : list Session :=
  let date := bucketStart a i in
  let nextDate := addDays date 1 in
  filter (fun s => match startTime s with
                   | Some st => (date <=? st) && (st <? nextDate)
                   | None => false
                   end) (sessions a).

(** The object pushed by one iteration of the loop of [getDailyStats]. *)
Definition dayStat (a : t) (i : Z) : DailyStat :=
  let ds := daySessions a i in
  {| date := isoDate (bucketStart a i);
     d_sessions := JS.len ds;
     d_messages := JS.sumZ (fun s => JS.len (messages s)) ds;
     d_toolCalls := JS.sumZ (fun s => JS.len (toolCalls s)) ds;
     d_tokens := JS.sumZ (fun s => total (tokens s)) ds;
     d_cost := JS.sumQ cost ds;
     userMessages := JS.sumZ (fun s => JS.count (hasRole "user") (messages s)) ds;
     assistantMessages :=
       JS.sumZ (fun s => JS.count (hasRole "assistant") (messages s)) ds |}.

(** [for (let i = 0; i < days; i++) stats.push(...)], with [n] iterations left. *)
Fixpoint dailyLoop (a : t) (n : nat) (i : Z) (stats : list DailyStat) : list DailyStat :=
  match n with
  | O => stats
  | S n' => dailyLoop a n' (i + 1) (stats ++ [dayStat a i])
  end.

Definition getDailyStats (a : t) (days : Z) : list DailyStat :=
  rev (dailyLoop a (Z.to_nat days) 0 []).

(** One iteration of the loop over the sessions of the window. *)
Definition tally (acc : JS.Obj * list Z) (s : Session) : JS.Obj * list Z :=
  let counts := fold_left (fun o tc => JS.objIncr (nameKey tc) o) (toolCalls s) (fst acc) in
  let hourly :=
    match startTime s with
    | Some st => JS.incrAt (Z.to_nat (getHours st)) (snd acc)
    | None => snd acc
    end in
  (counts, hourly).

(** [sessions.length > 0 ? Math.round(sum / sessions.length) : 0]. *)
Definition average (sum n : Z) : JS.M Z :=
  if 0 <? n then
    q <- JS.div (inject_Z sum) (inject_Z n) ;;
    JS.ret (JS.round q)
  else JS.ret 0.

Definition truthyModel (m : option string) : list string :=
  match m with
  | Some n => if String.eqb n EmptyString then [] else [n]
  | None => []
  end.

Definition getWeeklySummary (a : t) (days : Z) : JS.M WindowSummary :=
  let ss := filterByDays a days in
  let tallied := fold_left tally ss ([], repeat 0 24) in
  let toolCallCounts := fst tallied in
  let hourly := snd tallied in
  let top := firstn 10 (JS.sortDesc (JS.entries toolCallCounts)) in
  let peak := JS.indexOf (JS.maxOf hourly) hourly in
  avgTokens <- average (JS.sumZ (fun s => total (tokens s)) ss) (JS.len ss) ;;
  avgMessages <- average (JS.sumZ (fun s => JS.len (messages s)) ss) (JS.len ss) ;;
  JS.ret
    {| totalSessions := JS.len ss;
       totalMessages := JS.sumZ (fun s => JS.len (messages s)) ss;
       totalToolCalls := JS.sumZ (fun s => JS.len (toolCalls s)) ss;
       totalTokens := JS.sumZ (fun s => total (tokens s)) ss;
       totalCost := JS.sumQ cost ss;
       avgTokensPerSession := avgTokens;
       avgMessagesPerSession := avgMessages;
       topTools := top;
       peakHour := peak;
       hourlyActivity := hourly;
       models := JS.unique (flat_map (fun s => truthyModel (model s)) ss);
       toolErrors := JS.sumZ (fun s => JS.count resultIsError (toolCalls s)) ss |}.

End LocalTime.

(** The object built by [getToolStats]: for each tool name, in creation
    order, its [count] and its [errors]. *)
Definition ToolStats : Type := list (string * (Z * Z)).

(** One iteration of the inner loop of [getToolStats] for a call named [k]
    whose result is an error or not. *)
Fixpoint statIncr (k : string) (err : bool) (stats : ToolStats) : ToolStats :=
  match stats with
  | [] => [(k, (0 + 1, if err then 0 + 1 else 0))]
  | (k', (c, e)) :: r =>
      if String.eqb k k'
      then (k', (c + 1, if err then e + 1 else e)) :: r
      else (k', (c, e)) :: statIncr k err r
  end.


End Analytics.

(** ** anomaly.js *)

Module AnomalyDetector.
Import Analytics.

Inductive AnomalyType :=
| token_spike
| high_error_rate
| unusual_hours
| cost_spike
| activity_gap
| tool_dominance
| high_tool_frequency.

Inductive Severity := low | medium | high.

(** A finding.  Its [message] text, a rendering of the numbers below for
    the terminal, is not modelled. *)
Record Anomaly := mkAnomaly {
  a_type : AnomalyType;
  severity : Severity;
  a_date : option Z;
  value : Q;
  threshold : option Q;
  tool : option string
}.

Definition typeEqb (x y : AnomalyType) : bool :=
  match x, y with
  | token_spike, token_spike
  | high_error_rate, high_error_rate
  | unusual_hours, unusual_hours
  | cost_spike, cost_spike
  | activity_gap, activity_gap
  | tool_dominance, tool_dominance
  | high_tool_frequency, high_tool_frequency => true
  | _, _ => false
  end.

(** The findings of one rule among a list of findings. *)
Definition ofType (ty : AnomalyType) (l : list Anomaly) : list Anomaly :=
  filter (fun x => typeEqb (a_type x) ty) l.

Definition detectTokenSpikes (dailyStats : list DailyStat) (weeklyStats : WindowSummary)
  : JS.M (list Anomaly) :=
  avgDaily <- JS.div (inject_Z (totalTokens weeklyStats)) 7 ;;
  JS.ret
    (fold_left
       (fun anomalies day =>
          if JS.gtb (inject_Z (d_tokens day)) (avgDaily * 3)
             && JS.gtb (inject_Z (d_tokens day)) 10000
          then anomalies ++
               [ {| a_type := token_spike; severity := medium;
                    a_date := Some (date day);
                    value := inject_Z (d_tokens day);
                    threshold := Some (avgDaily * 3)%Q;
                    tool := None |} ]
          else anomalies)
       dailyStats []).

Definition errorRate (weeklyStats : WindowSummary) : JS.M Q :=
  if 0 <? totalToolCalls weeklyStats
  then JS.div (inject_Z (toolErrors weeklyStats)) (inject_Z (totalToolCalls weeklyStats))
  else JS.ret 0%Q.

Definition detectToolErrors (weeklyStats : WindowSummary) : JS.M (list Anomaly) :=
  rate <- errorRate weeklyStats ;;
  JS.ret
    (if JS.gtb rate (1 # 10) && (5 <? toolErrors weeklyStats)
     then [ {| a_type := high_error_rate; severity := high;
               a_date := None; value := rate;
               threshold := Some (1 # 10); tool := None |} ]
     else []).

Definition nightActivity (weeklyStats : WindowSummary) : Z :=
  JS.sumZ (fun v => v) (firstn 6 (hourlyActivity weeklyStats)).

Definition nightRatio (weeklyStats : WindowSummary) : JS.M Q :=
  let totalActivity := JS.sumZ (fun v => v) (hourlyActivity weeklyStats) in
  if 0 <? totalActivity
  then JS.div (inject_Z (nightActivity weeklyStats)) (inject_Z totalActivity)
  else JS.ret 0%Q.

Definition detectUnusualHours (weeklyStats : WindowSummary) : JS.M (list Anomaly) :=
  ratio <- nightRatio weeklyStats ;;
  JS.ret
    (if JS.gtb ratio (3 # 10) && (5 <? nightActivity weeklyStats)
     then [ {| a_type := unusual_hours; severity := low;
               a_date := None; value := ratio;
               threshold := Some (3 # 10); tool := None |} ]
     else []).

Definition detectCostSpikes (dailyStats : list DailyStat) (weeklyStats : WindowSummary)
  : JS.M (list Anomaly) :=
  avgDaily <- JS.div (totalCost weeklyStats) 7 ;;
  JS.ret
    (fold_left
       (fun anomalies day =>
          if JS.gtb (d_cost day) (avgDaily * 3) && JS.gtb (d_cost day) (1 # 2)
          then anomalies ++
               [ {| a_type := cost_spike; severity := high;
                    a_date := Some (date day);
                    value := d_cost day;
                    threshold := Some (avgDaily * 3)%Q;
                    tool := None |} ]
          else anomalies)
       dailyStats []).

Definition gapFinding (day : DailyStat) (run : Z) : Anomaly :=
  {| a_type := activity_gap; severity := low;
     a_date := Some (date day);
     value := inject_Z run;
     threshold := None; tool := None |}.

(** One iteration of the loop of [detectActivityGaps]; the state is the
    array of findings and the counter [consecutiveZero]. *)
Definition gapStep (st : list Anomaly * Z) (day : DailyStat) : list Anomaly * Z :=
  let '(anomalies, consecutiveZero) := st in
  if d_sessions day =? 0 then
    let consecutiveZero' := consecutiveZero + 1 in
    if 2 <=? consecutiveZero'
    then (anomalies ++ [gapFinding day consecutiveZero'], consecutiveZero')
    else (anomalies, consecutiveZero')
  else (anomalies, 0).

Definition detectActivityGaps (dailyStats : list DailyStat) : list Anomaly :=
  fst (fold_left gapStep dailyStats ([], 0)).

(** The loop over [topTools]; the division is not guarded. *)
Fixpoint dominanceLoop (totalCalls : Z) (top : list (string * Z)) (anomalies : list Anomaly)
  : JS.M (list Anomaly) :=
  match top with
  | [] => JS.ret anomalies
  | (name, count) :: rest =>
      ratio <- JS.div (inject_Z count) (inject_Z totalCalls) ;;
      dominanceLoop totalCalls rest
        (if JS.gtb ratio (1 # 2) && (50 <? count)
         then anomalies ++
              [ {| a_type := tool_dominance; severity := low;
                   a_date := None; value := ratio;
                   threshold := None; tool := Some name |} ]
         else anomalies)
  end.

Definition toolsPerSession (weeklyStats : WindowSummary) : JS.M Q :=
  if 0 <? totalSessions weeklyStats
  then JS.div (inject_Z (totalToolCalls weeklyStats)) (inject_Z (totalSessions weeklyStats))
  else JS.ret 0%Q.

Definition detectHighToolUsage (weeklyStats : WindowSummary) : JS.M (list Anomaly) :=
  anomalies <- dominanceLoop (totalToolCalls weeklyStats) (topTools weeklyStats) [] ;;
  perSession <- toolsPerSession weeklyStats ;;
  JS.ret
    (if JS.gtb perSession 100
     then anomalies ++
          [ {| a_type := high_tool_frequency; severity := medium;
               a_date := None; value := perSession;
               threshold := Some 100%Q; tool := None |} ]
     else anomalies).

Section LocalTime.

Variable tz : Z.

Definition detect (analytics : Analytics.t) : JS.M (list Anomaly) :=
  let anomalies := [] in
  weeklyStats <- getWeeklySummary tz analytics 7 ;;
  let dailyStats := getDailyStats tz analytics 7 in
  found <- detectTokenSpikes dailyStats weeklyStats ;;
  let anomalies := anomalies ++ found in
  found <- detectToolErrors weeklyStats ;;
  let anomalies := anomalies ++ found in
  found <- detectUnusualHours weeklyStats ;;
  let anomalies := anomalies ++ found in
  found <- detectCostSpikes dailyStats weeklyStats ;;
  let anomalies := anomalies ++ found in
  let anomalies := anomalies ++ detectActivityGaps dailyStats in
  found <- detectHighToolUsage weeklyStats ;;
  let anomalies := anomalies ++ found in
  JS.ret anomalies.

End LocalTime.

End AnomalyDetector.

(** ** String tests *)

Module Str.

(** [s.includes(sub)]. *)
Definition includes (s sub : string) : bool :=
  match String.index 0 sub s with
  | Some _ => true
  | None => false
  end.

(** [s.endsWith(suffix)]. *)
Definition endsWith (s suffix : string) : bool :=
  let n := String.length s in
  let m := String.length suffix in
  (m <=? n)%nat && String.eqb (String.substring (n - m) m s) suffix.

End Str.

(** ** watcher.js *)

Module Watcher.
Import Log.

Record RunningStats := mkStats {
  messages : Z;
  toolCalls : Z;
  tokens : Z;
  errors : Z;
  lastActivity : option Z
}.

(** The counters a new [Watcher] starts with. *)
Definition initialStats : RunningStats := mkStats 0 0 0 0 None.

(** [this.stats.tokens += msg.usage.totalTokens || 0] when [msg.usage]. *)
Definition usedTokens (msg : Msg) : Z :=
  match m_usage msg with
  | Some u => JS.orZero (u_totalTokens u)
  | None => 0
  end.

(** The number of [toolCall] blocks of [msg.content]. *)
Definition calledTools (msg : Msg) : Z :=
  match m_content msg with
  | Some blocks => JS.count isToolCall blocks
  | None => 0
  end.

(** [processEntry(entry)] on the counters; [clock] is the [new Date()] used
    for an entry without timestamp.  The lines printed are not modelled. *)
Definition processEntry (clock : Z) (st : RunningStats) (entry : Entry) : RunningStats :=
  let timestamp :=
    match e_timestamp entry with
    | Some ts => ts
    | None => clock
    end in
  let st := mkStats (messages st) (toolCalls st) (tokens st) (errors st) (Some timestamp) in
  match e_message entry with
  | Some msg =>
      if String.eqb (e_type entry) "message" then
        let st :=
          if String.eqb (m_role msg) "user"
          then mkStats (messages st + 1) (toolCalls st) (tokens st) (errors st) (lastActivity st)
          else st in
        let st :=
          if String.eqb (m_role msg) "assistant"
          then mkStats (messages st) (toolCalls st + calledTools msg)
                       (tokens st + usedTokens msg) (errors st) (lastActivity st)
          else st in
        let st :=
          if String.eqb (m_role msg) "toolResult" && m_isError msg
          then mkStats (messages st) (toolCalls st) (tokens st) (errors st + 1) (lastActivity st)
          else st in
        st
      else st
  | None => st
  end.

(** [this.filePositions]: paths with their byte offsets. *)
Definition Positions : Type := list (string * Z).

(** [filePositions.get(path)]. *)
Fixpoint getPos (path : string) (m : Positions) : option Z :=
  match m with
  | [] => None
  | (k, v) :: r => if String.eqb path k then Some v else getPos path r
  end.

(** [filePositions.set(path, v)]. *)
Fixpoint setPos (path : string) (v : Z) (m : Positions) : Positions :=
  match m with
  | [] => [(path, v)]
  | (k, w) :: r => if String.eqb path k then (k, v) :: r else (k, w) :: setPos path v r
  end.

(** The mutable state of a watcher. *)
Record State := mkState {
  filePositions : Positions;
  stats : RunningStats
}.

(** The name filter of [scanExisting]. *)
Definition listed (f : string) : bool :=
  Str.endsWith f ".jsonl" && negb (Str.includes f ".lock")
  && negb (Str.includes f ".deleted").

(** The name filter of the [add] and [change] handlers. *)
Definition watched (path : string) : bool :=
  Str.endsWith path ".jsonl" && negb (Str.includes path ".lock").

Section Files.

(** [fs.statSync(path).size]. *)
Variable size : string -> Z.

(** The entries decoded from the lines of [path] that start at byte
    [start], blank and undecodable lines left out, each with the time at
    which it is processed. *)
Variable arrivals : string -> Z -> list (Z * Entry).

(** [`${this.logPath}/${file}`]. *)
Variable fullPath : string -> string.

(** [filePositions.get(filePath) || 0]. *)
Definition startPos (st : State) (filePath : string) : Z :=
  match getPos filePath (filePositions st) with
  | Some p => p
  | None => 0
  end.

Definition processNewLines (st : State) (filePath : string) : State :=
  if size filePath <=? startPos st filePath then st
  else
    {| filePositions := setPos filePath (size filePath) (filePositions st);
       stats := fold_left (fun acc te => processEntry (fst te) acc (snd te))
                          (arrivals filePath (startPos st filePath)) (stats st) |}.

(** [scanExisting()]; the directory listing is [None] when the path does
    not exist. *)
Definition scanExisting (st : State) (dir : option (list string)) : State :=
  match dir with
  | None => st
  | Some files =>
      {| filePositions :=
           fold_left (fun m f => setPos (fullPath f) (size (fullPath f)) m)
                     (filter listed files) (filePositions st);
         stats := stats st |}
  end.

(** The [change] handler. *)
Definition onChange (st : State) (path : string) : State :=
  if watched path then processNewLines st path else st.

(** The [add] handler. *)
Definition onAdd (st : State) (path : string) : State :=
  if watched path
  then {| filePositions := setPos path 0 (filePositions st); stats := stats st |}
  else st.

End Files.

End Watcher.

(** ** Vocabulary of the specification *)

Module Spec.
Import Log LogParser.

(** Sums written as in the specification ("the sum of ... over ..."). *)
Definition sumOverZ {A} (f : A -> Z) (l : list A) : Z :=
  fold_right (fun x acc => f x + acc) 0 l.


(** The message carried by a message event. *)
Definition messageOf (e : Entry) : option Msg :=
  if String.eqb (e_type e) "message" then e_message e else None.

(** The assistant messages of a file, in order. *)
Definition assistantMessages (lines : list Entry) : list Msg :=
  flat_map (fun e => match messageOf e with
                     | Some msg => if String.eqb (m_role msg) "assistant" then [msg] else []
                     | None => []
                     end) lines.

(** Total-token and cost fields of the usage delta of a message; a field
    that is absent counts for nothing. *)
Definition deltaTotal (msg : Msg) : Z :=
  match m_usage msg with
  | Some u => JS.orZero (u_totalTokens u)
  | None => 0
  end.


(** Call ids of the tool invocations produced by the events of a file. *)
Definition producedIds (lines : list Entry) : list (option string) :=
  flat_map (fun e => match messageOf e with
                     | Some msg => map tc_id (blockCalls (e_timestamp e) (m_content msg))
                     | None => []
                     end) lines.

Definition withResult (tc : ToolCall) (r : ToolResult) : ToolCall :=
  mkToolCall (tc_id tc) (tc_name tc) (tc_timestamp tc) (Some r).

(** [after] is [before] with the result [r] attached to the first call
    whose id is [x], everything else untouched. *)
Definition attached (x : option string) (r : ToolResult)
           (before after : list ToolCall) : Prop :=
  exists l1 tc l2,
    before = l1 ++ tc :: l2 /\
    tc_id tc = x /\
    (forall t', In t' l1 -> tc_id t' <> x) /\
    after = l1 ++ withResult tc r :: l2.





(** The start of a session is at or after [from]. *)
Definition startsFrom (from : Z) (s : Session) : Prop :=
  exists st, startTime s = Some st /\ from <= st.


(** The row of a day without sessions. *)
Definition zeroRow (d : Z) : Analytics.DailyStat :=
  Analytics.mkDailyStat d 0 0 0 0 0 0 0.

(** The session starts inside one of the [days] calendar buckets that end
    with the local day of [now]. *)
Definition inCalendarSpan (tz : Z) (a : Analytics.t) (days : Z) (s : Session) : bool :=
  match startTime s with
  | Some st =>
      (Analytics.bucketStart tz a (days - 1) <=? st) &&
      (st <? Analytics.addDays (Analytics.bucketStart tz a 0) 1)
  | None => false
  end.

(** The session starts inside the calendar bucket [i] days before today. *)
Definition inBucket (tz : Z) (a : Analytics.t) (i : Z) (s : Session) : bool :=
  match startTime s with
  | Some st =>
      (Analytics.bucketStart tz a i <=? st) &&
      (st <? Analytics.addDays (Analytics.bucketStart tz a i) 1)
  | None => false
  end.

(** The value of a guarded average. *)
Definition averageValue (sum n : Z) : Z :=
  if 0 <? n then JS.round (inject_Z sum / inject_Z n)%Q else 0.

Definition isZeroDay (d : Analytics.DailyStat) : bool := Analytics.d_sessions d =? 0.

(** Number of zero-session days at the head of a list. *)
Fixpoint leadingZeros (l : list Analytics.DailyStat) : Z :=
  match l with
  | d :: r => if isZeroDay d then 1 + leadingZeros r else 0
  | [] => 0
  end.

(** Length of the run of consecutive zero-session days that ends at
    position [k] (zero when day [k] has sessions). *)
Definition zeroRunAt (ds : list Analytics.DailyStat) (k : nat) : Z :=
  leadingZeros (rev (firstn (S k) ds)).

(** One finding for every position where the current run has length at
    least two. *)
Definition gapFindings (ds : list Analytics.DailyStat) : list AnomalyDetector.Anomaly :=
  flat_map (fun k => match nth_error ds k with
                     | Some day =>
                         if 2 <=? zeroRunAt ds k
                         then [AnomalyDetector.gapFinding day (zeroRunAt ds k)]
                         else []
                     | None => []
                     end)
           (seq 0 (List.length ds)).

(** The findings of a maximal run of zero-session days: none for its
    first day, then one per day, valued 2, 3, ... *)
Definition runFindings (run : list Analytics.DailyStat) : list AnomalyDetector.Anomaly :=
  map (fun p => AnomalyDetector.gapFinding (snd p) (Z.of_nat (fst p) + 2))
      (combine (seq 0 (List.length run)) (tl run)).

(** What the loop of [detectActivityGaps] emits, and the counter it ends
    with, when it starts with counter [c]. *)
Fixpoint gapsFrom (c : Z) (ds : list Analytics.DailyStat) : list AnomalyDetector.Anomaly :=
  match ds with
  | [] => []
  | d :: r =>
      if isZeroDay d
      then (if 2 <=? c + 1 then [AnomalyDetector.gapFinding d (c + 1)] else [])
           ++ gapsFrom (c + 1) r
      else gapsFrom 0 r
  end.

Fixpoint runAfter (c : Z) (ds : list Analytics.DailyStat) : Z :=
  match ds with
  | [] => c
  | d :: r => if isZeroDay d then runAfter (c + 1) r else runAfter 0 r
  end.

(** The finding pushed for a tool that dominates. *)
Definition dominanceFinding (ratio : Q) (name : string) : AnomalyDetector.Anomaly :=
  {| AnomalyDetector.a_type := AnomalyDetector.tool_dominance;
     AnomalyDetector.severity := AnomalyDetector.low;
     AnomalyDetector.a_date := None;
     AnomalyDetector.value := ratio;
     AnomalyDetector.threshold := None;
     AnomalyDetector.tool := Some name |}.

(** The findings of one rule of the detector, computed on their own. *)
Definition ruleFindings (tz : Z) (a : Analytics.t) (ty : AnomalyDetector.AnomalyType)
  : JS.M (list AnomalyDetector.Anomaly) :=
  weeklyStats <- Analytics.getWeeklySummary tz a 7 ;;
  let dailyStats := Analytics.getDailyStats tz a 7 in
  match ty with
  | AnomalyDetector.token_spike => AnomalyDetector.detectTokenSpikes dailyStats weeklyStats
  | AnomalyDetector.high_error_rate => AnomalyDetector.detectToolErrors weeklyStats
  | AnomalyDetector.unusual_hours => AnomalyDetector.detectUnusualHours weeklyStats
  | AnomalyDetector.cost_spike => AnomalyDetector.detectCostSpikes dailyStats weeklyStats
  | AnomalyDetector.activity_gap => JS.ret (AnomalyDetector.detectActivityGaps dailyStats)
  | AnomalyDetector.tool_dominance =>
      l <- AnomalyDetector.detectHighToolUsage weeklyStats ;;
      JS.ret (AnomalyDetector.ofType AnomalyDetector.tool_dominance l)
  | AnomalyDetector.high_tool_frequency =>
      l <- AnomalyDetector.detectHighToolUsage weeklyStats ;;
      JS.ret (AnomalyDetector.ofType AnomalyDetector.high_tool_frequency l)
  end.

End Spec.

(** ** Sample inputs *)

Module Sample.
Import Log LogParser.

Definition callBlock (i : string) : Block := mkBlock "toolCall" (Some i) (Some "exec").

Definition userLine (ts : Z) : Entry :=
  mkEntry (Some ts) "message" None None None
          (Some (mkMsg "user" None None None false None)).

Definition assistantLine (ts : Z) (blocks : list Block) (u : option Usage) : Entry :=
  mkEntry (Some ts) "message" None None None
          (Some (mkMsg "assistant" (Some blocks) u None false None)).

Definition resultMsg (i : string) (err : bool) (blocks : option (list Block)) : Msg :=
  mkMsg "toolResult" blocks None (Some i) err None.

Definition resultLine (ts : Z) (i : string) (err : bool) : Entry :=
  mkEntry (Some ts) "message" None None None (Some (resultMsg i err None)).

Definition usage (tot : Z) (c : Q) : Usage :=
  mkUsage (Some 5) (Some 6) None None (Some tot) (Some c).

(** Noon of the eleventh day after the epoch. *)
Definition noon : Z := 907200000.

(** One session, an hour before [noon]: six failing tool calls, cost 10. *)
Definition failingLines : list Entry :=
  assistantLine (noon - 3600000)
                (map callBlock ["a"; "b"; "c"; "d"; "e"; "f"])
                (Some (usage 11 10))
  :: map (fun i => resultLine (noon - 3500000) i true) ["a"; "b"; "c"; "d"; "e"; "f"].

Definition failingSession : Session := processSession failingLines "s1" "s1.jsonl".

Definition failingDay : Analytics.t := Analytics.mk [failingSession] noon.

(** A run of two user messages and one assistant message with usage. *)
Definition chatLines : list Entry :=
  [ userLine 1000;
    assistantLine 2000 [callBlock "a"] (Some (usage 11 (1 # 2)));
    resultLine 3000 "a" false;
    userLine 4000 ].

(** A call and, after it, the line that answers it. *)
Definition answeredPre : list Entry :=
  [ userLine 1000; assistantLine 2000 [callBlock "a"] (Some (usage 11 (1 # 2))) ].

Definition answerLine : Entry := resultLine 3000 "a" false.

(** A tool-result line that also carries a tool invocation of its own. *)
Definition selfAnsweredLine : Entry :=
  mkEntry (Some 1000) "message" None None None
          (Some (resultMsg "x" false (Some [callBlock "x"]))).


Definition sessionAt (name : string) (ts : Z) : Session :=
  processSession [userLine ts] name name.



(** A session without any timestamp. *)
Definition undatedSession : Session :=
  processSession [mkEntry None "session" (Some "u") None None None] "u" "u.jsonl".

Definition zeroDay (d : Z) : Analytics.DailyStat := Analytics.mkDailyStat d 0 0 0 0 0 0 0.



(** Two sessions on the day of [noon] and the day before. *)
Definition twoDays : Analytics.t :=
  Analytics.mk [sessionAt "x" (noon - 1000); sessionAt "y" (noon - Analytics.msPerDay)] noon.

Definition busyDay (d n : Z) : Analytics.DailyStat := Analytics.mkDailyStat d n 0 0 0 0 0 0.

End Sample.

(** ** Views of a log file *)

Module Views.
Import Log LogParser.



(** The last element of a list, if any. *)
Fixpoint lastOpt {A} (l : list A) : option A :=
  match l with
  | [] => None
  | x :: r =>
      match r with
      | [] => Some x
      | _ :: _ => lastOpt r
      end
  end.

(** The [model_change] lines. *)
Definition modelChanges (lines : list Entry) : list Entry :=
  filter (fun e => String.eqb (e_type e) "model_change") lines.

(** The non-empty ids given by [session] lines. *)
Definition sessionIds (lines : list Entry) : list string :=
  flat_map (fun e =>
              if String.eqb (e_type e) "session" then
                match e_id e with
                | Some i => if String.eqb i EmptyString then [] else [i]
                | None => []
                end
              else []) lines.

(** Roles of the message events, in order. *)
Definition messageRoles (lines : list Entry) : list string :=
  flat_map (fun e => match Spec.messageOf e with
                     | Some m => [m_role m]
                     | None => []
                     end) lines.


(** A call that comes after another call with the same id has no result. *)
Definition shadowedUnanswered (calls : list ToolCall) : Prop :=
  forall i j ci cj,
    nth_error calls i = Some ci -> nth_error calls j = Some cj ->
    (i < j)%nat -> tc_id ci = tc_id cj -> tc_result cj = None.

End Views.

(** ** parser.js: reading files *)

Module Ingest.
Import Log LogParser.

(** What [JSON.parse] returns for a line: [null], or a value whose fields
    can be read (an object, or a number, string, boolean or array, which
    read as an entry without fields). *)
Inductive Decoded :=
| DNull
| DValue (e : Entry).

(** How [parseFile] ends. *)
Inductive Outcome :=
| Threw
| NoSession
| Built (s : Session).

(** A file of the log directory: its name and its lines. *)
Record DirEntry := mkDirEntry {
  fileName : string;
  fileLines : list string
}.

(** The name filter of [parseAll]. *)
Definition accepted (f : string) : bool :=
  Str.endsWith f ".jsonl" && negb (Str.includes f ".lock")
  && negb (Str.includes f ".deleted").

(** The entries [processSession] reads, unless one of them is [null], on
    which reading [entry.timestamp] throws. *)
Fixpoint values (ds : list Decoded) : option (list Entry) :=
  match ds with
  | [] => Some []
  | DNull :: _ => None
  | DValue e :: r =>
      match values r with
      | Some es => Some (e :: es)
      | None => None
      end
  end.

Section Environment.

(** [!line.trim()]. *)
Variable isBlank : string -> bool.

(** [JSON.parse(line)], [None] when it throws. *)
Variable decode : string -> option Decoded.

(** [path.join(this.logPath, f)] and [path.basename(filePath, '.jsonl')]. *)
Variable pathOf : string -> string.
Variable nameOf : string -> string.

(** The array [lines] filled by the loop of [parseFile]. *)
Definition readLines (lines : list string) : list Decoded :=
  flat_map (fun line =>
              if isBlank line then []
              else match decode line with
                   | Some d => [d]
                   | None => []
                   end) lines.

Definition parseFile (lines : list string) (filePath : string) : Outcome :=
  match readLines lines with
  | [] => NoSession
  | ds =>
      match values ds with
      | Some es => Built (processSession es (nameOf filePath) filePath)
      | None => Threw
      end
  end.

(** [parseAll()]; the directory is [None] when it does not exist. *)
Definition parseAll (dir : option (list DirEntry)) : list Session :=
  match dir with
  | None => []
  | Some files =>
      flat_map (fun f =>
                  match parseFile (fileLines f) (pathOf (fileName f)) with
                  | Built s => [s]
                  | _ => []
                  end)
               (filter (fun f => accepted (fileName f)) files)
  end.

End Environment.

End Ingest.

Module SampleFiles.
Import Log LogParser Ingest.

(** A toy decoder: line "u" is a user message, line "n" is [null], anything
    else is not JSON; only the empty line is blank. *)
Definition isBlank (line : string) : bool := String.eqb line EmptyString.

Definition decode (line : string) : option Decoded :=
  if String.eqb line "u" then Some (DValue (Sample.userLine 1000))
  else if String.eqb line "n" then Some DNull
  else None.

Definition pathOf (f : string) : string := String.append "/logs/" f.

Definition nameOf (p : string) : string := p.

End SampleFiles.

(** ** Views of the aggregates *)

Module Tables.
Import LogParser Analytics.

(** The value under key [k] of a counter table, 0 when the key is absent. *)
Fixpoint lookup (k : string) (o : JS.Obj) : Z :=
  match o with
  | [] => 0
  | (k', v) :: r => if String.eqb k k' then v else lookup k r
  end.

(** Number of tool calls of the sessions [ss] that go by the key [k]. *)
Definition callsNamed (k : string) (ss : list Session) : Z :=
  JS.sumZ (fun s => JS.count (fun tc => String.eqb (nameKey tc) k) (toolCalls s)) ss.


(** The name and the count of an entry of the per-tool statistics. *)
Definition countOf (kv : string * (Z * Z)) : string * Z := (fst kv, fst (snd kv)).

(** The non-empty model names of the sessions [ss]. *)
Definition modelNames (ss : list Session) : list string :=
  flat_map (fun s => truthyModel (model s)) ss.

End Tables.

(** ** reporter.js: the hourly heat map *)

Module Reporter.

(** The four shades of [blocks], lightest first. *)
Inductive Shade := Light | Medium | Dark | Full.

Definition blocks : list Shade := [Light; Medium; Dark; Full].

(** What is printed for one hour: a space, a shade, or the text
    "undefined" when [blocks] is read outside its bounds. *)
Inductive Cell :=
| Blank
| Shaded (s : Shade)
| Undefined.

(** [Math.max(...hourlyActivity, 1)]. *)
Definition heatMax (hourlyActivity : list Z) : Z := fold_left Z.max hourlyActivity 1.

(** [Math.floor((v / max) * 3)], on exact numbers. *)
Definition intensity (hourlyActivity : list Z) (v : Z) : JS.M Z :=
  q <- JS.div (inject_Z v) (inject_Z (heatMax hourlyActivity)) ;;
  JS.ret (Qfloor (q * 3)).

(** [blocks[i]]. *)
Definition blockAt (i : Z) : Cell :=
  if i <? 0 then Undefined
  else match nth_error blocks (Z.to_nat i) with
       | Some s => Shaded s
       | None => Undefined
       end.

(** The block printed for an hour with [v] sessions. *)
Definition cell (hourlyActivity : list Z) (v : Z) : JS.M Cell :=
  i <- intensity hourlyActivity v ;;
  JS.ret (if v =? 0 then Blank else blockAt i).

(** The line of the heat map, one cell for each index of [hours].  Reading
    [hourlyActivity[i]] beyond the end gives [undefined]: the intensity is
    then not a number and [blocks[intensity]] is undefined too. *)
Fixpoint heatLine (hourlyActivity : list Z) (hours : list nat) : JS.M (list Cell) :=
  match hours with
  | [] => JS.ret []
  | i :: r =>
      c <- match nth_error hourlyActivity i with
           | Some v => cell hourlyActivity v
           | None => JS.ret Undefined
           end ;;
      rest <- heatLine hourlyActivity r ;;
      JS.ret (c :: rest)
  end.

(** [printHourlyHeatmap(hourlyActivity)]: the cells of the printed line. *)
Definition printHourlyHeatmap (hourlyActivity : list Z) : JS.M (list Cell) :=
  heatLine hourlyActivity (seq 0 24).

End Reporter.

(** ** Views of the detector *)

Module Rules.
Import Analytics AnomalyDetector.

(** The summary of a window without sessions. *)
Definition emptySummary : WindowSummary :=
  {| totalSessions := 0; totalMessages := 0; totalToolCalls := 0;
     totalTokens := 0; totalCost := 0%Q;
     avgTokensPerSession := 0; avgMessagesPerSession := 0;
     topTools := []; peakHour := 0; hourlyActivity := repeat 0 24;
     models := []; toolErrors := 0 |}.

(** The test of the token-spike rule, on integers. *)
Definition tokenSpikeDay (weeklyStats : WindowSummary) (day : DailyStat) : bool :=
  (3 * totalTokens weeklyStats <? 7 * d_tokens day) && (10000 <? d_tokens day).

(** The test of the error-rate rule, on integers. *)
Definition errorRateHigh (weeklyStats : WindowSummary) : bool :=
  (0 <? totalToolCalls weeklyStats)
  && (totalToolCalls weeklyStats <? 10 * toolErrors weeklyStats)
  && (5 <? toolErrors weeklyStats).

(** The test of the call-frequency rule, on integers. *)
Definition frequencyHigh (weeklyStats : WindowSummary) : bool :=
  (0 <? totalSessions weeklyStats)
  && (100 * totalSessions weeklyStats <? totalToolCalls weeklyStats).

(** The test of the dominance rule for a tool with [count] calls. *)
Definition dominates (totalCalls count : Z) : bool :=
  (totalCalls <? 2 * count) && (50 <? count).

End Rules.

(** ** Views of the live counters *)

Module Hot.
Import Log Watcher.

(** What one entry adds to each counter of the watcher. *)
Definition userInc (e : Entry) : Z :=
  match Spec.messageOf e with
  | Some m => if String.eqb (m_role m) "user" then 1 else 0
  | None => 0
  end.

Definition toolInc (e : Entry) : Z :=
  match Spec.messageOf e with
  | Some m => if String.eqb (m_role m) "assistant" then calledTools m else 0
  | None => 0
  end.

Definition tokenInc (e : Entry) : Z :=
  match Spec.messageOf e with
  | Some m => if String.eqb (m_role m) "assistant" then usedTokens m else 0
  | None => 0
  end.

Definition errorInc (e : Entry) : Z :=
  match Spec.messageOf e with
  | Some m => if String.eqb (m_role m) "toolResult" && m_isError m then 1 else 0
  | None => 0
  end.

(** The time recorded for an entry processed at time [clock]. *)
Definition seenAt (clock : Z) (e : Entry) : Z :=
  match e_timestamp e with
  | Some ts => ts
  | None => clock
  end.

(** The counters after the entries [lines], each processed at its time. *)
Definition follow (st : RunningStats) (lines : list (Z * Entry)) : RunningStats :=
  fold_left (fun acc te => processEntry (fst te) acc (snd te)) lines st.

End Hot.

Module SampleWatch.
Import Watcher.

(** A directory with a log of 100 bytes that holds two entries and an
    older log of 40 bytes, set aside under another name, that holds one. *)
Definition size (path : string) : Z :=
  if String.eqb path "/logs/a.jsonl" then 100
  else if String.eqb path "/logs/old.deleted.jsonl" then 40
  else 0.

Definition arrivals (path : string) (start : Z) : list (Z * Log.Entry) :=
  if String.eqb path "/logs/a.jsonl" && (start <? 100)
  then [(5000, Sample.userLine 1000); (5000, Sample.answerLine)]
  else if String.eqb path "/logs/old.deleted.jsonl" && (start <? 40)
  then [(5000, Sample.userLine 1000)]
  else [].

Definition fullPath (f : string) : string := String.append "/logs/" f.

Definition fresh : State := mkState [] initialStats.

End SampleWatch.

(** * Proofs *)

(** ** Facts about the JavaScript helpers *)

Lemma sumZ_from (A : Type) (f : A -> Z) (l : list A) (z : Z) :
  fold_left (fun sum x => sum + f x) l z = z + Spec.sumOverZ f l.
Proof.
  revert z; induction l as [|x l IH]; intros z; simpl.
  - lia.
  - rewrite IH. lia.
Qed.

Lemma sumZ_sumOver (A : Type) (f : A -> Z) (l : list A) :
  JS.sumZ f l = Spec.sumOverZ f l.
Proof. unfold JS.sumZ. rewrite sumZ_from. lia. Qed.



Lemma sumOverZ_app (A : Type) (f : A -> Z) (l1 l2 : list A) :
  Spec.sumOverZ f (l1 ++ l2) = Spec.sumOverZ f l1 + Spec.sumOverZ f l2.
Proof. induction l1 as [|x l1 IH]; simpl; lia. Qed.


Lemma len_sumOver (A : Type) (l : list A) :
  JS.len l = Spec.sumOverZ (fun _ => 1) l.
Proof.
  unfold JS.len. induction l as [|x l IH].
  - reflexivity.
  - change (Z.of_nat (S (List.length l)) = 1 + Spec.sumOverZ (fun _ => 1) l).
    rewrite Nat2Z.inj_succ, IH. lia.
Qed.

Lemma div_defined (a b : Q) : ~ (b == 0)%Q -> JS.div a b = Some (a / b)%Q.
Proof.
  intros Hb. unfold JS.div.
  destruct (Qeq_bool b 0) eqn:E; [|reflexivity].
  apply Qeq_bool_eq in E. contradiction.
Qed.

Lemma div_by_positive (a : Q) (n : Z) :
  0 < n -> JS.div a (inject_Z n) = Some (a / inject_Z n)%Q.
Proof.
  intros Hn. apply div_defined.
  unfold Qeq, inject_Z; simpl. lia.
Qed.

(** ** The steps of the loop body, field by field *)

Section Steps.
Import Log LogParser.

Lemma stepTimestamp_keeps (e : Entry) (s : Session) :
  messages (stepTimestamp e s) = messages s /\
  toolCalls (stepTimestamp e s) = toolCalls s /\
  tokens (stepTimestamp e s) = tokens s /\
  cost (stepTimestamp e s) = cost s.
Proof. unfold stepTimestamp. destruct (e_timestamp e); repeat split. Qed.

Lemma stepMeta_keeps (e : Entry) (s : Session) :
  messages (stepMeta e s) = messages s /\
  toolCalls (stepMeta e s) = toolCalls s /\
  tokens (stepMeta e s) = tokens s /\
  cost (stepMeta e s) = cost s /\
  startTime (stepMeta e s) = startTime s /\
  endTime (stepMeta e s) = endTime s.
Proof. unfold stepMeta. destruct (String.eqb (e_type e) "session"); repeat split. Qed.

Lemma stepModel_keeps (e : Entry) (s : Session) :
  messages (stepModel e s) = messages s /\
  toolCalls (stepModel e s) = toolCalls s /\
  tokens (stepModel e s) = tokens s /\
  cost (stepModel e s) = cost s /\
  startTime (stepModel e s) = startTime s /\
  endTime (stepModel e s) = endTime s.
Proof. unfold stepModel. destruct (String.eqb (e_type e) "model_change"); repeat split. Qed.

Lemma stepMessage_spec (e : Entry) (s : Session) :
  startTime (stepMessage e s) = startTime s /\
  endTime (stepMessage e s) = endTime s /\
  messages (stepMessage e s) =
    messages s ++
    match Spec.messageOf e with
    | Some msg =>
        [ mkMessage (m_role msg) (e_timestamp e)
            match m_content msg with
            | Some blocks => existsb isToolCall blocks
            | None => false
            end ]
    | None => []
    end /\
  toolCalls (stepMessage e s) =
    toolCalls s ++
    match Spec.messageOf e with
    | Some msg => blockCalls (e_timestamp e) (m_content msg)
    | None => []
    end /\
  (tokens (stepMessage e s), cost (stepMessage e s)) =
    match Spec.messageOf e with
    | Some msg =>
        match m_usage msg with
        | Some u =>
            if String.eqb (m_role msg) "assistant"
            then (addUsage u (tokens s), addCost u (cost s))
            else (tokens s, cost s)
        | None => (tokens s, cost s)
        end
    | None => (tokens s, cost s)
    end.
Proof.
  unfold stepMessage, Spec.messageOf.
  destruct (e_message e) as [msg|], (String.eqb (e_type e) "message");
    cbn [startTime endTime messages toolCalls tokens cost fst snd];
    rewrite ?app_nil_r; repeat split.
  destruct (m_usage msg), (String.eqb (m_role msg) "assistant"); reflexivity.
Qed.

Lemma stepToolResult_spec (e : Entry) (s : Session) :
  startTime (stepToolResult e s) = startTime s /\
  endTime (stepToolResult e s) = endTime s /\
  messages (stepToolResult e s) = messages s /\
  tokens (stepToolResult e s) = tokens s /\
  cost (stepToolResult e s) = cost s /\
  toolCalls (stepToolResult e s) =
    match Spec.messageOf e with
    | Some msg =>
        if String.eqb (m_role msg) "toolResult"
        then JS.updateFirst
               (fun t => JS.optStrEq (tc_id t) (m_toolCallId msg))
               (fun t => Spec.withResult t (mkToolResult (m_isError msg) (e_timestamp e)))
               (toolCalls s)
        else toolCalls s
    | None => toolCalls s
    end.
Proof.
  unfold stepToolResult, Spec.messageOf.
  destruct (e_message e) as [msg|], (String.eqb (e_type e) "message");
    cbn [andb]; try (repeat split; fail).
  destruct (String.eqb (m_role msg) "toolResult"); repeat split.
Qed.

(** The fields of the session an event is folded into, along the steps. *)
Lemma foldEntry_fields (s : Session) (e : Entry) :
  let s1 := stepTimestamp e s in
  let s3 := stepModel e (stepMeta e s1) in
  let s4 := stepMessage e s3 in
  foldEntry s e = stepToolResult e s4 /\
  messages s3 = messages s /\ toolCalls s3 = toolCalls s /\
  tokens s3 = tokens s /\ cost s3 = cost s /\
  startTime s3 = startTime s1 /\ endTime s3 = endTime s1.
Proof.
  intros s1 s3 s4. subst s3.
  destruct (stepModel_keeps e (stepMeta e s1)) as (-> & -> & -> & -> & -> & ->).
  destruct (stepMeta_keeps e s1) as (-> & -> & -> & -> & -> & ->).
  destruct (stepTimestamp_keeps e s) as (Hm & Hc & Ht & Hk). subst s1.
  rewrite Hm, Hc, Ht, Hk. repeat split.
Qed.

End Steps.

(** ** The live watcher *)

Lemma foldEntry_messages (s : LogParser.Session) (e : Log.Entry) :
  LogParser.messages (LogParser.foldEntry s e) =
  LogParser.messages s ++
  match Spec.messageOf e with
  | Some msg =>
      [ LogParser.mkMessage (Log.m_role msg) (Log.e_timestamp e)
          match Log.m_content msg with
          | Some blocks => existsb Log.isToolCall blocks
          | None => false
          end ]
  | None => []
  end.
Proof.
  destruct (foldEntry_fields s e) as (-> & Hm & _).
  destruct (stepToolResult_spec e
              (LogParser.stepMessage e
                 (LogParser.stepModel e
                    (LogParser.stepMeta e (LogParser.stepTimestamp e s)))))
    as (_ & _ & -> & _).
  destruct (stepMessage_spec e
              (LogParser.stepModel e
                 (LogParser.stepMeta e (LogParser.stepTimestamp e s))))
    as (_ & _ & -> & _).
  rewrite Hm. reflexivity.
Qed.

(** C10.  In [Watcher.processEntry] the [messages] counter grows, by one, for
    a message event of role user and for nothing else: an assistant message
    only feeds the tool-call and token counters, a tool result only the
    error counter.  In [LogParser.processSession] every message event, of
    any role, appends a message. *)
Theorem watcher_counts_user_messages_only
        (clock : Z) (st : Watcher.RunningStats) (e : Log.Entry) :
  let st' := Watcher.processEntry clock st e in
  match Spec.messageOf e with
  | Some msg =>
      Watcher.messages st' =
        Watcher.messages st + (if String.eqb (Log.m_role msg) "user" then 1 else 0) /\
      Watcher.toolCalls st' =
        Watcher.toolCalls st +
        (if String.eqb (Log.m_role msg) "assistant" then Watcher.calledTools msg else 0) /\
      Watcher.tokens st' =
        Watcher.tokens st +
        (if String.eqb (Log.m_role msg) "assistant" then Watcher.usedTokens msg else 0) /\
      Watcher.errors st' =
        Watcher.errors st +
        (if String.eqb (Log.m_role msg) "toolResult" && Log.m_isError msg then 1 else 0)
  | None =>
      Watcher.messages st' = Watcher.messages st /\
      Watcher.toolCalls st' = Watcher.toolCalls st /\
      Watcher.tokens st' = Watcher.tokens st /\
      Watcher.errors st' = Watcher.errors st
  end /\
  (Watcher.messages st' = Watcher.messages st + 1 <->
   exists msg, Spec.messageOf e = Some msg /\ Log.m_role msg = "user") /\
  (forall s : LogParser.Session,
      List.length (LogParser.messages (LogParser.foldEntry s e)) =
      (List.length (LogParser.messages s) +
       match Spec.messageOf e with Some _ => 1 | None => 0 end)%nat).
Proof.
  intros st'.
  assert (Hmsgs :
    Watcher.messages st' =
    Watcher.messages st +
    match Spec.messageOf e with
    | Some msg => if String.eqb (Log.m_role msg) "user" then 1 else 0
    | None => 0
    end).
  { subst st'. unfold Watcher.processEntry, Spec.messageOf.
    destruct (Log.e_message e) as [msg|], (String.eqb (Log.e_type e) "message");
      simpl; try lia.
    destruct (String.eqb_spec (Log.m_role msg) "user") as [Hu|Hu].
    - rewrite Hu; simpl. reflexivity.
    - destruct (String.eqb (Log.m_role msg) "assistant"),
        (String.eqb (Log.m_role msg) "toolResult" && Log.m_isError msg); simpl; lia. }
  split; [|split].
  - subst st'. unfold Watcher.processEntry, Spec.messageOf in *.
    destruct (Log.e_message e) as [msg|], (String.eqb (Log.e_type e) "message");
      simpl; try (repeat split; lia).
    destruct (String.eqb_spec (Log.m_role msg) "user") as [Hu|Hu];
      [rewrite Hu; simpl; repeat split; lia|].
    destruct (String.eqb_spec (Log.m_role msg) "assistant") as [Ha|Ha];
      [rewrite Ha; simpl; repeat split; lia|].
    destruct (String.eqb (Log.m_role msg) "toolResult" && Log.m_isError msg);
      simpl; repeat split; lia.
  - rewrite Hmsgs. split.
    + intros H. destruct (Spec.messageOf e) as [msg|]; [|lia].
      exists msg. split; [reflexivity|].
      destruct (String.eqb_spec (Log.m_role msg) "user"); [assumption|lia].
    + intros [msg [Hm Hr]]. rewrite Hm, Hr. reflexivity.
  - intros s. rewrite foldEntry_messages, length_app.
    destruct (Spec.messageOf e); reflexivity.
Qed.

(** ** The session builder *)

Section SessionBuilder.
Import Log LogParser.

Lemma foldEntries_snoc (s : Session) (pre : list Entry) (e : Entry) :
  foldEntries s (pre ++ [e]) = foldEntry (foldEntries s pre) e.
Proof. unfold foldEntries. rewrite fold_left_app. reflexivity. Qed.

(** What one event does to the totals. *)
Lemma foldEntry_totals (s : Session) (e : Entry) :
  (tokens (foldEntry s e), cost (foldEntry s e)) =
  match Spec.messageOf e with
  | Some msg =>
      match m_usage msg with
      | Some u =>
          if String.eqb (m_role msg) "assistant"
          then (addUsage u (tokens s), addCost u (cost s))
          else (tokens s, cost s)
      | None => (tokens s, cost s)
      end
  | None => (tokens s, cost s)
  end.
Proof.
  destruct (foldEntry_fields s e) as (-> & _ & _ & Ht & Hk & _).
  destruct (stepToolResult_spec e
              (stepMessage e (stepModel e (stepMeta e (stepTimestamp e s)))))
    as (_ & _ & _ & -> & -> & _).
  destruct (stepMessage_spec e (stepModel e (stepMeta e (stepTimestamp e s))))
    as (_ & _ & _ & _ & ->).
  rewrite Ht, Hk. reflexivity.
Qed.

(** What one event does to the tool calls. *)
Lemma foldEntry_toolCalls (s : Session) (e : Entry) :
  toolCalls (foldEntry s e) =
  match Spec.messageOf e with
  | Some msg =>
      let present := toolCalls s ++ blockCalls (e_timestamp e) (m_content msg) in
      if String.eqb (m_role msg) "toolResult"
      then JS.updateFirst
             (fun t => JS.optStrEq (tc_id t) (m_toolCallId msg))
             (fun t => Spec.withResult t (mkToolResult (m_isError msg) (e_timestamp e)))
             present
      else present
  | None => toolCalls s
  end.
Proof.
  destruct (foldEntry_fields s e) as (-> & _ & Hc & _).
  destruct (stepToolResult_spec e
              (stepMessage e (stepModel e (stepMeta e (stepTimestamp e s)))))
    as (_ & _ & _ & _ & _ & ->).
  destruct (stepMessage_spec e (stepModel e (stepMeta e (stepTimestamp e s))))
    as (_ & _ & _ & -> & _).
  rewrite Hc. destruct (Spec.messageOf e) as [msg|]; [reflexivity|].
  rewrite app_nil_r. reflexivity.
Qed.


Lemma finish_keeps (s : Session) :
  tokens (finish s) = tokens s /\ cost (finish s) = cost s /\
  toolCalls (finish s) = toolCalls s /\ messages (finish s) = messages s /\
  startTime (finish s) = startTime s /\ endTime (finish s) = endTime s.
Proof.
  unfold finish.
  destruct (startTime s) eqn:Es, (endTime s) eqn:Ee; repeat split; simpl; congruence.
Qed.


Lemma assistantMessages_cons (e : Entry) (lines : list Entry) :
  Spec.assistantMessages (e :: lines) =
  Spec.assistantMessages [e] ++ Spec.assistantMessages lines.
Proof. unfold Spec.assistantMessages. simpl. rewrite app_nil_r. reflexivity. Qed.

Lemma foldEntry_total (s : Session) (e : Entry) :
  total (tokens (foldEntry s e)) =
  total (tokens s) + Spec.sumOverZ Spec.deltaTotal (Spec.assistantMessages [e]).
Proof.
  pose proof (foldEntry_totals s e) as H.
  apply (f_equal fst) in H; simpl in H. rewrite H.
  unfold Spec.assistantMessages, Spec.deltaTotal. simpl.
  destruct (Spec.messageOf e) as [msg|]; simpl; [|lia].
  destruct (String.eqb (m_role msg) "assistant"); simpl;
    destruct (m_usage msg); simpl; lia.
Qed.


Lemma foldEntries_total (lines : list Entry) (s : Session) :
  total (tokens (foldEntries s lines)) =
  total (tokens s) + Spec.sumOverZ Spec.deltaTotal (Spec.assistantMessages lines).
Proof.
  revert s; induction lines as [|e lines IH]; intros s.
  - simpl. lia.
  - change (foldEntries s (e :: lines)) with (foldEntries (foldEntry s e) lines).
    rewrite assistantMessages_cons, sumOverZ_app, IH, foldEntry_total. lia.
Qed.


End SessionBuilder.


(** ** Tool results *)

Section ToolResults.
Import Log LogParser.

Lemma optStrEq_true (a b : option string) : JS.optStrEq a b = true <-> a = b.
Proof.
  destruct a as [x|], b as [y|]; simpl; split; intros H;
    try discriminate; try reflexivity.
  - apply String.eqb_eq in H. congruence.
  - injection H as ->. apply String.eqb_refl.
Qed.

Lemma updateFirst_hit (A : Type) (p : A -> bool) (upd : A -> A) (l : list A) :
  existsb p l = true ->
  exists l1 x l2,
    l = l1 ++ x :: l2 /\ p x = true /\
    (forall y, In y l1 -> p y = false) /\
    JS.updateFirst p upd l = l1 ++ upd x :: l2.
Proof.
  induction l as [|a l IH]; simpl; [discriminate|].
  destruct (p a) eqn:Pa; simpl.
  - intros _. exists [], a, l. simpl. repeat split; auto. intros y [].
  - intros H. destruct (IH H) as (l1 & x & l2 & -> & Px & Hl1 & Hu).
    exists (a :: l1), x, l2. simpl. rewrite Hu. repeat split; auto.
    intros y [<-|Hy]; auto.
Qed.

Lemma updateFirst_miss (A : Type) (p : A -> bool) (upd : A -> A) (l : list A) :
  existsb p l = false -> JS.updateFirst p upd l = l.
Proof.
  induction l as [|a l IH]; simpl; [reflexivity|].
  destruct (p a); simpl; [discriminate|].
  intros H. rewrite (IH H). reflexivity.
Qed.

Lemma updateFirst_ids (p : ToolCall -> bool) (r : ToolResult) (l : list ToolCall) :
  map tc_id (JS.updateFirst p (fun t => Spec.withResult t r) l) = map tc_id l.
Proof.
  induction l as [|a l IH]; simpl; [reflexivity|].
  destruct (p a); simpl; [reflexivity|]. rewrite IH. reflexivity.
Qed.

Lemma id_present (x : option string) (l : list ToolCall) :
  existsb (fun t => JS.optStrEq (tc_id t) x) l = true <-> In x (map tc_id l).
Proof.
  rewrite existsb_exists, in_map_iff. split.
  - intros (t & Ht & E). apply optStrEq_true in E. eauto.
  - intros (t & E & Ht). exists t. split; [assumption|]. apply optStrEq_true. assumption.
Qed.

Lemma foldEntry_ids (s : Session) (e : Entry) :
  map tc_id (toolCalls (foldEntry s e)) =
  map tc_id (toolCalls s) ++ Spec.producedIds [e].
Proof.
  rewrite foldEntry_toolCalls. unfold Spec.producedIds. simpl.
  destruct (Spec.messageOf e) as [msg|]; rewrite !app_nil_r; [|reflexivity].
  cbv zeta. destruct (String.eqb (m_role msg) "toolResult").
  - rewrite updateFirst_ids, map_app. reflexivity.
  - rewrite map_app. reflexivity.
Qed.

Lemma producedIds_app (l1 l2 : list Entry) :
  Spec.producedIds (l1 ++ l2) = Spec.producedIds l1 ++ Spec.producedIds l2.
Proof. unfold Spec.producedIds. apply flat_map_app. Qed.

Lemma foldEntries_ids (lines : list Entry) (s : Session) :
  map tc_id (toolCalls (foldEntries s lines)) =
  map tc_id (toolCalls s) ++ Spec.producedIds lines.
Proof.
  revert s; induction lines as [|e lines IH]; intros s.
  - simpl. rewrite app_nil_r. reflexivity.
  - change (foldEntries s (e :: lines)) with (foldEntries (foldEntry s e) lines).
    change (e :: lines) with ([e] ++ lines).
    rewrite IH, foldEntry_ids, producedIds_app, app_assoc. reflexivity.
Qed.

(** The tool-result step on the calls present when it runs. *)
Lemma result_step (x : option string) (r : ToolResult) (present : list ToolCall) :
  let after := JS.updateFirst (fun t => JS.optStrEq (tc_id t) x)
                              (fun t => Spec.withResult t r) present in
  (In x (map tc_id present) <-> Spec.attached x r present after) /\
  (~ In x (map tc_id present) -> after = present).
Proof.
  intros after. subst after. split; [split|].
  - intros Hin. apply id_present in Hin.
    destruct (updateFirst_hit _ _ (fun t => Spec.withResult t r) _ Hin)
      as (l1 & tc & l2 & E & Ptc & Hl1 & Hu).
    exists l1, tc, l2. repeat split; auto.
    + apply optStrEq_true. assumption.
    + intros t' Ht' Eq. apply Hl1 in Ht'.
      apply optStrEq_true in Eq. congruence.
  - intros (l1 & tc & l2 & E & Eid & _). rewrite E, map_app. simpl.
    apply in_or_app. right. left. assumption.
  - intros Hno. apply updateFirst_miss.
    destruct (existsb _ present) eqn:Ex; [|reflexivity].
    apply id_present in Ex. contradiction.
Qed.

End ToolResults.

(** C5, as the code has it.  A tool-result event with call id [x] attaches
    its result to the first tool call with id [x] exactly when such a call is
    in the session at that moment, that is, was produced by an earlier event
    or by a tool-invocation block of this very event; otherwise no result is
    attached and the tool calls are the earlier ones followed by the calls of
    the event's own blocks.  For an event without tool-invocation blocks this
    is the earlier-event reading: attachment exactly when an earlier event
    produced the call, and no change at all otherwise. *)
Theorem tool_result_attaches_iff_call_present
        (name filePath : string) (pre : list Log.Entry) (e : Log.Entry) (r : Log.Msg) :
  Spec.messageOf e = Some r ->
  Log.m_role r = "toolResult" ->
  let x := Log.m_toolCallId r in
  let res := LogParser.mkToolResult (Log.m_isError r) (Log.e_timestamp e) in
  let start := LogParser.emptySession name filePath in
  let before := LogParser.toolCalls (LogParser.foldEntries start pre) in
  let own := LogParser.blockCalls (Log.e_timestamp e) (Log.m_content r) in
  let after := LogParser.toolCalls (LogParser.foldEntries start (pre ++ [e])) in
  (In x (Spec.producedIds (pre ++ [e])) <-> Spec.attached x res (before ++ own) after) /\
  (~ In x (Spec.producedIds (pre ++ [e])) -> after = before ++ own) /\
  List.length after = (List.length before + List.length own)%nat /\
  (own = [] ->
   (In x (Spec.producedIds pre) <-> Spec.attached x res before after) /\
   (~ In x (Spec.producedIds pre) -> after = before)).
Proof.
  intros Hm Hrole x res start before own after.
  assert (Hafter : after =
            JS.updateFirst (fun t => JS.optStrEq (LogParser.tc_id t) x)
                           (fun t => Spec.withResult t res) (before ++ own)).
  { subst after before own. rewrite foldEntries_snoc, foldEntry_toolCalls, Hm.
    cbv zeta. rewrite Hrole. reflexivity. }
  assert (Hids : map LogParser.tc_id (before ++ own) = Spec.producedIds (pre ++ [e])).
  { subst before own. rewrite map_app, foldEntries_ids, producedIds_app. simpl.
    unfold Spec.producedIds at 2. simpl. rewrite Hm, app_nil_r. reflexivity. }
  assert (Hids0 : map LogParser.tc_id before = Spec.producedIds pre).
  { subst before. rewrite foldEntries_ids. reflexivity. }
  destruct (result_step x res (before ++ own)) as [Hiff Hmiss].
  rewrite Hids in Hiff, Hmiss. rewrite <- Hafter in Hiff, Hmiss.
  split; [exact Hiff|]. split; [exact Hmiss|]. split.
  - rewrite <- length_app, <- (length_map LogParser.tc_id after),
      <- (length_map LogParser.tc_id (before ++ own)).
    rewrite Hafter, updateFirst_ids. reflexivity.
  - intros Hown. rewrite Hown, app_nil_r in Hafter.
    destruct (result_step x res before) as [Hiff' Hmiss'].
    rewrite Hids0 in Hiff', Hmiss'. rewrite <- Hafter in Hiff', Hmiss'.
    split; assumption.
Qed.

Lemma tool_result_attaches_witness :
  Spec.messageOf Sample.answerLine = Some (Sample.resultMsg "a" false None) /\
  Log.m_role (Sample.resultMsg "a" false None) = "toolResult" /\
  Spec.attached (Some "a") (LogParser.mkToolResult false (Some 3000))
    (LogParser.toolCalls
       (LogParser.foldEntries (LogParser.emptySession "f" "f.jsonl") Sample.answeredPre))
    (LogParser.toolCalls
       (LogParser.foldEntries (LogParser.emptySession "f" "f.jsonl")
          (Sample.answeredPre ++ [Sample.answerLine]))).
Proof.
  split; [reflexivity|]. split; [reflexivity|].
  destruct (tool_result_attaches_iff_call_present
              "f" "f.jsonl" Sample.answeredPre Sample.answerLine
              (Sample.resultMsg "a" false None) eq_refl eq_refl)
    as (_ & _ & _ & H).
  destruct (H eq_refl) as [Hiff _]. apply Hiff. simpl. left. reflexivity.
Defined.

(** C5 as stated fails on a tool-result line that carries a tool invocation
    of its own: no earlier event produced call "x", yet the result is
    attached and the session has one tool call more. *)
Lemma tool_result_without_earlier_call :
  let start := LogParser.emptySession "f" "f.jsonl" in
  let before := LogParser.toolCalls (LogParser.foldEntries start []) in
  let after := LogParser.toolCalls (LogParser.foldEntries start ([] ++ [Sample.selfAnsweredLine])) in
  Spec.messageOf Sample.selfAnsweredLine =
    Some (Sample.resultMsg "x" false (Some [Sample.callBlock "x"])) /\
  ~ In (Some "x") (Spec.producedIds []) /\
  after = [ LogParser.mkToolCall (Some "x") (Some "exec") (Some 1000)
              (Some (LogParser.mkToolResult false (Some 1000))) ] /\
  after <> before /\
  List.length after <> List.length before.
Proof.
  cbv zeta. split; [reflexivity|]. split; [intros []|].
  split; [reflexivity|]. split; [discriminate|]. vm_compute. discriminate.
Qed.

(** ** Invariants of the fold *)

Section BuilderInvariants.
Import Log LogParser.





End BuilderInvariants.




(** ** The time window *)

Section Window.
Import LogParser Analytics.

Lemma filterByDays_In (a : Analytics.t) (days : Z) (s : Session) :
  In s (filterByDays a days) <->
  In s (sessions a) /\ Spec.startsFrom (now a - days * msPerDay) s.
Proof.
  unfold filterByDays, addDays, Spec.startsFrom. rewrite filter_In.
  split; intros [Hin H]; (split; [exact Hin|]).
  - destruct (startTime s) as [st|]; [|discriminate].
    exists st. split; [reflexivity|]. apply Z.leb_le in H. lia.
  - destruct H as (st & -> & H). apply Z.leb_le. lia.
Qed.



End Window.




(** ** Daily buckets *)

Section Buckets.
Import LogParser Analytics.

Variable tz : Z.

Lemma msPerDay_pos : 0 < msPerDay.
Proof. reflexivity. Qed.

Lemma bucketStart_eq (a : Analytics.t) (i : Z) :
  bucketStart tz a i = startOfDay tz (now a) - i * msPerDay.
Proof.
  unfold bucketStart, startOfDay, addDays.
  replace (now a + - i * msPerDay + tz) with (now a + tz + (- i) * msPerDay) by ring.
  rewrite Z_mod_plus_full. ring.
Qed.

Lemma startOfDay_bounds (d : Z) :
  startOfDay tz d <= d < startOfDay tz d + msPerDay.
Proof.
  unfold startOfDay.
  pose proof (Z.mod_pos_bound (d + tz) msPerDay msPerDay_pos). lia.
Qed.


Lemma dailyLoop_eq (a : Analytics.t) (n : nat) (i : Z) (stats : list DailyStat) :
  dailyLoop tz a n i stats =
  stats ++ map (fun k => dayStat tz a (i + Z.of_nat k)) (seq 0 n).
Proof.
  revert i stats; induction n as [|n IH]; intros i stats.
  - simpl. rewrite app_nil_r. reflexivity.
  - cbn [dailyLoop]. rewrite IH, <- app_assoc. f_equal.
    cbn [seq map app]. rewrite Z.add_0_r. f_equal.
    rewrite <- seq_shift, map_map. apply map_ext. intros k.
    f_equal. lia.
Qed.

(** The rows, newest first, are the day statistics of days 0, 1, ... *)
Lemma getDailyStats_eq (a : Analytics.t) (days : Z) :
  getDailyStats tz a days =
  rev (map (fun k => dayStat tz a (Z.of_nat k)) (seq 0 (Z.to_nat days))).
Proof. unfold getDailyStats. rewrite dailyLoop_eq. reflexivity. Qed.

Lemma getDailyStats_succ (a : Analytics.t) (n : nat) :
  getDailyStats tz a (Z.of_nat (S n)) =
  dayStat tz a (Z.of_nat n) :: getDailyStats tz a (Z.of_nat n).
Proof.
  rewrite !getDailyStats_eq, !Nat2Z.id, seq_S, map_app, rev_app_distr.
  reflexivity.
Qed.



Lemma len_zero_nil (A : Type) (l : list A) : JS.len l = 0 -> l = [].
Proof. destruct l; [reflexivity|]. unfold JS.len. simpl List.length. lia. Qed.

Lemma dayStat_zero (a : Analytics.t) (i : Z) :
  d_sessions (dayStat tz a i) = 0 ->
  dayStat tz a i = Spec.zeroRow (isoDate (bucketStart tz a i)).
Proof.
  unfold dayStat; cbn [d_sessions]. intros H.
  apply len_zero_nil in H. rewrite H. reflexivity.
Qed.

End Buckets.



(** ** Window totals against daily rows *)

Section CrossCheck.
Import LogParser Analytics.

Variable tz : Z.

Lemma sumOverZ_filter_split (A : Type) (f : A -> Z) (p q r : A -> bool) (l : list A) :
  (forall x, In x l -> p x = q x || r x /\ q x && r x = false) ->
  Spec.sumOverZ f (filter p l) =
  Spec.sumOverZ f (filter q l) + Spec.sumOverZ f (filter r l).
Proof.
  induction l as [|x l IH]; intros H; [reflexivity|].
  destruct (H x (or_introl eq_refl)) as [Hp Hd].
  assert (IH' := IH (fun y Hy => H y (or_intror Hy))).
  simpl. rewrite Hp. destruct (q x), (r x); simpl in *; try discriminate; lia.
Qed.


Lemma filter_none (A : Type) (p : A -> bool) (l : list A) :
  (forall x, In x l -> p x = false) -> filter p l = [].
Proof.
  induction l as [|x l IH]; intros H; [reflexivity|].
  simpl. rewrite (H x (or_introl eq_refl)). apply IH.
  intros y Hy. apply H. right. exact Hy.
Qed.

Lemma daySessions_inBucket (a : Analytics.t) (i : Z) :
  daySessions tz a i = filter (Spec.inBucket tz a i) (sessions a).
Proof. reflexivity. Qed.

Lemma span_empty (a : Analytics.t) (days : Z) (s : Session) :
  days <= 0 -> Spec.inCalendarSpan tz a days s = false.
Proof.
  intros Hd. unfold Spec.inCalendarSpan, addDays.
  destruct (startTime s) as [st|]; [|reflexivity].
  rewrite !bucketStart_eq. pose proof msPerDay_pos.
  destruct (Z.leb_spec (startOfDay tz (now a) - (days - 1) * msPerDay) st);
    destruct (Z.ltb_spec st (startOfDay tz (now a) - 0 * msPerDay + 1 * msPerDay));
    try reflexivity.
  exfalso. nia.
Qed.

Lemma span_succ (a : Analytics.t) (n : nat) (s : Session) :
  Spec.inCalendarSpan tz a (Z.of_nat (S n)) s =
    Spec.inBucket tz a (Z.of_nat n) s || Spec.inCalendarSpan tz a (Z.of_nat n) s /\
  Spec.inBucket tz a (Z.of_nat n) s && Spec.inCalendarSpan tz a (Z.of_nat n) s = false.
Proof.
  unfold Spec.inCalendarSpan, Spec.inBucket, addDays.
  destruct (startTime s) as [st|]; [|split; reflexivity].
  rewrite !bucketStart_eq. rewrite Nat2Z.inj_succ.
  pose proof msPerDay_pos as HD.
  set (M := startOfDay tz (now a)) in *. set (D := msPerDay) in *.
  set (k := Z.of_nat n) in *.
  assert (Hk : 0 <= k) by (subst k; lia).
  replace ((Z.succ k - 1) * D) with (k * D) by ring.
  replace ((k - 1) * D) with (k * D - D) by ring.
  replace (M - 0 * D + 1 * D) with (M + D) by ring.
  replace (M - k * D + 1 * D) with (M - k * D + D) by ring.
  assert (HkD : 0 <= k * D) by nia.
  generalize dependent (k * D). intros kD HkD.
  destruct (Z.leb_spec (M - kD) st), (Z.ltb_spec st (M + D)),
    (Z.ltb_spec st (M - kD + D)), (Z.leb_spec (M - (kD - D)) st);
    simpl; split; try reflexivity; lia.
Qed.

Lemma span_in_window (a : Analytics.t) (days : Z) (s : Session) :
  Spec.inCalendarSpan tz a days s = true ->
  Spec.startsFrom (now a - days * msPerDay) s.
Proof.
  unfold Spec.inCalendarSpan, Spec.startsFrom.
  destruct (startTime s) as [st|]; [|discriminate].
  rewrite bucketStart_eq. intros H. apply andb_prop in H. destruct H as [H _].
  apply Z.leb_le in H. exists st. split; [reflexivity|].
  pose proof (startOfDay_bounds tz (now a)). lia.
Qed.

(** The sum of a column of the daily rows is the sum over the sessions of
    the calendar span. *)
Lemma rows_sumZ (a : Analytics.t) (g : DailyStat -> Z) (f : Session -> Z) :
  (forall i, g (dayStat tz a i) = JS.sumZ f (daySessions tz a i)) ->
  forall n : nat,
    Spec.sumOverZ g (getDailyStats tz a (Z.of_nat n)) =
    Spec.sumOverZ f (filter (Spec.inCalendarSpan tz a (Z.of_nat n)) (sessions a)).
Proof.
  intros Hg n. induction n as [|n IH].
  - rewrite (filter_none _ (Spec.inCalendarSpan tz a (Z.of_nat 0))); [reflexivity|].
    intros s _. apply span_empty. reflexivity.
  - rewrite getDailyStats_succ. cbn [Spec.sumOverZ fold_right].
    change (fold_right (fun x acc => g x + acc) 0 (getDailyStats tz a (Z.of_nat n)))
      with (Spec.sumOverZ g (getDailyStats tz a (Z.of_nat n))).
    rewrite IH, Hg, sumZ_sumOver, daySessions_inBucket.
    symmetry. apply sumOverZ_filter_split. intros s _. apply span_succ.
Qed.



Lemma average_eq (sum n : Z) : average sum n = Some (Spec.averageValue sum n).
Proof.
  unfold average, Spec.averageValue.
  destruct (Z.ltb_spec 0 n) as [Hn|Hn]; [|reflexivity].
  rewrite (div_by_positive _ n Hn). reflexivity.
Qed.

(** [getWeeklySummary] always returns, and these are its fields. *)
Lemma getWeeklySummary_fields (a : Analytics.t) (days : Z) :
  let ss := filterByDays a days in
  exists w,
    getWeeklySummary tz a days = Some w /\
    totalSessions w = JS.len ss /\
    totalMessages w = JS.sumZ (fun s => JS.len (messages s)) ss /\
    totalToolCalls w = JS.sumZ (fun s => JS.len (toolCalls s)) ss /\
    totalTokens w = JS.sumZ (fun s => total (tokens s)) ss /\
    totalCost w = JS.sumQ cost ss /\
    avgTokensPerSession w =
      Spec.averageValue (JS.sumZ (fun s => total (tokens s)) ss) (JS.len ss) /\
    avgMessagesPerSession w =
      Spec.averageValue (JS.sumZ (fun s => JS.len (messages s)) ss) (JS.len ss) /\
    topTools w =
      firstn 10 (JS.sortDesc (JS.entries (fst (fold_left (tally tz) ss ([], repeat 0 24))))) /\
    hourlyActivity w = snd (fold_left (tally tz) ss ([], repeat 0 24)) /\
    toolErrors w = JS.sumZ (fun s => JS.count resultIsError (toolCalls s)) ss.
Proof.
  intros ss. unfold getWeeklySummary. fold ss.
  rewrite !average_eq. cbn [JS.bind JS.ret].
  eexists. split; [reflexivity|]. cbn. repeat split.
Qed.

End CrossCheck.




(** ** Activity gaps *)

Section Gaps.
Import Analytics AnomalyDetector.

Lemma flat_map_ext_on (A B : Type) (f g : A -> list B) (l : list A) :
  (forall x, In x l -> f x = g x) -> flat_map f l = flat_map g l.
Proof.
  intros H. rewrite !flat_map_concat_map. f_equal. apply map_ext_in, H.
Qed.

Lemma combine_snoc (A B : Type) (l : list A) (l' : list B) (x : A) (y : B) :
  List.length l = List.length l' ->
  combine (l ++ [x]) (l' ++ [y]) = combine l l' ++ [(x, y)].
Proof.
  revert l'; induction l as [|a l IH]; intros [|b l'] H; try discriminate.
  - reflexivity.
  - cbn [combine app]. rewrite IH; [reflexivity|]. simpl in H. congruence.
Qed.

Lemma combine_shift (B : Type) (n : nat) (l : list B) (g : nat * B -> Anomaly) :
  map g (combine (seq 1 n) l) =
  map (fun p => g (S (fst p), snd p)) (combine (seq 0 n) l).
Proof.
  generalize 0%nat as start. revert l.
  induction n as [|n IH]; intros l start; [reflexivity|].
  destruct l as [|b l]; [reflexivity|].
  cbn [seq combine map fst snd]. f_equal. apply IH.
Qed.

Lemma gap_fold (ds : list DailyStat) (acc : list Anomaly) (c : Z) :
  fold_left gapStep ds (acc, c) = (acc ++ Spec.gapsFrom c ds, Spec.runAfter c ds).
Proof.
  revert acc c; induction ds as [|d ds IH]; intros acc c.
  - simpl. rewrite app_nil_r. reflexivity.
  - cbn [fold_left Spec.gapsFrom Spec.runAfter]. unfold gapStep at 2.
    unfold Spec.isZeroDay.
    destruct (d_sessions d =? 0); [|rewrite IH; reflexivity].
    destruct (2 <=? c + 1); rewrite IH.
    + rewrite <- app_assoc. reflexivity.
    + reflexivity.
Qed.

Lemma detectActivityGaps_eq (ds : list DailyStat) :
  detectActivityGaps ds = Spec.gapsFrom 0 ds.
Proof. unfold detectActivityGaps. rewrite gap_fold. reflexivity. Qed.

Lemma gapsFrom_app (c : Z) (l1 l2 : list DailyStat) :
  Spec.gapsFrom c (l1 ++ l2) =
  Spec.gapsFrom c l1 ++ Spec.gapsFrom (Spec.runAfter c l1) l2.
Proof.
  revert c; induction l1 as [|d l1 IH]; intros c; [reflexivity|].
  cbn [app Spec.gapsFrom Spec.runAfter].
  destruct (Spec.isZeroDay d); rewrite IH; [|reflexivity].
  rewrite app_assoc. reflexivity.
Qed.

Lemma runAfter_app (c : Z) (l1 l2 : list DailyStat) :
  Spec.runAfter c (l1 ++ l2) = Spec.runAfter (Spec.runAfter c l1) l2.
Proof.
  revert c; induction l1 as [|d l1 IH]; intros c; [reflexivity|].
  cbn [app Spec.runAfter]. destruct (Spec.isZeroDay d); apply IH.
Qed.

(** The counter of the loop is the length of the current run. *)
Lemma runAfter_leadingZeros (ds : list DailyStat) :
  Spec.runAfter 0 ds = Spec.leadingZeros (rev ds).
Proof.
  induction ds as [|d ds IH] using rev_ind; [reflexivity|].
  rewrite runAfter_app, rev_app_distr. cbn [rev app Spec.runAfter Spec.leadingZeros].
  destruct (Spec.isZeroDay d); [|reflexivity]. rewrite IH. lia.
Qed.

Lemma gapFindings_snoc (ds : list DailyStat) (d : DailyStat) :
  Spec.gapFindings (ds ++ [d]) =
  Spec.gapFindings ds ++
  (if 2 <=? Spec.leadingZeros (d :: rev ds)
   then [gapFinding d (Spec.leadingZeros (d :: rev ds))]
   else []).
Proof.
  unfold Spec.gapFindings.
  rewrite length_app. cbn [List.length]. rewrite Nat.add_1_r, seq_S, flat_map_app.
  f_equal.
  - apply flat_map_ext_on. intros k Hk. apply in_seq in Hk.
    rewrite nth_error_app1 by lia. unfold Spec.zeroRunAt.
    rewrite firstn_app. replace (S k - List.length ds)%nat with 0%nat by lia.
    cbn [firstn]. rewrite app_nil_r. reflexivity.
  - cbn [flat_map]. rewrite app_nil_r.
    rewrite nth_error_app2 by lia. rewrite Nat.sub_diag. cbn [nth_error].
    unfold Spec.zeroRunAt.
    rewrite firstn_all2 by (rewrite length_app; cbn [List.length]; lia).
    rewrite rev_app_distr. reflexivity.
Qed.

Lemma gapsFrom_gapFindings (ds : list DailyStat) :
  Spec.gapsFrom 0 ds = Spec.gapFindings ds.
Proof.
  induction ds as [|d ds IH] using rev_ind; [reflexivity|].
  rewrite gapsFrom_app, gapFindings_snoc, IH, runAfter_leadingZeros. f_equal.
  cbn [Spec.gapsFrom Spec.leadingZeros].
  destruct (Spec.isZeroDay d); [|reflexivity].
  rewrite app_nil_r, (Z.add_comm 1). reflexivity.
Qed.

Lemma gapsFrom_types (c : Z) (ds : list DailyStat) :
  Forall (fun x => a_type x = activity_gap /\ severity x = low) (Spec.gapsFrom c ds).
Proof.
  revert c; induction ds as [|d ds IH]; intros c; [constructor|].
  cbn [Spec.gapsFrom]. destruct (Spec.isZeroDay d); [|apply IH].
  apply Forall_app. split; [|apply IH].
  destruct (2 <=? c + 1); repeat constructor.
Qed.

(** Inside a run of zero-session days entered with counter [c >= 1], every
    day gives a finding. *)
Lemma gapsFrom_run (run : list DailyStat) (c : Z) :
  Forall (fun d => d_sessions d = 0) run -> 1 <= c ->
  Spec.gapsFrom c run =
    map (fun p => gapFinding (snd p) (Z.of_nat (fst p) + (c + 1)))
        (combine (seq 0 (List.length run)) run) /\
  Spec.runAfter c run = c + Z.of_nat (List.length run).
Proof.
  intros Hz. revert c. induction Hz as [|d run Hd Hrun IH]; intros c Hc.
  - simpl. split; [reflexivity|lia].
  - cbn [Spec.gapsFrom Spec.runAfter List.length seq combine map fst snd].
    unfold Spec.isZeroDay. rewrite Hd. cbn [Z.eqb].
    destruct (IH (c + 1)) as [Hg Hr]; [lia|].
    rewrite Hg, Hr. destruct (Z.leb_spec 2 (c + 1)); [|lia]. split; [|lia].
    cbn [app]. f_equal. rewrite combine_shift.
    apply map_ext. intros [k day]. cbn [fst snd]. f_equal. lia.
Qed.

Lemma gapsFrom_reset (c : Z) (post : list DailyStat) :
  Spec.leadingZeros post = 0 -> Spec.gapsFrom c post = Spec.gapsFrom 0 post.
Proof.
  destruct post as [|d post]; [reflexivity|].
  cbn [Spec.leadingZeros Spec.gapsFrom]. destruct (Spec.isZeroDay d); [|reflexivity].
  intros H. exfalso. clear -H.
  assert (forall l, 0 <= Spec.leadingZeros l) as Hnn.
  { induction l as [|x l IHl]; cbn [Spec.leadingZeros]; [lia|].
    destruct (Spec.isZeroDay x); lia. }
  specialize (Hnn post). lia.
Qed.

Lemma maximal_run (pre run post : list DailyStat) :
  Forall (fun d => d_sessions d = 0) run ->
  Spec.leadingZeros (rev pre) = 0 ->
  Spec.leadingZeros post = 0 ->
  detectActivityGaps (pre ++ run ++ post) =
  detectActivityGaps pre ++ Spec.runFindings run ++ detectActivityGaps post.
Proof.
  intros Hz Hpre Hpost. rewrite !detectActivityGaps_eq, !gapsFrom_app.
  rewrite runAfter_leadingZeros, Hpre. f_equal.
  destruct Hz as [|d run Hd Hrun].
  - reflexivity.
  - cbn [Spec.gapsFrom Spec.runAfter]. unfold Spec.isZeroDay. rewrite Hd.
    cbn [Z.eqb Z.add Z.leb Z.compare Pos.compare app].
    change (0 + 1) with 1.
    destruct (gapsFrom_run run 1 Hrun) as [Hg Hr]; [lia|].
    rewrite Hg, (gapsFrom_reset _ post Hpost). f_equal.
    unfold Spec.runFindings. cbn [tl List.length].
    change (2 <=? 1) with false. cbn [app]. change (1 + 1) with 2.
    clear. generalize 0%nat as start. induction run as [|x run IH]; intros start.
    + reflexivity.
    + cbn [List.length seq combine map]. f_equal. apply IH.
Qed.

End Gaps.

(** C7.  [detectActivityGaps] emits exactly one low-severity finding for
    each position at which the current run of consecutive zero-session days
    has length at least two, valued with that length, and nothing else; so a
    maximal run of [L] zero-session days contributes [L - 1] findings, none
    for its first day. *)
Theorem activity_gap_findings (ds : list Analytics.DailyStat) :
  AnomalyDetector.detectActivityGaps ds = Spec.gapFindings ds /\
  Forall (fun x => AnomalyDetector.a_type x = AnomalyDetector.activity_gap /\
                   AnomalyDetector.severity x = AnomalyDetector.low)
         (AnomalyDetector.detectActivityGaps ds) /\
  (forall pre run post,
      ds = pre ++ run ++ post ->
      Forall (fun d => Analytics.d_sessions d = 0) run ->
      Spec.leadingZeros (rev pre) = 0 ->
      Spec.leadingZeros post = 0 ->
      AnomalyDetector.detectActivityGaps ds =
        AnomalyDetector.detectActivityGaps pre ++ Spec.runFindings run ++
        AnomalyDetector.detectActivityGaps post /\
      List.length (Spec.runFindings run) = (List.length run - 1)%nat).
Proof.
  split; [rewrite detectActivityGaps_eq; apply gapsFrom_gapFindings|].
  split; [rewrite detectActivityGaps_eq; apply gapsFrom_types|].
  intros pre run post -> Hz Hpre Hpost. split; [apply maximal_run; assumption|].
  unfold Spec.runFindings. rewrite length_map, length_combine, length_seq.
  destruct run; cbn [tl List.length]; lia.
Qed.

Lemma activity_gap_findings_witness :
  let run := [Sample.zeroDay 1; Sample.zeroDay 2; Sample.zeroDay 3] in
  let pre := [Sample.busyDay 0 5] in
  let post := [Sample.busyDay 4 2; Sample.zeroDay 5] in
  Forall (fun d => Analytics.d_sessions d = 0) run /\
  Spec.leadingZeros (rev pre) = 0 /\
  Spec.leadingZeros post = 0 /\
  AnomalyDetector.detectActivityGaps (pre ++ run ++ post) =
    AnomalyDetector.detectActivityGaps pre ++ Spec.runFindings run ++
    AnomalyDetector.detectActivityGaps post.
Proof.
  cbv zeta.
  assert (Hz : Forall (fun d => Analytics.d_sessions d = 0)
                      [Sample.zeroDay 1; Sample.zeroDay 2; Sample.zeroDay 3])
    by (repeat constructor).
  split; [exact Hz|]. split; [reflexivity|]. split; [reflexivity|].
  destruct (activity_gap_findings
              ([Sample.busyDay 0 5] ++
               [Sample.zeroDay 1; Sample.zeroDay 2; Sample.zeroDay 3] ++
               [Sample.busyDay 4 2; Sample.zeroDay 5])) as (_ & _ & H).
  destruct (H [Sample.busyDay 0 5]
              [Sample.zeroDay 1; Sample.zeroDay 2; Sample.zeroDay 3]
              [Sample.busyDay 4 2; Sample.zeroDay 5] eq_refl Hz eq_refl eq_refl)
    as [Hm _].
  exact Hm.
Defined.

(** ** Divisions of the aggregator and the detector *)

Section Divisions.
Import LogParser Analytics AnomalyDetector.

Variable tz : Z.

Lemma div_by_seven (x : Q) : JS.div x 7 = Some (x / 7)%Q.
Proof. reflexivity. Qed.

Lemma sumOverZ_zero (A : Type) (f : A -> Z) (l : list A) :
  (forall x, 0 <= f x) -> Spec.sumOverZ f l = 0 -> forall x, In x l -> f x = 0.
Proof.
  intros Hf. induction l as [|y l IH]; intros H x Hx; [destruct Hx|].
  simpl in H.
  assert (0 <= Spec.sumOverZ f l).
  { clear -Hf. induction l as [|z l IHl]; simpl; [lia|]. specialize (Hf z). lia. }
  pose proof (Hf y). destruct Hx as [<-|Hx]; [lia|]. apply IH; [lia|exact Hx].
Qed.

Lemma tally_without_calls (ss : list Session) (o : JS.Obj) (h : list Z) :
  (forall s, In s ss -> toolCalls s = []) ->
  fst (fold_left (tally tz) ss (o, h)) = o.
Proof.
  revert o h; induction ss as [|s ss IH]; intros o h H; [reflexivity|].
  cbn [fold_left]. unfold tally at 2. cbn [fst snd].
  rewrite (H s (or_introl eq_refl)). cbn [fold_left].
  apply IH. intros s' Hs'. apply H. right. exact Hs'.
Qed.

(** Without tool calls in the window there is no entry in [topTools]. *)
Lemma no_calls_no_tools (a : Analytics.t) (days : Z) (w : WindowSummary) :
  getWeeklySummary tz a days = Some w ->
  totalToolCalls w = 0 -> topTools w = [].
Proof.
  intros Hw Hz.
  destruct (getWeeklySummary_fields tz a days)
    as (w' & Hw' & _ & _ & Hc & _ & _ & _ & _ & Ht & _).
  rewrite Hw in Hw'. injection Hw' as <-.
  rewrite Ht, tally_without_calls; [reflexivity|].
  intros s Hs. rewrite Hc, sumZ_sumOver in Hz.
  apply len_zero_nil.
  apply (sumOverZ_zero _ (fun s => JS.len (toolCalls s)) _) with (x := s) in Hz;
    [exact Hz| |exact Hs].
  intros x. unfold JS.len. lia.
Qed.

Lemma dominanceLoop_defined (totalCalls : Z) (top : list (string * Z)) (acc : list Anomaly) :
  totalCalls <> 0 \/ top = [] ->
  exists l,
    dominanceLoop totalCalls top acc = Some (acc ++ l) /\
    Forall (fun x => a_type x = tool_dominance) l.
Proof.
  intros [Hnz| ->].
  - revert acc; induction top as [|[name count] top IH]; intros acc.
    + exists []. rewrite app_nil_r. split; [reflexivity|constructor].
    + cbn [dominanceLoop]. rewrite div_defined.
      2:{ unfold Qeq, inject_Z; simpl. lia. }
      cbn [JS.bind].
      destruct (JS.gtb _ _ && (50 <? count)).
      * destruct (IH (acc ++ [Spec.dominanceFinding
                                (inject_Z count / inject_Z totalCalls) name]))
          as (l & Hl & Hty).
        eexists. unfold Spec.dominanceFinding in Hl. rewrite Hl, <- app_assoc.
        split; [reflexivity|]. constructor; [reflexivity|exact Hty].
      * apply IH.
  - exists []. rewrite app_nil_r. split; [reflexivity|constructor].
Qed.

Lemma errorRate_defined (w : WindowSummary) :
  exists r, errorRate w = Some r /\ (totalToolCalls w = 0 -> r = 0%Q).
Proof.
  unfold errorRate. destruct (Z.ltb_spec 0 (totalToolCalls w)) as [H|H].
  - rewrite (div_by_positive _ _ H). eexists. split; [reflexivity|]. lia.
  - exists 0%Q. split; reflexivity.
Qed.

Lemma nightRatio_defined (w : WindowSummary) :
  exists r, nightRatio w = Some r /\
            (JS.sumZ (fun v => v) (hourlyActivity w) = 0 -> r = 0%Q).
Proof.
  unfold nightRatio. destruct (Z.ltb_spec 0 (JS.sumZ (fun v => v) (hourlyActivity w))) as [H|H].
  - rewrite (div_by_positive _ _ H). eexists. split; [reflexivity|]. lia.
  - exists 0%Q. split; reflexivity.
Qed.

Lemma toolsPerSession_defined (w : WindowSummary) :
  exists r, toolsPerSession w = Some r /\ (totalSessions w = 0 -> r = 0%Q).
Proof.
  unfold toolsPerSession. destruct (Z.ltb_spec 0 (totalSessions w)) as [H|H].
  - rewrite (div_by_positive _ _ H). eexists. split; [reflexivity|]. lia.
  - exists 0%Q. split; reflexivity.
Qed.

Lemma detectHighToolUsage_defined (w : WindowSummary) :
  totalToolCalls w <> 0 \/ topTools w = [] ->
  exists dom freq,
    detectHighToolUsage w = Some (dom ++ freq) /\
    Forall (fun x => a_type x = tool_dominance) dom /\
    Forall (fun x => a_type x = high_tool_frequency) freq.
Proof.
  intros H. unfold detectHighToolUsage.
  destruct (dominanceLoop_defined _ _ [] H) as (dom & Hd & Hty).
  destruct (toolsPerSession_defined w) as (r & Hr & _).
  rewrite Hd, Hr. cbn [JS.bind JS.ret app].
  exists dom. destruct (JS.gtb r 100).
  - eexists. split; [reflexivity|]. split; [exact Hty|]. repeat constructor.
  - exists []. rewrite app_nil_r. split; [reflexivity|]. split; [exact Hty|constructor].
Qed.

Lemma summary_tools_guard (a : Analytics.t) (days : Z) (w : WindowSummary) :
  getWeeklySummary tz a days = Some w ->
  totalToolCalls w <> 0 \/ topTools w = [].
Proof.
  intros Hw. destruct (Z.eq_dec (totalToolCalls w) 0) as [Hz|Hnz].
  - right. apply (no_calls_no_tools a days w Hw Hz).
  - left. exact Hnz.
Qed.

(** Findings pushed by a loop that tests each day. *)
Lemma push_loop (A : Type) (test : A -> bool) (mk : A -> Anomaly)
      (ds : list A) (acc : list Anomaly) :
  fold_left (fun anomalies day => if test day then anomalies ++ [mk day] else anomalies)
            ds acc =
  acc ++ map mk (filter test ds).
Proof.
  revert acc; induction ds as [|d ds IH]; intros acc.
  - simpl. rewrite app_nil_r. reflexivity.
  - cbn [fold_left filter]. rewrite IH. destruct (test d); [|reflexivity].
    rewrite <- app_assoc. reflexivity.
Qed.

Lemma detectTokenSpikes_defined (ds : list DailyStat) (w : WindowSummary) :
  exists l, detectTokenSpikes ds w = Some l /\
            Forall (fun x => a_type x = token_spike) l.
Proof.
  unfold detectTokenSpikes. rewrite div_by_seven. cbn [JS.bind JS.ret].
  rewrite push_loop. eexists. split; [reflexivity|].
  cbn [app]. apply Forall_map, Forall_forall. reflexivity.
Qed.

Lemma detectCostSpikes_defined (ds : list DailyStat) (w : WindowSummary) :
  exists l, detectCostSpikes ds w = Some l /\
            Forall (fun x => a_type x = cost_spike) l.
Proof.
  unfold detectCostSpikes. rewrite div_by_seven. cbn [JS.bind JS.ret].
  rewrite push_loop. eexists. split; [reflexivity|].
  cbn [app]. apply Forall_map, Forall_forall. reflexivity.
Qed.

Lemma detectToolErrors_defined (w : WindowSummary) :
  exists l, detectToolErrors w = Some l /\
            Forall (fun x => a_type x = high_error_rate) l.
Proof.
  unfold detectToolErrors. destruct (errorRate_defined w) as (r & -> & _).
  cbn [JS.bind JS.ret]. eexists. split; [reflexivity|].
  destruct (JS.gtb r (1 # 10) && (5 <? toolErrors w)); repeat constructor.
Qed.

Lemma detectUnusualHours_defined (w : WindowSummary) :
  exists l, detectUnusualHours w = Some l /\
            Forall (fun x => a_type x = unusual_hours) l.
Proof.
  unfold detectUnusualHours. destruct (nightRatio_defined w) as (r & -> & _).
  cbn [JS.bind JS.ret]. eexists. split; [reflexivity|].
  destruct (JS.gtb r (3 # 10) && (5 <? nightActivity w)); repeat constructor.
Qed.

Lemma ofType_all (ty : AnomalyType) (l : list Anomaly) :
  Forall (fun x => a_type x = ty) l -> ofType ty l = l.
Proof.
  induction 1 as [|x l Hx _ IH]; [reflexivity|].
  unfold ofType in *. cbn [filter]. rewrite Hx, IH.
  destruct ty; reflexivity.
Qed.

Lemma ofType_none (ty ty' : AnomalyType) (l : list Anomaly) :
  typeEqb ty' ty = false ->
  Forall (fun x => a_type x = ty') l -> ofType ty l = [].
Proof.
  intros Hne. induction 1 as [|x l Hx _ IH]; [reflexivity|].
  unfold ofType in *. cbn [filter]. rewrite Hx, Hne. exact IH.
Qed.

(** The detector on the output of the aggregator: what each rule finds,
    and the list it returns. *)
Lemma detect_parts (a : Analytics.t) :
  exists w ts te uh cs dom freq,
    getWeeklySummary tz a 7 = Some w /\
    detectTokenSpikes (getDailyStats tz a 7) w = Some ts /\
    detectToolErrors w = Some te /\
    detectUnusualHours w = Some uh /\
    detectCostSpikes (getDailyStats tz a 7) w = Some cs /\
    detectHighToolUsage w = Some (dom ++ freq) /\
    detect tz a =
      Some (ts ++ te ++ uh ++ cs ++ detectActivityGaps (getDailyStats tz a 7)
               ++ dom ++ freq) /\
    Forall (fun x => a_type x = token_spike) ts /\
    Forall (fun x => a_type x = high_error_rate) te /\
    Forall (fun x => a_type x = unusual_hours) uh /\
    Forall (fun x => a_type x = cost_spike) cs /\
    Forall (fun x => a_type x = tool_dominance) dom /\
    Forall (fun x => a_type x = high_tool_frequency) freq.
Proof.
  destruct (getWeeklySummary_fields tz a 7) as (w & Hw & _).
  destruct (detectTokenSpikes_defined (getDailyStats tz a 7) w) as (ts & Hts & Tts).
  destruct (detectToolErrors_defined w) as (te & Hte & Tte).
  destruct (detectUnusualHours_defined w) as (uh & Huh & Tuh).
  destruct (detectCostSpikes_defined (getDailyStats tz a 7) w) as (cs & Hcs & Tcs).
  destruct (detectHighToolUsage_defined w (summary_tools_guard a 7 w Hw))
    as (dom & freq & Hhu & Tdom & Tfreq).
  exists w, ts, te, uh, cs, dom, freq.
  repeat (split; [assumption|]).
  split; [|repeat (split; [assumption|]); assumption].
  unfold detect. rewrite Hw. cbn [JS.bind].
  rewrite Hts. cbn [JS.bind]. rewrite Hte. cbn [JS.bind].
  rewrite Huh. cbn [JS.bind]. rewrite Hcs. cbn [JS.bind].
  rewrite Hhu. cbn [JS.bind JS.ret app].
  rewrite <- !app_assoc. reflexivity.
Qed.

End Divisions.



(** C1, as the code has it.  The detector never fails, and its output is
    the concatenation of the findings of its rules in the order token
    spike, high error rate, unusual hours, cost spike, activity gap, tool
    dominance, high call frequency. *)
Theorem detect_concatenates_rules_in_source_order (tz : Z) (a : Analytics.t) :
  exists f : AnomalyDetector.AnomalyType -> list AnomalyDetector.Anomaly,
    (forall ty, Spec.ruleFindings tz a ty = Some (f ty)) /\
    (forall ty, Forall (fun x => AnomalyDetector.a_type x = ty) (f ty)) /\
    AnomalyDetector.detect tz a =
      Some (f AnomalyDetector.token_spike ++
            f AnomalyDetector.high_error_rate ++
            f AnomalyDetector.unusual_hours ++
            f AnomalyDetector.cost_spike ++
            f AnomalyDetector.activity_gap ++
            f AnomalyDetector.tool_dominance ++
            f AnomalyDetector.high_tool_frequency).
Proof.
  destruct (detect_parts tz a)
    as (w & ts & te & uh & cs & dom & freq &
        Hw & Hts & Hte & Huh & Hcs & Hhu & Hd & Tts & Tte & Tuh & Tcs & Tdom & Tfreq).
  exists (fun ty =>
            match ty with
            | AnomalyDetector.token_spike => ts
            | AnomalyDetector.high_error_rate => te
            | AnomalyDetector.unusual_hours => uh
            | AnomalyDetector.cost_spike => cs
            | AnomalyDetector.activity_gap =>
                AnomalyDetector.detectActivityGaps (Analytics.getDailyStats tz a 7)
            | AnomalyDetector.tool_dominance => dom
            | AnomalyDetector.high_tool_frequency => freq
            end).
  split; [|split].
  - intros ty. unfold Spec.ruleFindings. rewrite Hw. cbn [JS.bind].
    destruct ty; try assumption; try reflexivity.
    + rewrite Hhu. cbn [JS.bind]. unfold JS.ret. f_equal.
      unfold AnomalyDetector.ofType. rewrite filter_app.
      fold (AnomalyDetector.ofType AnomalyDetector.tool_dominance dom).
      fold (AnomalyDetector.ofType AnomalyDetector.tool_dominance freq).
      rewrite (ofType_all _ dom Tdom).
      rewrite (ofType_none AnomalyDetector.tool_dominance
                 AnomalyDetector.high_tool_frequency freq eq_refl Tfreq).
      apply app_nil_r.
    + rewrite Hhu. cbn [JS.bind]. unfold JS.ret. f_equal.
      unfold AnomalyDetector.ofType. rewrite filter_app.
      fold (AnomalyDetector.ofType AnomalyDetector.high_tool_frequency dom).
      fold (AnomalyDetector.ofType AnomalyDetector.high_tool_frequency freq).
      rewrite (ofType_all _ freq Tfreq).
      rewrite (ofType_none AnomalyDetector.high_tool_frequency
                 AnomalyDetector.tool_dominance dom eq_refl Tdom).
      reflexivity.
  - intros ty. destruct ty; try assumption.
    rewrite detectActivityGaps_eq.
    eapply Forall_impl; [|apply gapsFrom_types]. intros x [Hx _]. exact Hx.
  - exact Hd.
Qed.

(** C1 as stated fails on a day that has both a cost spike and a high tool
    error rate: the detector reports the error rate first, the table of the
    specification puts the cost spike first. *)
Lemma detect_not_in_table_order :
  ~ exists f : AnomalyDetector.AnomalyType -> list AnomalyDetector.Anomaly,
      (forall ty, Spec.ruleFindings 0 Sample.failingDay ty = Some (f ty)) /\
      AnomalyDetector.detect 0 Sample.failingDay =
        Some (f AnomalyDetector.token_spike ++
              f AnomalyDetector.cost_spike ++
              f AnomalyDetector.high_error_rate ++
              f AnomalyDetector.unusual_hours ++
              f AnomalyDetector.activity_gap ++
              f AnomalyDetector.tool_dominance ++
              f AnomalyDetector.high_tool_frequency).
Proof.
  intros (f & Hf & Hd).
  pose proof (Hf AnomalyDetector.token_spike) as H1.
  pose proof (Hf AnomalyDetector.cost_spike) as H2.
  vm_compute in H1. vm_compute in H2.
  injection H1 as H1. injection H2 as H2.
  rewrite <- H1, <- H2 in Hd. vm_compute in Hd. discriminate Hd.
Qed.


(** * Further properties *)

(** ** The session built from a file *)

Section BuiltSession.
Import Log LogParser.

Lemma stepTimestamp_header (e : Entry) (s : Session) :
  id (stepTimestamp e s) = id s /\ model (stepTimestamp e s) = model s /\
  provider (stepTimestamp e s) = provider s /\
  durationMs (stepTimestamp e s) = durationMs s /\
  file (stepTimestamp e s) = file s.
Proof. unfold stepTimestamp. destruct (e_timestamp e); repeat split. Qed.

Lemma stepMeta_header (e : Entry) (s : Session) :
  id (stepMeta e s) =
    (if String.eqb (e_type e) "session" then
       match e_id e with
       | Some i => if String.eqb i EmptyString then id s else i
       | None => id s
       end
     else id s) /\
  model (stepMeta e s) = model s /\
  provider (stepMeta e s) = provider s /\
  durationMs (stepMeta e s) = durationMs s /\
  file (stepMeta e s) = file s.
Proof. unfold stepMeta. destruct (String.eqb (e_type e) "session"); repeat split. Qed.

Lemma stepModel_header (e : Entry) (s : Session) :
  id (stepModel e s) = id s /\
  model (stepModel e s) =
    (if String.eqb (e_type e) "model_change" then e_modelId e else model s) /\
  provider (stepModel e s) =
    (if String.eqb (e_type e) "model_change" then e_provider e else provider s) /\
  durationMs (stepModel e s) = durationMs s /\
  file (stepModel e s) = file s.
Proof. unfold stepModel. destruct (String.eqb (e_type e) "model_change"); repeat split. Qed.

Lemma stepMessage_header (e : Entry) (s : Session) :
  id (stepMessage e s) = id s /\ model (stepMessage e s) = model s /\
  provider (stepMessage e s) = provider s /\
  durationMs (stepMessage e s) = durationMs s /\
  file (stepMessage e s) = file s.
Proof.
  unfold stepMessage.
  destruct (e_message e), (String.eqb (e_type e) "message"); repeat split.
Qed.

Lemma stepToolResult_header (e : Entry) (s : Session) :
  id (stepToolResult e s) = id s /\ model (stepToolResult e s) = model s /\
  provider (stepToolResult e s) = provider s /\
  durationMs (stepToolResult e s) = durationMs s /\
  file (stepToolResult e s) = file s.
Proof.
  unfold stepToolResult.
  destruct (e_message e) as [m|]; [|repeat split].
  destruct (String.eqb (e_type e) "message" && String.eqb (m_role m) "toolResult");
    repeat split.
Qed.

(** What one event does to the identifier, the model and the provider. *)
Lemma foldEntry_header (s : Session) (e : Entry) :
  id (foldEntry s e) =
    (if String.eqb (e_type e) "session" then
       match e_id e with
       | Some i => if String.eqb i EmptyString then id s else i
       | None => id s
       end
     else id s) /\
  model (foldEntry s e) =
    (if String.eqb (e_type e) "model_change" then e_modelId e else model s) /\
  provider (foldEntry s e) =
    (if String.eqb (e_type e) "model_change" then e_provider e else provider s) /\
  durationMs (foldEntry s e) = durationMs s /\
  file (foldEntry s e) = file s.
Proof.
  unfold foldEntry.
  destruct (stepToolResult_header e
              (stepMessage e (stepModel e (stepMeta e (stepTimestamp e s)))))
    as (-> & -> & -> & -> & ->).
  destruct (stepMessage_header e (stepModel e (stepMeta e (stepTimestamp e s))))
    as (-> & -> & -> & -> & ->).
  destruct (stepModel_header e (stepMeta e (stepTimestamp e s)))
    as (-> & -> & -> & -> & ->).
  destruct (stepMeta_header e (stepTimestamp e s)) as (-> & -> & -> & -> & ->).
  destruct (stepTimestamp_header e s) as (-> & -> & -> & -> & ->).
  repeat split.
Qed.

Lemma finish_header (s : Session) :
  id (finish s) = id s /\ model (finish s) = model s /\
  provider (finish s) = provider s /\ file (finish s) = file s.
Proof. unfold finish. destruct (startTime s), (endTime s); repeat split. Qed.

Lemma lastOpt_snoc (A : Type) (l : list A) (x : A) : Views.lastOpt (l ++ [x]) = Some x.
Proof.
  induction l as [|a l IH]; [reflexivity|].
  cbn [app Views.lastOpt]. rewrite IH.
  destruct (l ++ [x]) eqn:E; [destruct l; discriminate|reflexivity].
Qed.

Lemma foldEntries_messages (lines : list Entry) (s : Session) :
  map msg_role (messages (foldEntries s lines)) =
  map msg_role (messages s) ++ Views.messageRoles lines.
Proof.
  revert s; induction lines as [|e lines IH]; intros s.
  - simpl. rewrite app_nil_r. reflexivity.
  - change (foldEntries s (e :: lines)) with (foldEntries (foldEntry s e) lines).
    rewrite IH, foldEntry_messages, map_app, <- app_assoc. f_equal.
    unfold Views.messageRoles. cbn [flat_map].
    destruct (Spec.messageOf e); reflexivity.
Qed.



End BuiltSession.


Section BuiltSpan.
Import Log LogParser.





End BuiltSpan.


Section BuiltHeader.
Import Log LogParser.

Lemma foldEntries_model (lines : list Entry) (s : Session) :
  let s' := foldEntries s lines in
  model s' = match Views.lastOpt (Views.modelChanges lines) with
             | Some e => e_modelId e
             | None => model s
             end /\
  provider s' = match Views.lastOpt (Views.modelChanges lines) with
                | Some e => e_provider e
                | None => provider s
                end.
Proof.
  induction lines as [|e pre IH] using rev_ind; [split; reflexivity|].
  cbv zeta in *. rewrite foldEntries_snoc.
  destruct (foldEntry_header (foldEntries s pre) e) as (_ & -> & -> & _).
  unfold Views.modelChanges in *. rewrite filter_app. cbn [filter].
  destruct (String.eqb (e_type e) "model_change").
  - rewrite lastOpt_snoc. split; reflexivity.
  - rewrite app_nil_r. exact IH.
Qed.

Lemma foldEntries_id (lines : list Entry) (s : Session) :
  id (foldEntries s lines) =
  match Views.lastOpt (Views.sessionIds lines) with
  | Some i => i
  | None => id s
  end.
Proof.
  induction lines as [|e pre IH] using rev_ind; [reflexivity|].
  rewrite foldEntries_snoc.
  destruct (foldEntry_header (foldEntries s pre) e) as (-> & _).
  unfold Views.sessionIds in *. rewrite flat_map_app. cbn [flat_map].
  rewrite app_nil_r.
  destruct (String.eqb (e_type e) "session"); [|rewrite app_nil_r; exact IH].
  destruct (e_id e) as [i|]; [|rewrite app_nil_r; exact IH].
  destruct (String.eqb i EmptyString); [rewrite app_nil_r; exact IH|].
  rewrite lastOpt_snoc. reflexivity.
Qed.

End BuiltHeader.

(** X3.  [model] and [provider] of a built session are those of the last
    [model_change] line of the file, also when that line lacks them, and
    are null when the file has no such line. *)
Theorem session_model_is_last_change (lines : list Log.Entry) (name filePath : string) :
  let s := LogParser.processSession lines name filePath in
  LogParser.model s =
    match Views.lastOpt (Views.modelChanges lines) with
    | Some e => Log.e_modelId e
    | None => None
    end /\
  LogParser.provider s =
    match Views.lastOpt (Views.modelChanges lines) with
    | Some e => Log.e_provider e
    | None => None
    end.
Proof.
  intros s. subst s. unfold LogParser.processSession.
  destruct (finish_header (LogParser.foldEntries (LogParser.emptySession name filePath) lines))
    as (_ & -> & -> & _).
  apply (foldEntries_model lines (LogParser.emptySession name filePath)).
Qed.

(** X4.  The identifier of a built session is the last non-empty [id] given
    by a [session] line, and the name derived from the file when no line
    gives one. *)
Theorem session_id_is_last_given (lines : list Log.Entry) (name filePath : string) :
  LogParser.id (LogParser.processSession lines name filePath) =
  match Views.lastOpt (Views.sessionIds lines) with
  | Some i => i
  | None => name
  end.
Proof.
  unfold LogParser.processSession.
  destruct (finish_header (LogParser.foldEntries (LogParser.emptySession name filePath) lines))
    as (-> & _).
  apply (foldEntries_id lines (LogParser.emptySession name filePath)).
Qed.

Section Shadowed.
Import Log LogParser.

Lemma updateFirst_nth (A : Type) (p : A -> bool) (upd : A -> A) (l : list A) (j : nat) (x : A) :
  nth_error (JS.updateFirst p upd l) j = Some x ->
  exists y,
    nth_error l j = Some y /\
    (x = y \/
     (x = upd y /\ p y = true /\
      forall i z, (i < j)%nat -> nth_error l i = Some z -> p z = false)).
Proof.
  revert j; induction l as [|a l IH]; intros j H.
  - destruct j; discriminate.
  - cbn [JS.updateFirst] in H. destruct (p a) eqn:Pa.
    + destruct j as [|j].
      * injection H as <-. exists a. split; [reflexivity|]. right.
        repeat split; auto. intros i z Hi. lia.
      * exists x. split; [exact H|]. left. reflexivity.
    + destruct j as [|j].
      * injection H as <-. exists a. split; [reflexivity|]. left. reflexivity.
      * cbn [nth_error] in H. destruct (IH j H) as (y & Hy & Hcase).
        exists y. split; [exact Hy|].
        destruct Hcase as [->|(-> & Py & Hbefore)]; [left; reflexivity|].
        right. repeat split; auto.
        intros i z Hi Hz. destruct i as [|i].
        -- injection Hz as <-. exact Pa.
        -- apply (Hbefore i z); [lia|exact Hz].
Qed.

Lemma shadowed_after_results (x : option string) (r : ToolResult) (calls : list ToolCall) :
  Views.shadowedUnanswered calls ->
  Views.shadowedUnanswered
    (JS.updateFirst (fun t => JS.optStrEq (tc_id t) x)
                    (fun t => Spec.withResult t r) calls).
Proof.
  intros H i j ci cj Hi Hj Hij Hid.
  apply updateFirst_nth in Hi. apply updateFirst_nth in Hj.
  destruct Hi as (yi & Hyi & Hci). destruct Hj as (yj & Hyj & Hcj).
  assert (Eid : tc_id yi = tc_id yj).
  { destruct Hci as [->|(-> & _)], Hcj as [->|(-> & _)]; exact Hid. }
  destruct Hcj as [->|(-> & Pj & Hbefore)].
  - apply (H i j yi yj Hyi Hyj Hij Eid).
  - exfalso. specialize (Hbefore i yi Hij Hyi). cbv beta in Hbefore.
    rewrite Eid in Hbefore. congruence.
Qed.

Lemma shadowed_after_calls (calls new : list ToolCall) :
  Views.shadowedUnanswered calls ->
  (forall c, In c new -> tc_result c = None) ->
  Views.shadowedUnanswered (calls ++ new).
Proof.
  intros H Hnew i j ci cj Hi Hj Hij Hid.
  destruct (Nat.lt_ge_cases j (List.length calls)) as [Hlt|Hge].
  - rewrite nth_error_app1 in Hi by lia. rewrite nth_error_app1 in Hj by lia.
    apply (H i j ci cj Hi Hj Hij Hid).
  - rewrite nth_error_app2 in Hj by lia. apply Hnew.
    apply (nth_error_In _ _ Hj).
Qed.

Lemma blockCalls_unanswered (ts : option Z) (content : option (list Block)) (c : ToolCall) :
  In c (blockCalls ts content) -> tc_result c = None.
Proof.
  unfold blockCalls. destruct content as [blocks|]; [|intros []].
  intros H. apply in_map_iff in H. destruct H as (b & <- & _). reflexivity.
Qed.

Lemma foldEntries_shadowed (lines : list Entry) (s : Session) :
  Views.shadowedUnanswered (toolCalls s) ->
  Views.shadowedUnanswered (toolCalls (foldEntries s lines)).
Proof.
  revert s; induction lines as [|e lines IH]; intros s Hs; [exact Hs|].
  change (foldEntries s (e :: lines)) with (foldEntries (foldEntry s e) lines).
  apply IH. rewrite foldEntry_toolCalls.
  destruct (Spec.messageOf e) as [msg|]; [|exact Hs]. cbv zeta.
  assert (Hp : Views.shadowedUnanswered
                 (toolCalls s ++ blockCalls (e_timestamp e) (m_content msg))).
  { apply shadowed_after_calls; [exact Hs|]. apply blockCalls_unanswered. }
  destruct (String.eqb (m_role msg) "toolResult"); [|exact Hp].
  apply shadowed_after_results, Hp.
Qed.

End Shadowed.

(** X5.  When a file produces several tool calls with the same call id,
    only the first of them can ever carry a result: in the built session a
    call that comes after another call with the same id has no result. *)
Theorem only_first_call_of_an_id_is_answered
        (lines : list Log.Entry) (name filePath : string) :
  Views.shadowedUnanswered
    (LogParser.toolCalls (LogParser.processSession lines name filePath)).
Proof.
  unfold LogParser.processSession.
  destruct (finish_keeps (LogParser.foldEntries (LogParser.emptySession name filePath) lines))
    as (_ & _ & -> & _).
  apply foldEntries_shadowed. intros i j ci cj Hi. destruct i; discriminate.
Qed.

(** ** Reading the files of the log directory *)

Section Reading.
Import Log LogParser Ingest.

Variable isBlank : string -> bool.
Variable decode : string -> option Decoded.
Variable pathOf : string -> string.
Variable nameOf : string -> string.

Lemma readLines_app (l1 l2 : list string) :
  readLines isBlank decode (l1 ++ l2) =
  readLines isBlank decode l1 ++ readLines isBlank decode l2.
Proof. unfold readLines. apply flat_map_app. Qed.

Lemma readLines_noise (line : string) :
  isBlank line = true \/ decode line = None -> readLines isBlank decode [line] = [].
Proof.
  unfold readLines. cbn [flat_map]. intros [H|H]; rewrite H; [reflexivity|].
  destruct (isBlank line); reflexivity.
Qed.

Lemma readLines_nil (lines : list string) :
  readLines isBlank decode lines = [] <->
  Forall (fun line => isBlank line = true \/ decode line = None) lines.
Proof.
  induction lines as [|x lines IH].
  - split; [constructor|reflexivity].
  - change (x :: lines) with ([x] ++ lines). rewrite readLines_app. split.
    + intros H. apply app_eq_nil in H. destruct H as [Hx Hr].
      constructor; [|apply IH, Hr].
      unfold readLines in Hx. cbn [flat_map] in Hx.
      destruct (isBlank x); [left; reflexivity|].
      destruct (decode x); [discriminate|right; reflexivity].
    + intros H. inversion H as [|? ? Hx Hr]; subst.
      rewrite (readLines_noise x Hx). apply IH, Hr.
Qed.

Lemma values_none (ds : list Decoded) : values ds = None <-> In DNull ds.
Proof.
  induction ds as [|d ds IH]; [split; [discriminate|intros []]|].
  destruct d as [|e]; cbn [values].
  - split; [left; reflexivity|reflexivity].
  - destruct (values ds).
    + split; [discriminate|]. intros [H|H]; [discriminate|].
      apply IH in H. discriminate.
    + split; [|reflexivity]. intros _. right. apply IH. reflexivity.
Qed.

Lemma readLines_null (lines : list string) :
  In DNull (readLines isBlank decode lines) <->
  exists line, In line lines /\ isBlank line = false /\ decode line = Some DNull.
Proof.
  unfold readLines. rewrite in_flat_map. split.
  - intros (line & Hin & H). exists line. split; [exact Hin|].
    destruct (isBlank line); [destruct H|]. split; [reflexivity|].
    destruct (decode line) as [d|]; [|destruct H].
    destruct H as [->|[]]. reflexivity.
  - intros (line & Hin & Hb & Hd). exists line. split; [exact Hin|].
    rewrite Hb, Hd. left. reflexivity.
Qed.

Lemma processSession_file (es : list Entry) (name filePath : string) :
  file (processSession es name filePath) = filePath.
Proof.
  unfold processSession.
  destruct (finish_header (foldEntries (emptySession name filePath) es))
    as (_ & _ & _ & ->).
  assert (H : forall l s, file (foldEntries s l) = file s).
  { induction l as [|e l IH]; intros s; [reflexivity|].
    change (foldEntries s (e :: l)) with (foldEntries (foldEntry s e) l).
    rewrite IH. apply (foldEntry_header s e). }
  rewrite H. reflexivity.
Qed.

End Reading.

(** X6.  [parseFile] skips blank lines and lines that are not JSON: such a
    line, wherever it stands in the file, changes nothing of the result. *)
Theorem parseFile_ignores_noise
        (isBlank : string -> bool) (decode : string -> option Ingest.Decoded)
        (nameOf : string -> string)
        (l1 l2 : list string) (line filePath : string) :
  isBlank line = true \/ decode line = None ->
  Ingest.parseFile isBlank decode nameOf (l1 ++ line :: l2) filePath =
  Ingest.parseFile isBlank decode nameOf (l1 ++ l2) filePath.
Proof.
  intros H. unfold Ingest.parseFile.
  change (line :: l2) with ([line] ++ l2).
  rewrite !readLines_app, (readLines_noise isBlank decode line H). reflexivity.
Qed.

Lemma parseFile_ignores_noise_witness :
  (SampleFiles.isBlank "x" = true \/ SampleFiles.decode "x" = None) /\
  Ingest.parseFile SampleFiles.isBlank SampleFiles.decode SampleFiles.nameOf
                   (["u"] ++ "x" :: ["u"]) "p" =
  Ingest.parseFile SampleFiles.isBlank SampleFiles.decode SampleFiles.nameOf
                   (["u"] ++ ["u"]) "p".
Proof.
  split; [right; reflexivity|].
  apply (parseFile_ignores_noise SampleFiles.isBlank SampleFiles.decode SampleFiles.nameOf).
  right. reflexivity.
Defined.

(** X7.  [parseFile] returns null exactly when every line is blank or not
    JSON, and throws exactly when some non-blank line is the JSON value
    [null]; in every other case it builds a session. *)
Theorem parseFile_outcomes
        (isBlank : string -> bool) (decode : string -> option Ingest.Decoded)
        (nameOf : string -> string) (lines : list string) (filePath : string) :
  let out := Ingest.parseFile isBlank decode nameOf lines filePath in
  (out = Ingest.NoSession <->
   Forall (fun line => isBlank line = true \/ decode line = None) lines) /\
  (out = Ingest.Threw <->
   exists line, In line lines /\ isBlank line = false /\
                decode line = Some Ingest.DNull) /\
  (out <> Ingest.NoSession -> out <> Ingest.Threw ->
   exists s, out = Ingest.Built s /\ LogParser.file s = filePath).
Proof.
  intros out. subst out. unfold Ingest.parseFile.
  rewrite <- (readLines_nil isBlank decode lines).
  rewrite <- (readLines_null isBlank decode lines).
  destruct (Ingest.readLines isBlank decode lines) as [|d ds] eqn:E.
  - split; [split; reflexivity|]. split.
    + split; [discriminate|intros []].
    + intros H. contradiction H. reflexivity.
  - rewrite <- (values_none (d :: ds)).
    destruct (Ingest.values (d :: ds)) as [es|].
    + split; [split; discriminate|]. split; [split; discriminate|].
      intros _ _. eexists. split; [reflexivity|]. apply processSession_file.
    + split; [split; discriminate|]. split; [split; reflexivity|].
      intros _ H. contradiction H. reflexivity.
Qed.

Lemma parseFile_outcomes_witness :
  exists s,
    Ingest.parseFile SampleFiles.isBlank SampleFiles.decode SampleFiles.nameOf
                     [""; "x"; "u"] "p" = Ingest.Built s /\
    LogParser.file s = "p".
Proof.
  apply (parseFile_outcomes SampleFiles.isBlank SampleFiles.decode SampleFiles.nameOf
                            [""; "x"; "u"] "p"); discriminate.
Defined.

(** X8.  [parseAll] on a directory that does not exist returns no session;
    a file whose name is filtered out, or for which [parseFile] throws or
    returns null, contributes nothing and does not disturb the other files;
    and every session returned was built from a file of the directory whose
    name passes the filter. *)
Theorem parseAll_skips_bad_files
        (isBlank : string -> bool) (decode : string -> option Ingest.Decoded)
        (pathOf nameOf : string -> string) :
  Ingest.parseAll isBlank decode pathOf nameOf None = [] /\
  (forall d1 d2 f,
      (Ingest.accepted (Ingest.fileName f) = false \/
       forall s, Ingest.parseFile isBlank decode nameOf (Ingest.fileLines f)
                                  (pathOf (Ingest.fileName f)) <> Ingest.Built s) ->
      Ingest.parseAll isBlank decode pathOf nameOf (Some (d1 ++ f :: d2)) =
      Ingest.parseAll isBlank decode pathOf nameOf (Some (d1 ++ d2))) /\
  (forall d s,
      In s (Ingest.parseAll isBlank decode pathOf nameOf (Some d)) ->
      exists f, In f d /\ Ingest.accepted (Ingest.fileName f) = true /\
                LogParser.file s = pathOf (Ingest.fileName f)).
Proof.
  split; [reflexivity|]. split.
  - intros d1 d2 f H. unfold Ingest.parseAll.
    rewrite !filter_app, !flat_map_app. f_equal. cbn [filter].
    destruct (Ingest.accepted (Ingest.fileName f)) eqn:Ha; [|reflexivity].
    destruct H as [H|H]; [discriminate|]. cbn [flat_map].
    destruct (Ingest.parseFile isBlank decode nameOf (Ingest.fileLines f)
                               (pathOf (Ingest.fileName f))) as [| |s] eqn:E;
      try reflexivity.
    contradiction (H s). reflexivity.
  - intros d s Hin. unfold Ingest.parseAll in Hin.
    apply in_flat_map in Hin. destruct Hin as (f & Hf & Hs).
    apply filter_In in Hf. destruct Hf as [Hf Ha].
    exists f. split; [exact Hf|]. split; [exact Ha|].
    unfold Ingest.parseFile in Hs.
    destruct (Ingest.readLines isBlank decode (Ingest.fileLines f)) as [|x xs];
      [destruct Hs|].
    destruct (Ingest.values (x :: xs)) as [es|]; [|destruct Hs].
    destruct Hs as [<-|[]]. apply processSession_file.
Qed.

Lemma parseAll_skips_bad_files_witness :
  Ingest.accepted "a.jsonl.lock" = false /\
  Ingest.parseAll SampleFiles.isBlank SampleFiles.decode SampleFiles.pathOf SampleFiles.nameOf
    (Some ([Ingest.mkDirEntry "a.jsonl" ["u"]]
           ++ Ingest.mkDirEntry "a.jsonl.lock" ["u"] :: [])) =
  Ingest.parseAll SampleFiles.isBlank SampleFiles.decode SampleFiles.pathOf SampleFiles.nameOf
    (Some ([Ingest.mkDirEntry "a.jsonl" ["u"]] ++ [])).
Proof.
  split; [reflexivity|].
  apply (parseAll_skips_bad_files
           SampleFiles.isBlank SampleFiles.decode SampleFiles.pathOf SampleFiles.nameOf).
  left. reflexivity.
Defined.

(** ** The hour-of-day histogram *)

Section Hours.
Import LogParser Analytics.

Variable tz : Z.

Lemma getHours_range (d : Z) : 0 <= getHours tz d < 24.
Proof.
  unfold getHours.
  pose proof (Z.mod_pos_bound (d + tz) msPerDay msPerDay_pos) as H.
  assert (Hd : msPerDay = 24 * msPerHour) by reflexivity.
  assert (Hh : 0 < msPerHour) by reflexivity.
  revert H. generalize ((d + tz) mod msPerDay). intros m H.
  revert H Hd Hh. generalize msPerDay msPerHour. intros dy hr H Hd Hh.
  split.
  - apply Z.div_pos; lia.
  - apply Z.div_lt_upper_bound; lia.
Qed.

Lemma incrAt_length (i : nat) (l : list Z) :
  List.length (JS.incrAt i l) = List.length l.
Proof.
  revert i; induction l as [|x l IH]; intros i; [destruct i; reflexivity|].
  destruct i; cbn [JS.incrAt List.length]; [reflexivity|]. rewrite IH. reflexivity.
Qed.

Lemma incrAt_sum (i : nat) (l : list Z) :
  (i < List.length l)%nat ->
  Spec.sumOverZ (fun v => v) (JS.incrAt i l) = Spec.sumOverZ (fun v => v) l + 1.
Proof.
  revert i; induction l as [|x l IH]; intros i Hi; [simpl in Hi; lia|].
  destruct i; cbn [JS.incrAt Spec.sumOverZ fold_right].
  - lia.
  - simpl in Hi. fold (Spec.sumOverZ (fun v => v) (JS.incrAt i l)).
    fold (Spec.sumOverZ (fun v => v) l). rewrite IH by lia. lia.
Qed.

Lemma incrAt_nonneg (i : nat) (l : list Z) :
  Forall (fun v => 0 <= v) l -> Forall (fun v => 0 <= v) (JS.incrAt i l).
Proof.
  intros H. revert i. induction H as [|x l Hx Hl IH]; intros i;
    [destruct i; constructor|].
  destruct i; cbn [JS.incrAt]; constructor; auto. lia.
Qed.

(** The histogram after the loop over the sessions [ss], all of which have
    a start time. *)
Lemma tally_hours (ss : list Session) (o : JS.Obj) (h : list Z) :
  List.length h = 24%nat ->
  Forall (fun v => 0 <= v) h ->
  (forall s, In s ss -> startTime s <> None) ->
  let h' := snd (fold_left (tally tz) ss (o, h)) in
  List.length h' = 24%nat /\
  Forall (fun v => 0 <= v) h' /\
  Spec.sumOverZ (fun v => v) h' = Spec.sumOverZ (fun v => v) h + JS.len ss.
Proof.
  revert o h; induction ss as [|s ss IH]; intros o h Hlen Hnn Hst.
  - cbv zeta. cbn [fold_left snd]. split; [exact Hlen|]. split; [exact Hnn|].
    change (JS.len (@nil Session)) with 0. lia.
  - cbv zeta. cbn [fold_left].
    destruct (startTime s) as [st|] eqn:Es.
    2:{ contradiction (Hst s (or_introl eq_refl)). }
    assert (E : tally tz (o, h) s =
                (fold_left (fun o0 tc => JS.objIncr (nameKey tc) o0) (toolCalls s) o,
                 JS.incrAt (Z.to_nat (getHours tz st)) h)).
    { unfold tally. cbn [fst snd]. rewrite Es. reflexivity. }
    rewrite E. clear E.
    pose proof (getHours_range st) as Hr.
    destruct (IH (fold_left (fun o0 tc => JS.objIncr (nameKey tc) o0) (toolCalls s) o)
                 (JS.incrAt (Z.to_nat (getHours tz st)) h)) as (H1 & H2 & H3).
    + rewrite incrAt_length. exact Hlen.
    + apply incrAt_nonneg, Hnn.
    + intros s' Hs'. apply Hst. right. exact Hs'.
    + cbv zeta. split; [exact H1|]. split; [exact H2|].
      rewrite H3, incrAt_sum by lia.
      unfold JS.len. cbn [List.length]. lia.
Qed.

Lemma window_has_start (a : Analytics.t) (days : Z) (s : Session) :
  In s (filterByDays a days) -> startTime s <> None.
Proof.
  intros H. apply filterByDays_In in H. destruct H as [_ (st & -> & _)]. discriminate.
Qed.

Lemma summary_hours (a : Analytics.t) (days : Z) :
  exists w,
    getWeeklySummary tz a days = Some w /\
    List.length (hourlyActivity w) = 24%nat /\
    Forall (fun v => 0 <= v) (hourlyActivity w) /\
    JS.sumZ (fun v => v) (hourlyActivity w) = totalSessions w.
Proof.
  destruct (getWeeklySummary_fields tz a days)
    as (w & Hw & Hs & _ & _ & _ & _ & _ & _ & _ & Hh & _).
  exists w. split; [exact Hw|]. rewrite Hh, Hs, sumZ_sumOver.
  destruct (tally_hours (filterByDays a days) [] (repeat 0 24)) as (H1 & H2 & H3).
  - reflexivity.
  - repeat constructor; lia.
  - apply window_has_start.
  - split; [exact H1|]. split; [exact H2|].
    change (Spec.sumOverZ (fun v => v) (repeat 0 24)) with 0 in H3.
    rewrite Z.add_0_l in H3. exact H3.
Qed.

End Hours.

(** X9.  The hourly histogram of a summary always has 24 entries, none
    negative, and they add up to the number of sessions of the window: every
    session counted by the summary is counted in exactly one hour. *)
Theorem hourly_histogram_counts_each_session (tz : Z) (a : Analytics.t) (days : Z) :
  exists w,
    Analytics.getWeeklySummary tz a days = Some w /\
    List.length (Analytics.hourlyActivity w) = 24%nat /\
    Forall (fun v => 0 <= v) (Analytics.hourlyActivity w) /\
    JS.sumZ (fun v => v) (Analytics.hourlyActivity w) = Analytics.totalSessions w.
Proof.
  destruct (summary_hours tz a days) as (w & Hw & Hlen & Hnn & Hsum).
  exists w. repeat split; assumption.
Qed.

Section Peak.

Lemma maxOf_from (l : list Z) (m : Z) :
  (forall v, In v l -> v <= fold_left Z.max l m) /\
  m <= fold_left Z.max l m /\
  (fold_left Z.max l m = m \/ In (fold_left Z.max l m) l).
Proof.
  revert m; induction l as [|x l IH]; intros m.
  - cbn. repeat split; [intros v []|lia|left; reflexivity].
  - cbn [fold_left]. destruct (IH (Z.max m x)) as (H1 & H2 & H3).
    split; [|split].
    + intros v [<-|Hv]; [lia|apply H1, Hv].
    + lia.
    + destruct H3 as [H3|H3]; [|right; right; exact H3].
      destruct (Z.max_spec m x) as [[_ E]|[_ E]]; rewrite E in *.
      * right. left. symmetry. exact H3.
      * left. exact H3.
Qed.

Lemma maxOf_spec (l : list Z) :
  l <> [] -> In (JS.maxOf l) l /\ forall v, In v l -> v <= JS.maxOf l.
Proof.
  destruct l as [|x l]; [intros H; contradiction H; reflexivity|]. intros _.
  unfold JS.maxOf. cbn [hd fold_left]. rewrite Z.max_id.
  destruct (maxOf_from l x) as (H1 & H2 & H3). split.
  - destruct H3 as [->|H3]; [left; reflexivity|right; exact H3].
  - intros v [<-|Hv]; [exact H2|apply H1, Hv].
Qed.

Lemma indexOf_bounds (v : Z) (l : list Z) :
  -1 <= JS.indexOf v l < Z.of_nat (List.length l).
Proof.
  induction l as [|x l IH]; [cbn; lia|].
  cbn [JS.indexOf List.length]. rewrite Nat2Z.inj_succ.
  destruct (x =? v); [lia|]. destruct (JS.indexOf v l <? 0) eqn:E; [lia|].
  apply Z.ltb_ge in E. lia.
Qed.

Lemma indexOf_first (v : Z) (l : list Z) :
  In v l ->
  let k := JS.indexOf v l in
  0 <= k /\
  nth_error l (Z.to_nat k) = Some v /\
  forall i x, (i < Z.to_nat k)%nat -> nth_error l i = Some x -> x <> v.
Proof.
  induction l as [|x l IH]; intros Hin; [destruct Hin|].
  cbn [JS.indexOf]. destruct (Z.eqb_spec x v) as [->|Hne].
  - cbv zeta. repeat split; [lia|]. intros i y Hi. simpl in Hi. lia.
  - destruct Hin as [E|Hin]; [contradiction|].
    destruct (IH Hin) as (H0 & Hn & Hf). cbv zeta in *.
    destruct (Z.ltb_spec (JS.indexOf v l) 0) as [Hneg|_]; [lia|].
    split; [lia|]. rewrite Z2Nat.inj_add by lia.
    change (Z.to_nat 1) with 1%nat. rewrite Nat.add_1_r. cbn [nth_error].
    split; [exact Hn|].
    intros i y Hi Hy. destruct i as [|i].
    + injection Hy as <-. exact Hne.
    + apply (Hf i y); [lia|exact Hy].
Qed.

Lemma nonneg_sum_zero (l : list Z) :
  Forall (fun v => 0 <= v) l -> Spec.sumOverZ (fun v => v) l = 0 ->
  forall v, In v l -> v = 0.
Proof.
  induction 1 as [|x l Hx Hl IH]; intros Hs v Hv; [destruct Hv|].
  cbn [Spec.sumOverZ fold_right] in Hs.
  fold (Spec.sumOverZ (fun v => v) l) in Hs.
  assert (0 <= Spec.sumOverZ (fun v => v) l).
  { clear -Hl. induction Hl as [|y l Hy _ IHl]; cbn; [lia|].
    fold (Spec.sumOverZ (fun v => v) l). lia. }
  destruct Hv as [<-|Hv]; [lia|]. apply IH; [lia|exact Hv].
Qed.

End Peak.

(** X10.  [peakHour] is an hour between 0 and 23; no hour holds more
    sessions than it, and every earlier hour holds fewer; when the window
    has no session it is 0. *)
Theorem peak_hour_is_first_busiest (tz : Z) (a : Analytics.t) (days : Z) :
  exists w peak,
    Analytics.getWeeklySummary tz a days = Some w /\
    0 <= Analytics.peakHour w <= 23 /\
    nth_error (Analytics.hourlyActivity w) (Z.to_nat (Analytics.peakHour w)) = Some peak /\
    (forall v, In v (Analytics.hourlyActivity w) -> v <= peak) /\
    (forall i v, (i < Z.to_nat (Analytics.peakHour w))%nat ->
                 nth_error (Analytics.hourlyActivity w) i = Some v -> v < peak) /\
    (Analytics.totalSessions w = 0 -> Analytics.peakHour w = 0).
Proof.
  destruct (summary_hours tz a days) as (w & Hw & Hlen & Hnn & Hsum).
  assert (Hpeak : Analytics.peakHour w =
                  JS.indexOf (JS.maxOf (Analytics.hourlyActivity w))
                             (Analytics.hourlyActivity w)).
  { unfold Analytics.getWeeklySummary in Hw. rewrite !average_eq in Hw.
    cbn [JS.bind JS.ret] in Hw. injection Hw as <-. reflexivity. }
  assert (Hne : Analytics.hourlyActivity w <> []).
  { intros E. rewrite E in Hlen. discriminate. }
  destruct (maxOf_spec _ Hne) as [Hin Hmax].
  destruct (indexOf_first _ _ Hin) as (H0 & Hn & Hf). cbv zeta in *.
  pose proof (indexOf_bounds (JS.maxOf (Analytics.hourlyActivity w))
                             (Analytics.hourlyActivity w)) as Hb.
  rewrite Hlen in Hb.
  exists w, (JS.maxOf (Analytics.hourlyActivity w)). rewrite Hpeak.
  split; [exact Hw|]. split; [lia|]. split; [exact Hn|]. split; [exact Hmax|]. split.
  - intros i v Hi Hv. specialize (Hf i v Hi Hv).
    specialize (Hmax v (nth_error_In _ _ Hv)). lia.
  - intros Hz. rewrite Hz, sumZ_sumOver in Hsum.
    pose proof (nonneg_sum_zero _ Hnn Hsum) as Hall.
    destruct (Analytics.hourlyActivity w) as [|x l]; [contradiction Hne; reflexivity|].
    cbn [JS.indexOf].
    rewrite (Hall _ Hin), (Hall x (or_introl eq_refl)). reflexivity.
Qed.

(** ** The table of tool calls *)

Section ToolTable.
Import LogParser Analytics.

Lemma sumOverZ_cons (A : Type) (f : A -> Z) (x : A) (l : list A) :
  Spec.sumOverZ f (x :: l) = f x + Spec.sumOverZ f l.
Proof. reflexivity. Qed.

Lemma objIncr_lookup (k k' : string) (o : JS.Obj) :
  Tables.lookup k' (JS.objIncr k o) =
  Tables.lookup k' o + (if String.eqb k' k then 1 else 0).
Proof.
  induction o as [|[k0 v] o IH].
  - cbn. destruct (String.eqb k' k); reflexivity.
  - cbn [JS.objIncr]. destruct (String.eqb_spec k k0) as [->|Hne].
    + cbn [Tables.lookup]. destruct (String.eqb k' k0); lia.
    + cbn [Tables.lookup]. rewrite IH.
      destruct (String.eqb_spec k' k0) as [->|Hne']; [|reflexivity].
      destruct (String.eqb_spec k0 k) as [E|_]; [congruence|lia].
Qed.

Lemma objIncr_keys (k : string) (o : JS.Obj) :
  map fst (JS.objIncr k o) =
  map fst o ++ (if existsb (String.eqb k) (map fst o) then [] else [k]).
Proof.
  induction o as [|[k0 v] o IH]; [reflexivity|].
  cbn [JS.objIncr map fst existsb].
  destruct (String.eqb k k0); cbn [orb map fst app].
  - rewrite app_nil_r. reflexivity.
  - rewrite IH. reflexivity.
Qed.

Lemma objIncr_NoDup (k : string) (o : JS.Obj) :
  NoDup (map fst o) -> NoDup (map fst (JS.objIncr k o)).
Proof.
  intros H. rewrite objIncr_keys.
  destruct (existsb (String.eqb k) (map fst o)) eqn:E; [rewrite app_nil_r; exact H|].
  apply NoDup_app; [exact H|repeat constructor; intros []|].
  intros x Hx [Ex|[]]. subst x.
  assert (existsb (String.eqb k) (map fst o) = true); [|congruence].
  apply existsb_exists. exists k. split; [exact Hx|apply String.eqb_refl].
Qed.

Lemma objIncr_positive (k : string) (o : JS.Obj) :
  Forall (fun kv => 1 <= snd kv) o -> Forall (fun kv => 1 <= snd kv) (JS.objIncr k o).
Proof.
  induction 1 as [|[k0 v] o Hv Ho IH]; cbn [JS.objIncr].
  - repeat constructor. cbn. lia.
  - cbn [snd] in Hv. destruct (String.eqb k k0); constructor; auto; cbn [snd]; lia.
Qed.



(** The counts after the inner loop over the calls of one session. *)
Lemma count_calls (calls : list ToolCall) (o : JS.Obj) :
  let o' := fold_left (fun acc tc => JS.objIncr (nameKey tc) acc) calls o in
  (NoDup (map fst o) -> NoDup (map fst o')) /\
  (Forall (fun kv => 1 <= snd kv) o -> Forall (fun kv => 1 <= snd kv) o') /\
  forall k, Tables.lookup k o' =
            Tables.lookup k o + JS.count (fun tc => String.eqb (nameKey tc) k) calls.
Proof.
  revert o; induction calls as [|tc calls IH]; intros o.
  - cbv zeta. cbn. split; [auto|]. split; [auto|].
    intros k. unfold JS.count, JS.len. simpl. lia.
  - cbv zeta. cbn [fold_left].
    destruct (IH (JS.objIncr (nameKey tc) o)) as (Hnd & Hp & Hl). cbv zeta in *.
    split; [|split].
    + intros H. apply Hnd, objIncr_NoDup, H.
    + intros H. apply Hp, objIncr_positive, H.
    + intros k. rewrite Hl, objIncr_lookup. unfold JS.count, JS.len.
      cbn [filter]. rewrite (String.eqb_sym k).
      destruct (String.eqb (nameKey tc) k); cbn [List.length]; lia.
Qed.

Lemma tally_fst (tz : Z) (ss : list Session) (o : JS.Obj) (h : list Z) :
  fst (fold_left (tally tz) ss (o, h)) =
  fold_left (fun acc s => fold_left (fun acc' tc => JS.objIncr (nameKey tc) acc')
                                    (toolCalls s) acc) ss o.
Proof.
  revert o h; induction ss as [|s ss IH]; intros o h; [reflexivity|].
  cbn [fold_left]. unfold tally at 2. cbn [fst snd]. apply IH.
Qed.

Lemma count_all_calls (ss : list Session) (o : JS.Obj) :
  let o' := fold_left (fun acc s => fold_left (fun acc' tc => JS.objIncr (nameKey tc) acc')
                                              (toolCalls s) acc) ss o in
  (NoDup (map fst o) -> NoDup (map fst o')) /\
  (Forall (fun kv => 1 <= snd kv) o -> Forall (fun kv => 1 <= snd kv) o') /\
  forall k, Tables.lookup k o' = Tables.lookup k o + Tables.callsNamed k ss.
Proof.
  revert o; induction ss as [|s ss IH]; intros o.
  - cbv zeta. cbn. split; [auto|]. split; [auto|]. intros k. lia.
  - cbv zeta. cbn [fold_left].
    destruct (count_calls (toolCalls s) o) as (Hnd1 & Hp1 & Hl1).
    destruct (IH (fold_left (fun acc' tc => JS.objIncr (nameKey tc) acc') (toolCalls s) o))
      as (Hnd2 & Hp2 & Hl2).
    cbv zeta in *. split; [auto|]. split; [auto|].
    intros k. rewrite Hl2, Hl1. unfold Tables.callsNamed.
    rewrite !sumZ_sumOver, sumOverZ_cons. lia.
Qed.

Lemma insertIndexKey_In (x y : N * (string * Z)) (l : list (N * (string * Z))) :
  In y (JS.insertIndexKey x l) <-> y = x \/ In y l.
Proof.
  induction l as [|a l IH]; cbn [JS.insertIndexKey].
  - split; [intros [<-|[]]; left; reflexivity|intros [->|[]]; left; reflexivity].
  - destruct (fst x <? fst a)%N; cbn [In].
    + split; [intros [<-|H]; auto|intros [->|H]; auto].
    + rewrite IH. split; [intros [<-|[->|H]]; auto|intros [->|[<-|H]]; auto].
Qed.

Lemma entries_In (kv : string * Z) (o : JS.Obj) : In kv (JS.entries o) <-> In kv o.
Proof.
  unfold JS.entries. rewrite in_app_iff, filter_In, in_map_iff.
  assert (Hidx : forall n x,
    In (n, x) (fold_right (fun kv acc =>
                             match JS.arrayIndex (fst kv) with
                             | Some n => JS.insertIndexKey (n, kv) acc
                             | None => acc
                             end) [] o) <->
    In x o /\ JS.arrayIndex (fst x) = Some n).
  { induction o as [|a o IH]; intros n x; cbn [fold_right In].
    - split; [intros []|intros [[] _]].
    - destruct (JS.arrayIndex (fst a)) as [m|] eqn:E.
      + rewrite insertIndexKey_In, IH. split.
        * intros [H|[H1 H2]]; [injection H as -> ->; auto|auto].
        * intros [[->|H1] H2]; [left; congruence|right; auto].
      + rewrite IH. split; [intros [H1 H2]; auto|].
        intros [[->|H1] H2]; [congruence|auto]. }
  split.
  - intros [((n, x) & E & H)|[H _]]; [|exact H].
    cbn [snd] in E. subst x. apply Hidx in H. apply H.
  - intros H. destruct (JS.arrayIndex (fst kv)) as [n|] eqn:E.
    + left. exists (n, kv). split; [reflexivity|]. apply Hidx. auto.
    + right. auto.
Qed.

Lemma insertDesc_In (x y : string * Z) (l : list (string * Z)) :
  In y (JS.insertDesc x l) <-> y = x \/ In y l.
Proof.
  induction l as [|a l IH]; cbn [JS.insertDesc].
  - split; [intros [<-|[]]; left; reflexivity|intros [->|[]]; left; reflexivity].
  - destruct (snd a <=? snd x); cbn [In].
    + split; [intros [<-|H]; auto|intros [->|H]; auto].
    + rewrite IH. split; [intros [<-|[->|H]]; auto|intros [->|[<-|H]]; auto].
Qed.

Lemma sortDesc_In (y : string * Z) (l : list (string * Z)) :
  In y (JS.sortDesc l) <-> In y l.
Proof.
  unfold JS.sortDesc. induction l as [|a l IH]; cbn [fold_right In]; [tauto|].
  rewrite insertDesc_In, IH. split; [intros [->|H]; auto|intros [<-|H]; auto].
Qed.




End ToolTable.


(** ** Bounds between the aggregates *)

Section AggregateBounds.
Import LogParser Analytics.

Lemma sumOverZ_le (A : Type) (f g : A -> Z) (l : list A) :
  (forall x, In x l -> f x <= g x) -> Spec.sumOverZ f l <= Spec.sumOverZ g l.
Proof.
  induction l as [|x l IH]; intros H; [cbn; lia|].
  rewrite !sumOverZ_cons.
  pose proof (H x (or_introl eq_refl)).
  assert (Spec.sumOverZ f l <= Spec.sumOverZ g l) by (apply IH; intros y Hy; apply H; right; exact Hy).
  lia.
Qed.

Lemma sumOverZ_nonneg (A : Type) (f : A -> Z) (l : list A) :
  (forall x, In x l -> 0 <= f x) -> 0 <= Spec.sumOverZ f l.
Proof.
  induction l as [|x l IH]; intros H; [cbn; lia|].
  rewrite sumOverZ_cons. pose proof (H x (or_introl eq_refl)).
  assert (0 <= Spec.sumOverZ f l) by (apply IH; intros y Hy; apply H; right; exact Hy).
  lia.
Qed.

Lemma count_range (A : Type) (p : A -> bool) (l : list A) :
  0 <= JS.count p l <= JS.len l.
Proof.
  unfold JS.count, JS.len. pose proof (filter_length_le p l). lia.
Qed.

Lemma count_disjoint (A : Type) (p q : A -> bool) (l : list A) :
  (forall x, p x && q x = false) -> JS.count p l + JS.count q l <= JS.len l.
Proof.
  intros H. unfold JS.count, JS.len. induction l as [|x l IH]; [cbn; lia|].
  cbn [filter]. specialize (H x).
  destruct (p x), (q x); try discriminate; cbn [List.length]; lia.
Qed.

Lemma roles_disjoint (m : Message) : hasRole "user" m && hasRole "assistant" m = false.
Proof.
  unfold hasRole. destruct (String.eqb_spec (msg_role m) "user") as [->|_]; reflexivity.
Qed.

Lemma row_is_dayStat (tz : Z) (a : Analytics.t) (days : Z) (row : DailyStat) :
  In row (getDailyStats tz a days) -> exists i, 0 <= i < days /\ row = dayStat tz a i.
Proof.
  rewrite getDailyStats_eq. intros H. apply in_rev in H.
  apply in_map_iff in H. destruct H as (k & <- & Hk). apply in_seq in Hk.
  exists (Z.of_nat k). split; [lia|reflexivity].
Qed.

End AggregateBounds.

(** X12.  In every summary the number of tool errors lies between 0 and the
    number of tool calls, so the error rate computed by the detector is at
    most 1; the other counts are not negative either. *)
Theorem tool_errors_within_tool_calls (tz : Z) (a : Analytics.t) (days : Z) :
  exists w,
    Analytics.getWeeklySummary tz a days = Some w /\
    0 <= Analytics.toolErrors w <= Analytics.totalToolCalls w /\
    0 <= Analytics.totalSessions w /\
    0 <= Analytics.totalMessages w.
Proof.
  destruct (getWeeklySummary_fields tz a days)
    as (w & Hw & Hs & Hm & Hc & _ & _ & _ & _ & _ & _ & He).
  exists w. split; [exact Hw|]. rewrite He, Hc, Hs, Hm, !sumZ_sumOver.
  split; [split|split].
  - apply sumOverZ_nonneg. intros s _. apply count_range.
  - apply sumOverZ_le. intros s _. apply count_range.
  - unfold JS.len. lia.
  - apply sumOverZ_nonneg. intros s _. unfold JS.len. lia.
Qed.

(** X13.  In every row of [getDailyStats] the user messages and the
    assistant messages together are at most the messages of the day, and
    the counts of sessions, messages and tool calls are not negative. *)
Theorem daily_row_counts_are_consistent
        (tz : Z) (a : Analytics.t) (days : Z) (row : Analytics.DailyStat) :
  In row (Analytics.getDailyStats tz a days) ->
  0 <= Analytics.userMessages row /\
  0 <= Analytics.assistantMessages row /\
  Analytics.userMessages row + Analytics.assistantMessages row <= Analytics.d_messages row /\
  0 <= Analytics.d_sessions row /\
  0 <= Analytics.d_toolCalls row.
Proof.
  intros H. apply row_is_dayStat in H. destruct H as (i & _ & ->).
  unfold Analytics.dayStat.
  cbn [Analytics.userMessages Analytics.assistantMessages Analytics.d_messages
       Analytics.d_sessions Analytics.d_toolCalls].
  rewrite !sumZ_sumOver.
  set (ds := Analytics.daySessions tz a i).
  split; [apply sumOverZ_nonneg; intros s _; apply count_range|].
  split; [apply sumOverZ_nonneg; intros s _; apply count_range|].
  split; [|split; [unfold JS.len; lia|apply sumOverZ_nonneg; intros s _; unfold JS.len; lia]].
  assert (E : Spec.sumOverZ (fun s => JS.count (Analytics.hasRole "user") (LogParser.messages s)) ds +
              Spec.sumOverZ (fun s => JS.count (Analytics.hasRole "assistant") (LogParser.messages s)) ds =
              Spec.sumOverZ (fun s => JS.count (Analytics.hasRole "user") (LogParser.messages s) +
                                      JS.count (Analytics.hasRole "assistant") (LogParser.messages s)) ds).
  { induction ds as [|s l IH]; [reflexivity|]. rewrite !sumOverZ_cons. lia. }
  rewrite E. apply sumOverZ_le. intros s _. apply count_disjoint, roles_disjoint.
Qed.

Lemma daily_row_counts_are_consistent_witness :
  In (Analytics.dayStat 0 Sample.twoDays 0) (Analytics.getDailyStats 0 Sample.twoDays 7) /\
  0 <= Analytics.userMessages (Analytics.dayStat 0 Sample.twoDays 0).
Proof.
  assert (H : In (Analytics.dayStat 0 Sample.twoDays 0)
                 (Analytics.getDailyStats 0 Sample.twoDays 7)).
  { rewrite getDailyStats_eq. apply in_rev with (l := rev _). rewrite rev_involutive.
    apply in_map_iff. exists 0%nat. split; [reflexivity|]. apply in_seq. simpl. lia. }
  split; [exact H|].
  apply (daily_row_counts_are_consistent 0 Sample.twoDays 7 _ H).
Defined.

(** X14.  Windows nest: a window of more days holds every session of a
    window of fewer days, and the rows for [days + 1] days are the rows for
    [days] days with the row of one older day put in front. *)
Theorem longer_windows_extend_shorter_ones
        (tz : Z) (a : Analytics.t) (days more : Z) :
  0 <= days -> days <= more ->
  (forall s, In s (Analytics.filterByDays a days) -> In s (Analytics.filterByDays a more)) /\
  Analytics.getDailyStats tz a (days + 1) =
    Analytics.dayStat tz a days :: Analytics.getDailyStats tz a days.
Proof.
  intros H0 Hle. split.
  - intros s Hs. apply filterByDays_In in Hs. destruct Hs as [Hin (st & Est & Hst)].
    apply filterByDays_In. split; [exact Hin|]. exists st. split; [exact Est|].
    pose proof msPerDay_pos. nia.
  - pose proof (getDailyStats_succ tz a (Z.to_nat days)) as H.
    rewrite Nat2Z.inj_succ, Z2Nat.id in H by exact H0. exact H.
Qed.

Lemma longer_windows_extend_shorter_ones_witness :
  0 <= 6 /\ 6 <= 7 /\
  Analytics.getDailyStats 0 Sample.twoDays (6 + 1) =
    Analytics.dayStat 0 Sample.twoDays 6 :: Analytics.getDailyStats 0 Sample.twoDays 6.
Proof.
  split; [lia|]. split; [lia|].
  apply (longer_windows_extend_shorter_ones 0 Sample.twoDays 6 7); lia.
Defined.

Section RowsBelowTotals.
Import LogParser Analytics.

Lemma sumOverZ_filter_le (A : Type) (f : A -> Z) (p q : A -> bool) (l : list A) :
  (forall x, In x l -> 0 <= f x) ->
  (forall x, In x l -> p x = true -> q x = true) ->
  Spec.sumOverZ f (filter p l) <= Spec.sumOverZ f (filter q l).
Proof.
  induction l as [|x l IH]; intros Hf Hpq; [cbn; lia|].
  cbn [filter].
  assert (IH' : Spec.sumOverZ f (filter p l) <= Spec.sumOverZ f (filter q l)).
  { apply IH; intros y Hy; [apply Hf|apply Hpq]; right; exact Hy. }
  pose proof (Hf x (or_introl eq_refl)) as Hx.
  pose proof (Hpq x (or_introl eq_refl)) as Hx'.
  destruct (p x), (q x); rewrite ?sumOverZ_cons; try lia.
Qed.

Lemma span_within_window (tz : Z) (a : Analytics.t) (days : Z) (s : Session) :
  Spec.inCalendarSpan tz a (Z.of_nat (Z.to_nat days)) s = true ->
  match startTime s with
  | Some st => addDays (now a) (- days) <=? st
  | None => false
  end = true.
Proof.
  intros H. destruct (Z.le_gt_cases 0 days) as [Hd|Hd].
  - rewrite Z2Nat.id in H by exact Hd. apply span_in_window in H.
    destruct H as (st & -> & Hst). apply Z.leb_le. unfold addDays. lia.
  - replace (Z.to_nat days) with 0%nat in H by lia.
    rewrite span_empty in H by reflexivity. discriminate.
Qed.

End RowsBelowTotals.

(** X15.  The daily rows never count more than the summary of the same
    length: the sums of the sessions, messages and tool calls over
    [getDailyStats(N)] are at most the totals of [getWeeklySummary(N)]. *)
Theorem daily_rows_sum_below_summary_totals (tz : Z) (a : Analytics.t) (N : Z) :
  let rows := Analytics.getDailyStats tz a N in
  exists w,
    Analytics.getWeeklySummary tz a N = Some w /\
    Spec.sumOverZ Analytics.d_sessions rows <= Analytics.totalSessions w /\
    Spec.sumOverZ Analytics.d_messages rows <= Analytics.totalMessages w /\
    Spec.sumOverZ Analytics.d_toolCalls rows <= Analytics.totalToolCalls w.
Proof.
  intros rows.
  destruct (getWeeklySummary_fields tz a N) as (w & Hw & Hs & Hm & Hc & _).
  exists w. split; [exact Hw|].
  assert (Hrows : rows = Analytics.getDailyStats tz a (Z.of_nat (Z.to_nat N))).
  { subst rows. rewrite !getDailyStats_eq, Nat2Z.id. reflexivity. }
  rewrite Hs, Hm, Hc, Hrows, len_sumOver, !sumZ_sumOver.
  unfold Analytics.filterByDays.
  split; [|split].
  - rewrite (rows_sumZ tz a Analytics.d_sessions (fun _ => 1)).
    + apply sumOverZ_filter_le; [intros; lia|]. intros s _. apply span_within_window.
    + intros i. cbn. rewrite sumZ_sumOver. apply len_sumOver.
  - rewrite (rows_sumZ tz a Analytics.d_messages
                       (fun s => JS.len (LogParser.messages s))) by reflexivity.
    apply sumOverZ_filter_le; [intros; unfold JS.len; lia|].
    intros s _. apply span_within_window.
  - rewrite (rows_sumZ tz a Analytics.d_toolCalls
                       (fun s => JS.len (LogParser.toolCalls s))) by reflexivity.
    apply sumOverZ_filter_le; [intros; unfold JS.len; lia|].
    intros s _. apply span_within_window.
Qed.

(** ** Models and per-tool statistics *)

Section ModelsAndStats.
Import LogParser Analytics.

Lemma unique_from (l acc : list string) :
  let r := fold_left (fun acc x => if existsb (String.eqb x) acc then acc else acc ++ [x])
                     l acc in
  (NoDup acc -> NoDup r) /\ forall x, In x r <-> In x acc \/ In x l.
Proof.
  revert acc; induction l as [|y l IH]; intros acc.
  - cbv zeta. cbn. split; [auto|]. intros x. tauto.
  - cbv zeta. cbn [fold_left].
    destruct (IH (if existsb (String.eqb y) acc then acc else acc ++ [y])) as [Hnd Hin].
    cbv zeta in *. destruct (existsb (String.eqb y) acc) eqn:E.
    + split; [exact Hnd|]. intros x. rewrite Hin. cbn [In].
      apply existsb_exists in E. destruct E as (z & Hz & Ez).
      apply String.eqb_eq in Ez. subst z.
      split; [tauto|]. intros [H|[<-|H]]; auto.
    + split.
      * intros H. apply Hnd. apply NoDup_app; [exact H|repeat constructor; intros []|].
        intros z Hz [Ez|[]]. subst z.
        assert (existsb (String.eqb y) acc = true); [|congruence].
        apply existsb_exists. exists y. split; [exact Hz|apply String.eqb_refl].
      * intros x. rewrite Hin, in_app_iff. cbn [In]. tauto.
Qed.

Lemma modelNames_In (ss : list Session) (m : string) :
  In m (Tables.modelNames ss) <->
  m <> EmptyString /\ exists s, In s ss /\ model s = Some m.
Proof.
  unfold Tables.modelNames. rewrite in_flat_map. split.
  - intros (s & Hs & Hm). unfold truthyModel in Hm.
    destruct (model s) as [n|] eqn:E; [|destruct Hm].
    destruct (String.eqb_spec n EmptyString) as [->|Hne]; [destruct Hm|].
    destruct Hm as [<-|[]]. split; [exact Hne|]. exists s. auto.
  - intros (Hne & s & Hs & Hm). exists s. split; [exact Hs|].
    unfold truthyModel. rewrite Hm.
    destruct (String.eqb_spec m EmptyString) as [E|_]; [contradiction|].
    left. reflexivity.
Qed.

Lemma statIncr_counts (k : string) (err : bool) (st : ToolStats) :
  map Tables.countOf (statIncr k err st) = JS.objIncr k (map Tables.countOf st).
Proof.
  induction st as [|[k0 [c e]] st IH]; [reflexivity|].
  cbn [statIncr map Tables.countOf JS.objIncr fst snd].
  destruct (String.eqb k k0); cbn [map Tables.countOf fst snd]; [reflexivity|].
  rewrite IH. reflexivity.
Qed.

Lemma statIncr_bounds (k : string) (err : bool) (st : ToolStats) :
  Forall (fun kv => 0 <= snd (snd kv) <= fst (snd kv)) st ->
  Forall (fun kv => 0 <= snd (snd kv) <= fst (snd kv)) (statIncr k err st).
Proof.
  induction 1 as [|[k0 [c e]] st Hx Hst IH]; cbn [statIncr].
  - repeat constructor; cbn; destruct err; lia.
  - cbn [fst snd] in Hx.
    destruct (String.eqb k k0); constructor; auto; cbn [fst snd]; destruct err; lia.
Qed.

Lemma statIncr_sums (k : string) (err : bool) (st : ToolStats) :
  Spec.sumOverZ (fun kv => fst (snd kv)) (statIncr k err st) =
    Spec.sumOverZ (fun kv => fst (snd kv)) st + 1 /\
  Spec.sumOverZ (fun kv => snd (snd kv)) (statIncr k err st) =
    Spec.sumOverZ (fun kv => snd (snd kv)) st + (if err then 1 else 0).
Proof.
  induction st as [|[k0 [c e]] st [IH1 IH2]]; cbn [statIncr].
  - cbn. destruct err; split; reflexivity.
  - destruct (String.eqb k k0); rewrite !sumOverZ_cons; cbn [fst snd].
    + destruct err; split; lia.
    + rewrite IH1, IH2. split; lia.
Qed.

(** The statistics after the loop over the calls of one session. *)
Lemma stats_of_calls (calls : list ToolCall) (st : ToolStats) :
  let st' := fold_left (fun acc tc => statIncr (nameKey tc) (resultIsError tc) acc) calls st in
  map Tables.countOf st' =
    fold_left (fun acc tc => JS.objIncr (nameKey tc) acc) calls (map Tables.countOf st) /\
  (Forall (fun kv => 0 <= snd (snd kv) <= fst (snd kv)) st ->
   Forall (fun kv => 0 <= snd (snd kv) <= fst (snd kv)) st') /\
  Spec.sumOverZ (fun kv => fst (snd kv)) st' =
    Spec.sumOverZ (fun kv => fst (snd kv)) st + JS.len calls /\
  Spec.sumOverZ (fun kv => snd (snd kv)) st' =
    Spec.sumOverZ (fun kv => snd (snd kv)) st + JS.count resultIsError calls.
Proof.
  revert st; induction calls as [|tc calls IH]; intros st.
  - cbv zeta. cbn [fold_left]. split; [reflexivity|]. split; [auto|].
    split; symmetry; apply Z.add_0_r.
  - cbv zeta. cbn [fold_left].
    destruct (IH (statIncr (nameKey tc) (resultIsError tc) st)) as (H1 & H2 & H3 & H4).
    cbv zeta in *.
    destruct (statIncr_sums (nameKey tc) (resultIsError tc) st) as [S1 S2].
    rewrite H1, H3, H4, S1, S2, statIncr_counts.
    split; [reflexivity|]. split; [intros H; apply H2, statIncr_bounds, H|].
    unfold JS.count, JS.len. cbn [filter List.length].
    destruct (resultIsError tc); cbn [List.length]; split; lia.
Qed.

Lemma stats_of_sessions (ss : list Session) (st : ToolStats) :
  let step := fun stats s =>
                fold_left (fun acc tc => statIncr (nameKey tc) (resultIsError tc) acc)
                          (toolCalls s) stats in
  let st' := fold_left step ss st in
  map Tables.countOf st' =
    fold_left (fun acc s => fold_left (fun acc' tc => JS.objIncr (nameKey tc) acc')
                                      (toolCalls s) acc) ss (map Tables.countOf st) /\
  (Forall (fun kv => 0 <= snd (snd kv) <= fst (snd kv)) st ->
   Forall (fun kv => 0 <= snd (snd kv) <= fst (snd kv)) st') /\
  Spec.sumOverZ (fun kv => fst (snd kv)) st' =
    Spec.sumOverZ (fun kv => fst (snd kv)) st +
    Spec.sumOverZ (fun s => JS.len (toolCalls s)) ss /\
  Spec.sumOverZ (fun kv => snd (snd kv)) st' =
    Spec.sumOverZ (fun kv => snd (snd kv)) st +
    Spec.sumOverZ (fun s => JS.count resultIsError (toolCalls s)) ss.
Proof.
  revert st; induction ss as [|s ss IH]; intros st.
  - cbv zeta. cbn [fold_left]. split; [reflexivity|]. split; [auto|].
    split; symmetry; apply Z.add_0_r.
  - cbv zeta. cbn [fold_left].
    destruct (stats_of_calls (toolCalls s) st) as (C1 & C2 & C3 & C4).
    destruct (IH (fold_left (fun acc tc => statIncr (nameKey tc) (resultIsError tc) acc)
                            (toolCalls s) st)) as (H1 & H2 & H3 & H4).
    cbv zeta in *. rewrite H1, H3, H4, C1, C3, C4, !sumOverZ_cons.
    split; [reflexivity|]. split; [auto|]. split; lia.
Qed.

End ModelsAndStats.

(** X16.  The [models] of a summary are exactly the non-empty model names
    of the sessions of the window, each listed once. *)
Theorem summary_models_are_distinct_names (tz : Z) (a : Analytics.t) (days : Z) :
  exists w,
    Analytics.getWeeklySummary tz a days = Some w /\
    NoDup (Analytics.models w) /\
    forall m, In m (Analytics.models w) <->
              m <> EmptyString /\
              exists s, In s (Analytics.filterByDays a days) /\ LogParser.model s = Some m.
Proof.
  destruct (getWeeklySummary_fields tz a days) as (w & Hw & _).
  exists w. split; [exact Hw|].
  assert (Hm : Analytics.models w =
               JS.unique (Tables.modelNames (Analytics.filterByDays a days))).
  { unfold Analytics.getWeeklySummary in Hw. rewrite !average_eq in Hw.
    cbn [JS.bind JS.ret] in Hw. injection Hw as <-. reflexivity. }
  rewrite Hm. unfold JS.unique.
  destruct (unique_from (Tables.modelNames (Analytics.filterByDays a days)) [])
    as [Hnd Hin]. cbv zeta in *.
  split; [apply Hnd; constructor|].
  intros m. rewrite Hin, <- modelNames_In. cbn [In]. tauto.
Qed.


(** ** The threshold rules on integers *)

Section Thresholds.
Import Analytics AnomalyDetector.

(** A ratio of integers against a fraction, without division. *)
Lemma gtb_ratio (n d p : Z) (q : positive) :
  0 < d ->
  JS.gtb (inject_Z n / inject_Z d) (p # q) = (p * d <? n * Zpos q).
Proof.
  intros Hd. destruct d as [|dp|dp]; try lia.
  unfold JS.gtb, Qle_bool, Qdiv, Qmult, Qinv, inject_Z.
  cbn [Qnum Qden]. rewrite Z.mul_1_r, Pos.mul_1_l.
  destruct (Z.leb_spec (n * Zpos q) (p * Zpos dp)), (Z.ltb_spec (p * Zpos dp) (n * Zpos q));
    try reflexivity; lia.
Qed.

Lemma gtb_scaled (n m : Z) :
  JS.gtb (inject_Z n) (inject_Z m / 7 * 3) = (3 * m <? 7 * n).
Proof.
  unfold JS.gtb, Qle_bool, Qdiv, Qmult, Qinv, inject_Z. cbn [Qnum Qden].
  destruct (Z.leb_spec (n * Zpos (1 * 7 * 1)) (m * 1 * 3 * 1)),
           (Z.ltb_spec (3 * m) (7 * n)); try reflexivity; lia.
Qed.

Lemma gtb_int (n m : Z) : JS.gtb (inject_Z n) (inject_Z m) = (m <? n).
Proof.
  unfold JS.gtb, Qle_bool, inject_Z. cbn [Qnum Qden].
  destruct (Z.leb_spec (n * 1) (m * 1)), (Z.ltb_spec m n); try reflexivity; lia.
Qed.

End Thresholds.

(** X18.  The error-rate rule gives at most one finding, and gives one
    exactly when there are tool calls, more than 5 tool errors, and more
    than one error for ten calls. *)
Theorem error_rate_rule_on_integers (w : Analytics.WindowSummary) :
  exists l,
    AnomalyDetector.detectToolErrors w = Some l /\
    (List.length l <= 1)%nat /\
    (l <> [] <-> Rules.errorRateHigh w = true) /\
    (Analytics.toolErrors w <= 5 -> l = []).
Proof.
  unfold AnomalyDetector.detectToolErrors, AnomalyDetector.errorRate, Rules.errorRateHigh.
  destruct (Z.ltb_spec 0 (Analytics.totalToolCalls w)) as [Ht|Ht].
  - rewrite (div_by_positive _ _ Ht). cbn [JS.bind JS.ret].
    rewrite (gtb_ratio _ _ 1 10 Ht).
    replace (1 * Analytics.totalToolCalls w) with (Analytics.totalToolCalls w) by lia.
    replace (Analytics.toolErrors w * 10) with (10 * Analytics.toolErrors w) by lia.
    cbn [andb].
    destruct (Analytics.totalToolCalls w <? 10 * Analytics.toolErrors w);
      destruct (Z.ltb_spec 5 (Analytics.toolErrors w)); cbn [andb];
      eexists; (split; [reflexivity|]); cbn [List.length];
      repeat split; try lia; try discriminate; try congruence; try reflexivity;
      intros; try discriminate; try lia.
  - cbn [JS.bind JS.ret andb].
    eexists. split; [reflexivity|]. cbn.
    repeat split; try lia; try discriminate; congruence.
Qed.

Lemma error_rate_rule_on_integers_witness :
  exists l,
    AnomalyDetector.detectToolErrors Rules.emptySummary = Some l /\ l = [].
Proof.
  destruct (error_rate_rule_on_integers Rules.emptySummary) as (l & Hl & _ & _ & H).
  exists l. split; [exact Hl|]. apply H. cbn. lia.
Defined.

(** X19.  The token-spike rule reports, in order, exactly the days whose
    tokens exceed 10000 and, times seven, exceed three times the tokens of
    the week; each finding is of medium severity and carries the date and
    the tokens of its day. *)
Theorem token_spike_rule_on_integers
        (rows : list Analytics.DailyStat) (w : Analytics.WindowSummary) :
  exists l,
    AnomalyDetector.detectTokenSpikes rows w = Some l /\
    map (fun x => (AnomalyDetector.a_date x, AnomalyDetector.value x)) l =
      map (fun day => (Some (Analytics.date day), inject_Z (Analytics.d_tokens day)))
          (filter (Rules.tokenSpikeDay w) rows) /\
    Forall (fun x => AnomalyDetector.severity x = AnomalyDetector.medium) l.
Proof.
  unfold AnomalyDetector.detectTokenSpikes. rewrite div_by_seven.
  cbn [JS.bind JS.ret]. rewrite push_loop. cbn [app].
  eexists. split; [reflexivity|]. split.
  - rewrite map_map. cbn [AnomalyDetector.a_date AnomalyDetector.value].
    f_equal. apply filter_ext. intros day. unfold Rules.tokenSpikeDay.
    rewrite gtb_scaled. change 10000%Q with (inject_Z 10000). rewrite gtb_int.
    reflexivity.
  - apply Forall_map, Forall_forall. reflexivity.
Qed.

Section Dominance.
Import Analytics AnomalyDetector.

Lemma dominanceLoop_eq (totalCalls : Z) (top : list (string * Z)) (acc : list Anomaly) :
  0 < totalCalls ->
  dominanceLoop totalCalls top acc =
  Some (acc ++
        map (fun kv => Spec.dominanceFinding
                         (inject_Z (snd kv) / inject_Z totalCalls) (fst kv))
            (filter (fun kv => Rules.dominates totalCalls (snd kv)) top)).
Proof.
  intros Ht. revert acc; induction top as [|[name count] top IH]; intros acc.
  - cbn. rewrite app_nil_r. reflexivity.
  - cbn [dominanceLoop]. rewrite (div_by_positive _ _ Ht). cbn [JS.bind].
    rewrite IH. cbn [filter snd fst]. unfold Rules.dominates at 2.
    rewrite (gtb_ratio _ _ 1 2 Ht).
    replace (1 * totalCalls) with totalCalls by lia.
    replace (count * 2) with (2 * count) by lia.
    destruct ((totalCalls <? 2 * count) && (50 <? count)); [|reflexivity].
    cbn [map fst snd]. rewrite <- app_assoc. reflexivity.
Qed.

Lemma one_dominant (totalCalls : Z) (top : list (string * Z)) :
  Forall (fun kv => 0 <= snd kv) top ->
  Spec.sumOverZ snd top <= totalCalls ->
  (List.length (filter (fun kv => Rules.dominates totalCalls (snd kv)) top) <= 1)%nat.
Proof.
  intros Hnn. revert totalCalls.
  assert (Hnone : forall l T c, Forall (fun kv : string * Z => 0 <= snd kv) l ->
                    Spec.sumOverZ snd l <= T - c -> T < 2 * c ->
                    filter (fun kv : string * Z => Rules.dominates T (snd kv)) l = []).
  { induction l as [|[k v] l IHl]; intros T c Hl Hs Hc; [reflexivity|].
    inversion Hl as [|? ? Hv Hl']; subst. cbn [snd] in Hv.
    rewrite sumOverZ_cons in Hs. cbn [snd] in Hs.
    assert (0 <= Spec.sumOverZ snd l).
    { apply sumOverZ_nonneg. intros x Hx. rewrite Forall_forall in Hl'. apply Hl', Hx. }
    cbn [filter snd]. unfold Rules.dominates at 1.
    destruct (Z.ltb_spec T (2 * v)); [lia|]. cbn [andb].
    apply (IHl T c); [exact Hl'|lia|exact Hc]. }
  induction Hnn as [|[k v] l Hv Hl IH]; intros T Hs; [cbn; lia|].
  cbn [snd] in Hv. rewrite sumOverZ_cons in Hs. cbn [snd] in Hs.
  assert (0 <= Spec.sumOverZ snd l).
  { apply sumOverZ_nonneg. intros x Hx. rewrite Forall_forall in Hl. apply Hl, Hx. }
  cbn [filter snd]. unfold Rules.dominates at 1.
  destruct (Z.ltb_spec T (2 * v)); cbn [andb].
  - destruct (50 <? v).
    + rewrite (Hnone l T v); [cbn; lia|exact Hl|lia|lia].
    + rewrite (Hnone l T v); [cbn; lia|exact Hl|lia|lia].
  - apply IH. lia.
Qed.

Lemma insertDesc_sum (x : string * Z) (l : list (string * Z)) :
  Spec.sumOverZ snd (JS.insertDesc x l) = snd x + Spec.sumOverZ snd l.
Proof.
  induction l as [|a l IH]; [reflexivity|]. cbn [JS.insertDesc].
  destruct (snd a <=? snd x); rewrite !sumOverZ_cons; [reflexivity|]. rewrite IH. lia.
Qed.

Lemma sortDesc_sum (l : list (string * Z)) :
  Spec.sumOverZ snd (JS.sortDesc l) = Spec.sumOverZ snd l.
Proof.
  unfold JS.sortDesc. induction l as [|a l IH]; [reflexivity|].
  cbn [fold_right]. rewrite insertDesc_sum, sumOverZ_cons, IH. reflexivity.
Qed.

Lemma insertIndexKey_sum (x : N * (string * Z)) (l : list (N * (string * Z))) :
  Spec.sumOverZ (fun p => snd (snd p)) (JS.insertIndexKey x l) =
  snd (snd x) + Spec.sumOverZ (fun p => snd (snd p)) l.
Proof.
  induction l as [|a l IH]; [reflexivity|]. cbn [JS.insertIndexKey].
  destruct (fst x <? fst a)%N; rewrite !sumOverZ_cons; [reflexivity|]. rewrite IH. lia.
Qed.

Lemma entries_sum (o : JS.Obj) :
  Spec.sumOverZ snd (JS.entries o) = Spec.sumOverZ snd o.
Proof.
  unfold JS.entries. rewrite sumOverZ_app.
  induction o as [|kv o IH]; [reflexivity|].
  cbn [fold_right filter]. rewrite sumOverZ_cons.
  destruct (JS.arrayIndex (fst kv)) as [n|].
  - assert (E : forall l : list (N * (string * Z)),
               Spec.sumOverZ snd (map snd l) = Spec.sumOverZ (fun p => snd (snd p)) l).
    { induction l as [|a l IHl]; [reflexivity|]. cbn [map].
      rewrite !sumOverZ_cons, IHl. reflexivity. }
    rewrite E, insertIndexKey_sum, <- E. cbn [snd]. lia.
  - rewrite sumOverZ_cons. lia.
Qed.

Lemma firstn_sum_le (n : nat) (l : list (string * Z)) :
  Forall (fun kv => 0 <= snd kv) l ->
  Spec.sumOverZ snd (firstn n l) <= Spec.sumOverZ snd l.
Proof.
  intros H. rewrite <- (firstn_skipn n l) at 2. rewrite sumOverZ_app.
  assert (0 <= Spec.sumOverZ snd (skipn n l)); [|lia].
  apply sumOverZ_nonneg. intros x Hx. rewrite Forall_forall in H. apply H.
  rewrite <- (firstn_skipn n l). apply in_or_app. right. exact Hx.
Qed.

End Dominance.

(** X20.  On every summary computed by the aggregator [detectHighToolUsage]
    reports at most one dominating tool, and at most one high-frequency
    finding, the latter exactly when the window has sessions and more than
    100 tool calls per session. *)
Theorem at_most_one_tool_dominates (tz : Z) (a : Analytics.t) (days : Z) :
  exists w l,
    Analytics.getWeeklySummary tz a days = Some w /\
    AnomalyDetector.detectHighToolUsage w = Some l /\
    (List.length (AnomalyDetector.ofType AnomalyDetector.tool_dominance l) <= 1)%nat /\
    (List.length (AnomalyDetector.ofType AnomalyDetector.high_tool_frequency l) <= 1)%nat /\
    (AnomalyDetector.ofType AnomalyDetector.high_tool_frequency l <> [] <->
     Rules.frequencyHigh w = true).
Proof.
  destruct (getWeeklySummary_fields tz a days)
    as (w & Hw & _ & _ & Hc & _ & _ & _ & _ & Ht & _).
  assert (Hentry : forall n c,
            In (n, c) (JS.sortDesc (JS.entries
                         (fst (fold_left (Analytics.tally tz) (Analytics.filterByDays a days)
                                         ([], repeat 0 24))))) -> 1 <= c).
  { intros n c Hin. rewrite tally_fst in Hin.
    apply (proj1 (sortDesc_In _ _)) in Hin.
    apply (proj1 (entries_In _ _)) in Hin.
    destruct (count_all_calls (Analytics.filterByDays a days) []) as (_ & Hp & _).
    cbv zeta in Hp. specialize (Hp (Forall_nil _)).
    rewrite Forall_forall in Hp. apply (Hp (n, c) Hin). }
  exists w.
  assert (Hfreq : exists r,
            AnomalyDetector.toolsPerSession w = Some r /\
            JS.gtb r 100 = Rules.frequencyHigh w).
  { unfold AnomalyDetector.toolsPerSession, Rules.frequencyHigh.
    destruct (Z.ltb_spec 0 (Analytics.totalSessions w)) as [Hs|Hs].
    - rewrite (div_by_positive _ _ Hs). eexists. split; [reflexivity|].
      cbn [andb]. change 100%Q with (100 # 1). rewrite (gtb_ratio _ _ 100 1 Hs).
      f_equal. lia.
    - exists 0%Q. split; reflexivity. }
  destruct Hfreq as (r & Hr & Hg).
  assert (Hdom : exists dom,
            AnomalyDetector.dominanceLoop (Analytics.totalToolCalls w)
                                          (Analytics.topTools w) [] = Some dom /\
            Forall (fun x => AnomalyDetector.a_type x = AnomalyDetector.tool_dominance) dom /\
            (List.length dom <= 1)%nat).
  { destruct (Z.ltb_spec 0 (Analytics.totalToolCalls w)) as [Hpos|Hle].
    - rewrite (dominanceLoop_eq _ _ [] Hpos). cbn [app]. eexists.
      split; [reflexivity|]. split; [apply Forall_map, Forall_forall; reflexivity|].
      rewrite length_map. apply one_dominant.
      + apply Forall_forall. intros [n c] Hin. cbn [snd].
        rewrite Ht in Hin.
        match type of Hin with
        | In _ (firstn 10 ?L) =>
            assert (Hall : In (n, c) L)
              by (rewrite <- (firstn_skipn 10 L); apply in_or_app; left; exact Hin)
        end.
        specialize (Hentry n c Hall). lia.
      + rewrite Ht.
        etransitivity; [apply firstn_sum_le|].
        * apply Forall_forall. intros [n c] Hin. cbn [snd].
          specialize (Hentry n c Hin). lia.
        * rewrite tally_fst, sortDesc_sum, entries_sum.
          destruct (stats_of_sessions (Analytics.filterByDays a days) []) as (H1 & _ & H3 & _).
          cbv zeta in H1, H3. cbn [map] in H1. rewrite <- H1.
          assert (E : forall st : Analytics.ToolStats,
                     Spec.sumOverZ snd (map Tables.countOf st) =
                     Spec.sumOverZ (fun kv => fst (snd kv)) st).
          { induction st as [|x st IHst]; [reflexivity|]. cbn [map].
            rewrite !sumOverZ_cons, IHst. reflexivity. }
          rewrite E, H3, Hc, sumZ_sumOver. cbn. lia.
    - assert (Hz : Analytics.totalToolCalls w = 0).
      { assert (0 <= Analytics.totalToolCalls w); [|lia].
        rewrite Hc, sumZ_sumOver. apply sumOverZ_nonneg.
        intros s _. unfold JS.len. lia. }
      rewrite (no_calls_no_tools tz a days w Hw Hz). exists [].
      split; [reflexivity|]. split; [constructor|cbn; lia]. }
  destruct Hdom as (dom & Hd & Tdom & Ldom).
  unfold AnomalyDetector.detectHighToolUsage. rewrite Hd, Hr. cbn [JS.bind JS.ret].
  rewrite Hg.
  pose proof (ofType_all AnomalyDetector.tool_dominance dom Tdom) as Ed.
  pose proof (ofType_none AnomalyDetector.high_tool_frequency
                          AnomalyDetector.tool_dominance dom eq_refl Tdom) as En.
  destruct (Rules.frequencyHigh w).
  - eexists. split; [exact Hw|]. split; [reflexivity|].
    unfold AnomalyDetector.ofType in *. rewrite !filter_app, Ed, En. cbn.
    rewrite app_nil_r. repeat split; try lia; try discriminate; auto.
  - exists dom. split; [exact Hw|]. split; [reflexivity|].
    rewrite Ed, En. cbn. repeat split; try lia; try discriminate; congruence.
Qed.

Section IdleWeek.
Import LogParser Analytics AnomalyDetector.

Variable tz : Z.

Lemma bucket_within_window (a : Analytics.t) (days i : Z) (s : Session) :
  0 <= i < days -> Spec.inBucket tz a i s = true ->
  In s (sessions a) -> In s (filterByDays a days).
Proof.
  intros Hi Hb Hin. apply filterByDays_In. split; [exact Hin|].
  unfold Spec.inBucket in Hb. destruct (startTime s) as [st|] eqn:Es; [|discriminate].
  apply andb_prop in Hb. destruct Hb as [Hb _]. apply Z.leb_le in Hb.
  rewrite bucketStart_eq in Hb.
  exists st. split; [exact Es|].
  pose proof (startOfDay_bounds tz (now a)). pose proof msPerDay_pos. nia.
Qed.

Lemma idle_day (a : Analytics.t) (days i : Z) :
  filterByDays a days = [] -> 0 <= i < days ->
  dayStat tz a i = Spec.zeroRow (isoDate (bucketStart tz a i)).
Proof.
  intros Hw Hi. apply dayStat_zero. unfold dayStat. cbn [d_sessions].
  rewrite daySessions_inBucket, filter_none; [reflexivity|].
  intros s Hs. destruct (Spec.inBucket tz a i s) eqn:E; [|reflexivity].
  pose proof (bucket_within_window a days i s Hi E Hs) as H.
  rewrite Hw in H. destruct H.
Qed.

Lemma idle_summary (a : Analytics.t) (days : Z) :
  filterByDays a days = [] -> getWeeklySummary tz a days = Some Rules.emptySummary.
Proof. intros H. unfold getWeeklySummary. rewrite H. reflexivity. Qed.

End IdleWeek.

(** X21.  When no session started in the last seven days the detector
    returns exactly six activity-gap findings, for the second to the seventh
    day of the week, valued 2 to 7, and nothing else. *)
Theorem idle_week_gives_six_gap_findings (tz : Z) (a : Analytics.t) :
  Analytics.filterByDays a 7 = [] ->
  AnomalyDetector.detect tz a =
    Some (Spec.runFindings (Analytics.getDailyStats tz a 7)) /\
  map AnomalyDetector.value (Spec.runFindings (Analytics.getDailyStats tz a 7)) =
    [inject_Z 2; inject_Z 3; inject_Z 4; inject_Z 5; inject_Z 6; inject_Z 7] /\
  map AnomalyDetector.a_date (Spec.runFindings (Analytics.getDailyStats tz a 7)) =
    map (fun i => Some (Analytics.date (Analytics.dayStat tz a i))) [5; 4; 3; 2; 1; 0].
Proof.
  intros H.
  assert (Hrows : Analytics.getDailyStats tz a 7 =
                  map (fun i => Spec.zeroRow (Analytics.isoDate (Analytics.bucketStart tz a i)))
                      [6; 5; 4; 3; 2; 1; 0]).
  { rewrite getDailyStats_eq. change (Z.to_nat 7) with 7%nat.
    cbn [seq map rev app Z.of_nat Pos.of_succ_nat Pos.succ].
    rewrite !(idle_day tz a 7) by (exact H || lia). reflexivity. }
  unfold AnomalyDetector.detect. rewrite (idle_summary tz a 7 H), Hrows.
  cbn [map].
  rewrite !(idle_day tz a 7) by (exact H || lia).
  generalize (Analytics.isoDate (Analytics.bucketStart tz a 6))
             (Analytics.isoDate (Analytics.bucketStart tz a 5))
             (Analytics.isoDate (Analytics.bucketStart tz a 4))
             (Analytics.isoDate (Analytics.bucketStart tz a 3))
             (Analytics.isoDate (Analytics.bucketStart tz a 2))
             (Analytics.isoDate (Analytics.bucketStart tz a 1))
             (Analytics.isoDate (Analytics.bucketStart tz a 0)).
  intros d6 d5 d4 d3 d2 d1 d0. vm_compute. repeat split.
Qed.

Lemma idle_week_gives_six_gap_findings_witness :
  Analytics.filterByDays (Analytics.mk [Sample.undatedSession] Sample.noon) 7 = [] /\
  AnomalyDetector.detect 0 (Analytics.mk [Sample.undatedSession] Sample.noon) =
    Some (Spec.runFindings
            (Analytics.getDailyStats 0 (Analytics.mk [Sample.undatedSession] Sample.noon) 7)).
Proof.
  split; [reflexivity|].
  apply (idle_week_gives_six_gap_findings 0
           (Analytics.mk [Sample.undatedSession] Sample.noon)).
  reflexivity.
Defined.

(** ** The live counters *)

Section LiveCounters.
Import Log Watcher.

Lemma processEntry_eq (clock : Z) (st : RunningStats) (e : Entry) :
  processEntry clock st e =
  mkStats (messages st + Hot.userInc e) (toolCalls st + Hot.toolInc e)
          (tokens st + Hot.tokenInc e) (errors st + Hot.errorInc e)
          (Some (Hot.seenAt clock e)).
Proof.
  unfold processEntry, Hot.userInc, Hot.toolInc, Hot.tokenInc, Hot.errorInc,
    Hot.seenAt, Spec.messageOf.
  destruct (e_message e) as [msg|], (String.eqb (e_type e) "message");
    cbn [messages toolCalls tokens errors lastActivity];
    rewrite ?Z.add_0_r; try reflexivity.
  destruct (String.eqb_spec (m_role msg) "user") as [Hu|Hu].
  - rewrite Hu. cbn. rewrite ?Z.add_0_r. reflexivity.
  - destruct (String.eqb_spec (m_role msg) "assistant") as [Ha|Ha].
    + rewrite Ha. cbn. rewrite ?Z.add_0_r. reflexivity.
    + destruct (String.eqb (m_role msg) "toolResult" && m_isError msg);
        cbn; rewrite ?Z.add_0_r; reflexivity.
Qed.

Lemma follow_eq (lines : list (Z * Entry)) (st : RunningStats) :
  messages (Hot.follow st lines) = messages st + Spec.sumOverZ (fun te => Hot.userInc (snd te)) lines /\
  toolCalls (Hot.follow st lines) = toolCalls st + Spec.sumOverZ (fun te => Hot.toolInc (snd te)) lines /\
  tokens (Hot.follow st lines) = tokens st + Spec.sumOverZ (fun te => Hot.tokenInc (snd te)) lines /\
  errors (Hot.follow st lines) = errors st + Spec.sumOverZ (fun te => Hot.errorInc (snd te)) lines.
Proof.
  unfold Hot.follow. revert st; induction lines as [|[c e] lines IH]; intros st.
  - cbn. repeat split; lia.
  - cbn [fold_left fst snd]. destruct (IH (processEntry c st e)) as (H1 & H2 & H3 & H4).
    rewrite H1, H2, H3, H4, processEntry_eq, !sumOverZ_cons.
    cbn [messages toolCalls tokens errors snd]. repeat split; lia.
Qed.

Lemma incs_range (e : Entry) :
  0 <= Hot.userInc e <= 1 /\ 0 <= Hot.toolInc e /\ 0 <= Hot.errorInc e <= 1.
Proof.
  unfold Hot.userInc, Hot.toolInc, Hot.errorInc, calledTools.
  destruct (Spec.messageOf e) as [m|]; [|lia].
  destruct (String.eqb (m_role m) "user"),
    (String.eqb (m_role m) "assistant"),
    (String.eqb (m_role m) "toolResult" && m_isError m);
    destruct (m_content m) as [blocks|];
    try pose proof (count_range _ isToolCall blocks); lia.
Qed.

End LiveCounters.

(** X22.  One entry never lowers the [messages], [toolCalls] and [errors]
    counters of the watcher, and raises [messages] and [errors] by at most
    one; [tokens] does not go down unless the entry reports a negative
    token total; [lastActivity] becomes the timestamp of the entry, or the
    current time when it has none, whatever it was before. *)
Theorem watcher_counters_only_grow
        (clock : Z) (st : Watcher.RunningStats) (e : Log.Entry) :
  let st' := Watcher.processEntry clock st e in
  Watcher.messages st <= Watcher.messages st' <= Watcher.messages st + 1 /\
  Watcher.toolCalls st <= Watcher.toolCalls st' /\
  Watcher.errors st <= Watcher.errors st' <= Watcher.errors st + 1 /\
  Watcher.tokens st' = Watcher.tokens st + Hot.tokenInc e /\
  Watcher.lastActivity st' = Some (Hot.seenAt clock e).
Proof.
  intros st'. subst st'. rewrite processEntry_eq.
  cbn [Watcher.messages Watcher.toolCalls Watcher.tokens Watcher.errors
       Watcher.lastActivity].
  destruct (incs_range e) as (Hu & Ht & He). repeat split; lia.
Qed.

Section HotAndCold.
Import Log LogParser.

Lemma tokenInc_sum (lines : list (Z * Entry)) :
  Spec.sumOverZ (fun te => Hot.tokenInc (snd te)) lines =
  Spec.sumOverZ Spec.deltaTotal (Spec.assistantMessages (map snd lines)).
Proof.
  induction lines as [|[c e] lines IH]; [reflexivity|].
  cbn [map snd]. rewrite sumOverZ_cons, assistantMessages_cons, sumOverZ_app, IH.
  f_equal. cbn [snd]. unfold Hot.tokenInc, Spec.assistantMessages. cbn [flat_map].
  destruct (Spec.messageOf e) as [m|]; [|reflexivity].
  destruct (String.eqb (m_role m) "assistant"); [|reflexivity].
  cbn. unfold Spec.deltaTotal, Watcher.usedTokens. lia.
Qed.

Lemma userInc_sum (lines : list (Z * Entry)) :
  Spec.sumOverZ (fun te => Hot.userInc (snd te)) lines =
  JS.count (fun r => String.eqb r "user") (Views.messageRoles (map snd lines)).
Proof.
  induction lines as [|[c e] lines IH]; [reflexivity|].
  cbn [map snd]. rewrite sumOverZ_cons, IH. cbn [snd].
  unfold Views.messageRoles. cbn [flat_map]. unfold JS.count, JS.len.
  rewrite filter_app, length_app, Nat2Z.inj_add. f_equal.
  unfold Hot.userInc. destruct (Spec.messageOf e) as [m|]; [|reflexivity].
  cbn [filter]. destruct (String.eqb (m_role m) "user"); reflexivity.
Qed.

Lemma toolInc_sum (lines : list (Z * Entry)) :
  0 <= Spec.sumOverZ (fun te => Hot.toolInc (snd te)) lines <=
  JS.len (Spec.producedIds (map snd lines)).
Proof.
  induction lines as [|[c e] lines IH]; [cbn; unfold JS.len; cbn; lia|].
  cbn [map snd]. rewrite sumOverZ_cons. cbn [snd].
  change (e :: map snd lines) with ([e] ++ map snd lines).
  rewrite producedIds_app. unfold JS.len in *. rewrite length_app, Nat2Z.inj_add.
  assert (0 <= Hot.toolInc e <= Z.of_nat (List.length (Spec.producedIds [e]))); [|lia].
  unfold Hot.toolInc, Spec.producedIds. cbn [flat_map]. rewrite app_nil_r.
  destruct (Spec.messageOf e) as [m|]; [|cbn; lia].
  unfold Watcher.calledTools, blockCalls.
  destruct (m_content m) as [blocks|];
    destruct (String.eqb (m_role m) "assistant"); cbn [List.length map]; try lia.
  rewrite !length_map. unfold JS.count, JS.len. lia.
Qed.

Lemma count_roles (l : list Message) :
  JS.count (Analytics.hasRole "user") l =
  JS.count (fun r => String.eqb r "user") (map msg_role l).
Proof.
  unfold JS.count, JS.len. f_equal.
  induction l as [|m l IH]; [reflexivity|].
  cbn [filter map]. unfold Analytics.hasRole at 1.
  destruct (String.eqb (msg_role m) "user"); cbn [List.length]; rewrite IH; reflexivity.
Qed.

End HotAndCold.

(** X23.  Followed from its start, the watcher agrees with the parser on a
    file: its [tokens] are the [tokens.total] of the built session, its
    [messages] are the user messages of the session, and its [toolCalls]
    are at most the tool calls of the session (it counts the tool
    invocations of assistant messages only). *)
Theorem watcher_agrees_with_parser
        (lines : list (Z * Log.Entry)) (name filePath : string) :
  let hot := Hot.follow Watcher.initialStats lines in
  let cold := LogParser.processSession (map snd lines) name filePath in
  Watcher.tokens hot = LogParser.total (LogParser.tokens cold) /\
  Watcher.messages hot = JS.count (Analytics.hasRole "user") (LogParser.messages cold) /\
  0 <= Watcher.toolCalls hot <= JS.len (LogParser.toolCalls cold).
Proof.
  intros hot cold. subst hot cold.
  destruct (follow_eq lines Watcher.initialStats) as (Hm & Hc & Ht & _).
  rewrite Hm, Hc, Ht. cbn [Watcher.initialStats Watcher.messages Watcher.toolCalls Watcher.tokens].
  unfold LogParser.processSession.
  destruct (finish_keeps (LogParser.foldEntries (LogParser.emptySession name filePath)
                                                (map snd lines)))
    as (-> & _ & -> & -> & _).
  rewrite foldEntries_total, tokenInc_sum, userInc_sum, count_roles, foldEntries_messages.
  cbn [LogParser.emptySession LogParser.tokens LogParser.total LogParser.messages map app].
  split; [lia|]. split; [lia|].
  pose proof (toolInc_sum lines) as H.
  unfold JS.len in *. rewrite <- (length_map LogParser.tc_id), foldEntries_ids.
  cbn [LogParser.emptySession LogParser.toolCalls map app]. lia.
Qed.

(** ** Following files *)

Section Offsets.
Import Watcher.

Lemma getPos_setPos_same (path : string) (v : Z) (m : Positions) :
  getPos path (setPos path v m) = Some v.
Proof.
  induction m as [|[k w] m IH]; cbn [setPos getPos].
  - rewrite String.eqb_refl. reflexivity.
  - destruct (String.eqb path k) eqn:E; cbn [getPos]; rewrite E; [reflexivity|exact IH].
Qed.

Lemma getPos_setPos_other (path q : string) (v : Z) (m : Positions) :
  q <> path -> getPos q (setPos path v m) = getPos q m.
Proof.
  intros Hne. induction m as [|[k w] m IH]; cbn [setPos getPos].
  - destruct (String.eqb_spec q path); [contradiction|reflexivity].
  - destruct (String.eqb_spec path k) as [->|Hk]; cbn [getPos].
    + destruct (String.eqb_spec q k); [contradiction|reflexivity].
    + rewrite IH. reflexivity.
Qed.

Lemma scanned_positions (size : string -> Z) (fullPath : string -> string)
      (files : list string) (m : Positions) (k : string) :
  getPos k (fold_left (fun acc f => setPos (fullPath f) (size (fullPath f)) acc) files m) =
  if existsb (fun f => String.eqb (fullPath f) k) files then Some (size k) else getPos k m.
Proof.
  revert m; induction files as [|f files IH]; intros m; [reflexivity|].
  cbn [fold_left existsb]. rewrite IH.
  destruct (existsb (fun f0 => String.eqb (fullPath f0) k) files).
  - rewrite orb_true_r. reflexivity.
  - rewrite orb_false_r. destruct (String.eqb_spec (fullPath f) k) as [<-|Hne].
    + apply getPos_setPos_same.
    + apply getPos_setPos_other. congruence.
Qed.

End Offsets.

(** X24.  [processNewLines] reads a file only when it has grown beyond the
    stored offset: otherwise, also when the file has shrunk, the state is
    unchanged and the offset is not reset.  When the file has grown, the
    entries that start at the stored offset are folded into the counters
    and the offset becomes the size of the file, so that a second call on
    the unchanged file does nothing; the offsets of other files are never
    touched. *)
Theorem watcher_reads_only_growth
        (size : string -> Z) (arrivals : string -> Z -> list (Z * Log.Entry))
        (st : Watcher.State) (path : string) :
  let st' := Watcher.processNewLines size arrivals st path in
  (size path <= Watcher.startPos st path -> st' = st) /\
  (Watcher.startPos st path < size path ->
   Watcher.startPos st' path = size path /\
   Watcher.stats st' =
     Hot.follow (Watcher.stats st) (arrivals path (Watcher.startPos st path))) /\
  Watcher.processNewLines size arrivals st' path = st' /\
  (forall q, q <> path ->
             Watcher.getPos q (Watcher.filePositions st') =
             Watcher.getPos q (Watcher.filePositions st)).
Proof.
  intros st'. subst st'. unfold Watcher.processNewLines.
  destruct (Z.leb_spec (size path) (Watcher.startPos st path)) as [Hle|Hgt].
  - split; [reflexivity|]. split; [lia|]. split; [|reflexivity].
    destruct (Z.leb_spec (size path) (Watcher.startPos st path)); [reflexivity|lia].
  - split; [lia|].
    assert (Hpos : Watcher.startPos
                     {| Watcher.filePositions :=
                          Watcher.setPos path (size path) (Watcher.filePositions st);
                        Watcher.stats :=
                          fold_left (fun acc te => Watcher.processEntry (fst te) acc (snd te))
                                    (arrivals path (Watcher.startPos st path))
                                    (Watcher.stats st) |} path = size path).
    { unfold Watcher.startPos at 1. cbn [Watcher.filePositions].
      rewrite getPos_setPos_same. reflexivity. }
    split; [intros _; split; [exact Hpos|reflexivity]|]. split.
    + rewrite Hpos. rewrite Z.leb_refl. reflexivity.
    + intros q Hq. cbn [Watcher.filePositions]. apply getPos_setPos_other, Hq.
Qed.

Lemma watcher_reads_only_growth_witness :
  Watcher.startPos SampleWatch.fresh "/logs/a.jsonl" < SampleWatch.size "/logs/a.jsonl" /\
  Watcher.startPos
    (Watcher.processNewLines SampleWatch.size SampleWatch.arrivals
                             SampleWatch.fresh "/logs/a.jsonl") "/logs/a.jsonl" = 100.
Proof.
  split; [reflexivity|].
  apply (watcher_reads_only_growth SampleWatch.size SampleWatch.arrivals
                                   SampleWatch.fresh "/logs/a.jsonl").
  reflexivity.
Defined.

(** X25.  [scanExisting] leaves the counters alone and, for a missing
    directory, the whole state; it records for every listed file its
    current size, so that a change event on a file that has not grown since
    the scan changes nothing: the history of existing files is not
    replayed. *)
Theorem scan_does_not_replay_history
        (size : string -> Z) (arrivals : string -> Z -> list (Z * Log.Entry))
        (fullPath : string -> string) (st : Watcher.State) :
  Watcher.scanExisting size fullPath st None = st /\
  forall files f,
    let scanned := Watcher.scanExisting size fullPath st (Some files) in
    Watcher.stats scanned = Watcher.stats st /\
    (In f files -> Watcher.listed f = true ->
     Watcher.startPos scanned (fullPath f) = size (fullPath f) /\
     Watcher.processNewLines size arrivals scanned (fullPath f) = scanned).
Proof.
  split; [reflexivity|]. intros files f scanned. split; [reflexivity|].
  intros Hin Hl.
  assert (Hpos : Watcher.startPos scanned (fullPath f) = size (fullPath f)).
  { subst scanned. unfold Watcher.startPos, Watcher.scanExisting.
    cbn [Watcher.filePositions]. rewrite scanned_positions.
    replace (existsb (fun f0 => String.eqb (fullPath f0) (fullPath f))
                     (filter Watcher.listed files)) with true; [reflexivity|].
    symmetry. apply existsb_exists. exists f. split; [|apply String.eqb_refl].
    apply filter_In. split; assumption. }
  split; [exact Hpos|].
  unfold Watcher.processNewLines. rewrite Hpos, Z.leb_refl. reflexivity.
Qed.

Lemma scan_does_not_replay_history_witness :
  In "a.jsonl" ["a.jsonl"; "b.jsonl.lock"] /\
  Watcher.listed "a.jsonl" = true /\
  Watcher.processNewLines SampleWatch.size SampleWatch.arrivals
    (Watcher.scanExisting SampleWatch.size SampleWatch.fullPath SampleWatch.fresh
                          (Some ["a.jsonl"; "b.jsonl.lock"]))
    (SampleWatch.fullPath "a.jsonl") =
  Watcher.scanExisting SampleWatch.size SampleWatch.fullPath SampleWatch.fresh
                       (Some ["a.jsonl"; "b.jsonl.lock"]).
Proof.
  split; [left; reflexivity|]. split; [reflexivity|].
  destruct (scan_does_not_replay_history SampleWatch.size SampleWatch.arrivals
                                         SampleWatch.fullPath SampleWatch.fresh) as [_ H].
  destruct (H ["a.jsonl"; "b.jsonl.lock"] "a.jsonl") as [_ H2].
  apply H2; [left; reflexivity|reflexivity].
Defined.

(** X26.  The [add] and [change] handlers ignore every path the name
    filter rejects.  For an accepted path, [add] sets the offset to zero,
    also when the file was tracked before, so that the next [change] on a
    file that is not empty reads it from its first byte and leaves the
    offset at its size. *)
Theorem added_file_is_read_from_its_start
        (size : string -> Z) (arrivals : string -> Z -> list (Z * Log.Entry))
        (st : Watcher.State) (path : string) :
  (Watcher.watched path = false ->
   Watcher.onAdd st path = st /\ Watcher.onChange size arrivals st path = st) /\
  (Watcher.watched path = true -> 0 < size path ->
   let st' := Watcher.onChange size arrivals (Watcher.onAdd st path) path in
   Watcher.stats st' = Hot.follow (Watcher.stats st) (arrivals path 0) /\
   Watcher.startPos st' path = size path).
Proof.
  unfold Watcher.onAdd, Watcher.onChange. split; intros Hw; rewrite Hw.
  - split; reflexivity.
  - intros Hsz. cbn zeta.
    assert (H0 : Watcher.startPos
                   {| Watcher.filePositions :=
                        Watcher.setPos path 0 (Watcher.filePositions st);
                      Watcher.stats := Watcher.stats st |} path = 0).
    { unfold Watcher.startPos. cbn [Watcher.filePositions].
      rewrite getPos_setPos_same. reflexivity. }
    unfold Watcher.processNewLines. rewrite H0.
    destruct (Z.leb_spec (size path) 0); [lia|].
    split; [reflexivity|].
    unfold Watcher.startPos. cbn [Watcher.filePositions].
    rewrite getPos_setPos_same. reflexivity.
Qed.

Lemma added_file_is_read_from_its_start_witness :
  Watcher.watched "/logs/a.jsonl" = true /\
  0 < SampleWatch.size "/logs/a.jsonl" /\
  Watcher.messages
    (Watcher.stats
       (Watcher.onChange SampleWatch.size SampleWatch.arrivals
          (Watcher.onAdd SampleWatch.fresh "/logs/a.jsonl") "/logs/a.jsonl")) = 1.
Proof.
  split; [reflexivity|]. split; [reflexivity|].
  destruct (added_file_is_read_from_its_start SampleWatch.size SampleWatch.arrivals
              SampleWatch.fresh "/logs/a.jsonl") as [_ H].
  destruct (H eq_refl eq_refl) as [Hs _].
  rewrite Hs. reflexivity.
Defined.

(** X27.  The scan and the [change] handler do not filter names alike:
    the scan skips a name that contains [.deleted], the handler does not.
    A file the scan skipped for that reason has no offset, so the first
    [change] on it, when it is not empty, reads it from its first byte:
    its history is counted. *)
Theorem change_replays_a_file_the_scan_skipped
        (size : string -> Z) (arrivals : string -> Z -> list (Z * Log.Entry))
        (fullPath : string -> string) (st : Watcher.State)
        (files : list string) (f : string) :
  (forall g h, fullPath g = fullPath h -> g = h) ->
  Watcher.getPos (fullPath f) (Watcher.filePositions st) = None ->
  Watcher.listed f = false ->
  Watcher.watched (fullPath f) = true ->
  0 < size (fullPath f) ->
  Watcher.stats
    (Watcher.onChange size arrivals
       (Watcher.scanExisting size fullPath st (Some files)) (fullPath f)) =
  Hot.follow (Watcher.stats st) (arrivals (fullPath f) 0).
Proof.
  intros Hinj Hnone Hl Hw Hsz.
  unfold Watcher.onChange. rewrite Hw.
  assert (H0 : Watcher.startPos (Watcher.scanExisting size fullPath st (Some files))
                                (fullPath f) = 0).
  { unfold Watcher.startPos, Watcher.scanExisting. cbn [Watcher.filePositions].
    rewrite scanned_positions.
    replace (existsb (fun f0 => String.eqb (fullPath f0) (fullPath f))
                     (filter Watcher.listed files)) with false; [rewrite Hnone; reflexivity|].
    symmetry. apply not_true_is_false. intros Hex.
    apply existsb_exists in Hex. destruct Hex as (g & Hg & Heq).
    apply filter_In in Hg. destruct Hg as [_ Hg].
    apply String.eqb_eq in Heq. apply Hinj in Heq. subst g. congruence. }
  unfold Watcher.processNewLines. rewrite H0.
  destruct (Z.leb_spec (size (fullPath f)) 0); [lia|]. reflexivity.
Qed.

Lemma sample_paths_differ (g h : string) :
  SampleWatch.fullPath g = SampleWatch.fullPath h -> g = h.
Proof.
  unfold SampleWatch.fullPath. cbn [String.append]. intros H.
  injection H as H. exact H.
Qed.

Lemma change_replays_a_file_the_scan_skipped_witness :
  Watcher.listed "old.deleted.jsonl" = false /\
  Watcher.watched (SampleWatch.fullPath "old.deleted.jsonl") = true /\
  Watcher.messages
    (Watcher.stats
       (Watcher.onChange SampleWatch.size SampleWatch.arrivals
          (Watcher.scanExisting SampleWatch.size SampleWatch.fullPath SampleWatch.fresh
                                (Some ["a.jsonl"; "old.deleted.jsonl"]))
          (SampleWatch.fullPath "old.deleted.jsonl"))) = 1.
Proof.
  split; [reflexivity|]. split; [reflexivity|].
  rewrite (change_replays_a_file_the_scan_skipped
             SampleWatch.size SampleWatch.arrivals SampleWatch.fullPath SampleWatch.fresh
             ["a.jsonl"; "old.deleted.jsonl"] "old.deleted.jsonl"
             sample_paths_differ eq_refl eq_refl eq_refl eq_refl).
  reflexivity.
Defined.

(** ** The heat map *)

Section HeatMap.
Import Reporter.

Lemma heatMax_spec (l : list Z) :
  1 <= heatMax l /\ forall v, In v l -> v <= heatMax l.
Proof.
  unfold heatMax. destruct (maxOf_from l 1) as (H1 & H2 & _). split; assumption.
Qed.

Lemma intensity_eq (l : list Z) (v : Z) :
  intensity l v = Some (v * 3 / heatMax l).
Proof.
  unfold intensity. destruct (heatMax_spec l) as [Hm _].
  assert (Hp : 0 < heatMax l) by lia.
  rewrite (div_by_positive _ _ Hp). cbn [JS.bind]. unfold JS.ret.
  apply (f_equal Some). clear Hm. destruct (heatMax l) as [|mp|mp]; try lia.
  unfold Qfloor, Qdiv, Qmult, Qinv, inject_Z. cbn.
  rewrite Z.mul_1_r, Pos.mul_1_r. reflexivity.
Qed.

Lemma cell_defined (l : list Z) (v : Z) :
  0 <= v -> In v l ->
  exists c, cell l v = Some c /\ c <> Undefined /\
            (v = 0 -> c = Blank) /\
            (0 < v -> v = heatMax l -> c = Shaded Full).
Proof.
  intros Hv Hin. unfold cell. rewrite intensity_eq. cbn [JS.bind JS.ret].
  destruct (heatMax_spec l) as [Hm Hall]. specialize (Hall v Hin).
  assert (Hr : 0 <= v * 3 / heatMax l <= 3).
  { split; [apply Z.div_pos; lia|]. apply Z.div_le_upper_bound; lia. }
  eexists. split; [reflexivity|].
  destruct (Z.eqb_spec v 0) as [->|Hnz].
  - split; [discriminate|]. split; [reflexivity|]. intros; lia.
  - unfold blockAt. destruct (Z.ltb_spec (v * 3 / heatMax l) 0); [lia|].
    assert (Hcases : v * 3 / heatMax l = 0 \/ v * 3 / heatMax l = 1 \/
                     v * 3 / heatMax l = 2 \/ v * 3 / heatMax l = 3) by lia.
    split; [|split].
    + destruct Hcases as [E|[E|[E|E]]]; rewrite E; discriminate.
    + intros; lia.
    + intros _ E. rewrite <- E, Z.mul_comm, Z.div_mul by lia. reflexivity.
Qed.

Lemma heatLine_defined (l : list Z) (hours : list nat) :
  Forall (fun v => 0 <= v) l ->
  (forall i, In i hours -> (i < List.length l)%nat) ->
  exists out, heatLine l hours = Some out /\
              List.length out = List.length hours /\
              Forall (fun c => c <> Undefined) out.
Proof.
  intros Hnn. rewrite Forall_forall in Hnn.
  induction hours as [|i hours IH]; intros H.
  - exists []. repeat split. constructor.
  - destruct (nth_error l i) as [v|] eqn:Ev.
    2:{ apply nth_error_None in Ev. specialize (H i (or_introl eq_refl)). lia. }
    pose proof (nth_error_In _ _ Ev) as Hin.
    destruct (cell_defined l v (Hnn v Hin) Hin) as (c & Hc & Hd & _).
    destruct IH as (out & Ho & Hlen & Hall).
    { intros x Hx. apply H. right. exact Hx. }
    exists (c :: out). cbn [heatLine]. rewrite Ev, Hc, Ho. cbn [JS.bind JS.ret].
    split; [reflexivity|]. split; [cbn; lia|]. constructor; assumption.
Qed.

End HeatMap.

(** X28.  On the histogram of any summary the heat map prints 24 cells and
    never reads [blocks] outside its bounds: every cell is a space (for an
    hour without sessions) or one of the four shades, the darkest for an
    hour that holds the maximum. *)
Theorem heat_map_cells_are_defined (tz : Z) (a : Analytics.t) (days : Z) :
  exists w cells,
    Analytics.getWeeklySummary tz a days = Some w /\
    Reporter.printHourlyHeatmap (Analytics.hourlyActivity w) = Some cells /\
    List.length cells = 24%nat /\
    Forall (fun c => c <> Reporter.Undefined) cells /\
    (forall v, In v (Analytics.hourlyActivity w) ->
       exists c, Reporter.cell (Analytics.hourlyActivity w) v = Some c /\
                 (v = 0 -> c = Reporter.Blank) /\
                 (0 < v -> v = Reporter.heatMax (Analytics.hourlyActivity w) ->
                  c = Reporter.Shaded Reporter.Full)).
Proof.
  destruct (summary_hours tz a days) as (w & Hw & Hlen & Hnn & _).
  destruct (heatLine_defined (Analytics.hourlyActivity w) (seq 0 24) Hnn)
    as (cells & Hc & Hl & Hall).
  { intros i Hi. apply in_seq in Hi. rewrite Hlen. lia. }
  exists w, cells. split; [exact Hw|]. split; [exact Hc|].
  split; [rewrite Hl; reflexivity|]. split; [exact Hall|].
  rewrite Forall_forall in Hnn.
  intros v Hv. destruct (cell_defined _ v (Hnn v Hv) Hv) as (c & Hcell & _ & H0 & Hmax).
  exists c. repeat split; assumption.
Qed.
